(** * Trading dashboard: simulation core, stream formatting, run identities
      and OHLC aggregation

    A shallow embedding of the TypeScript sources of the trading dashboard
    backend, and the properties its specification states about them.  Part
    III covers more of the sources: the stream loop, the cache and the
    cached database client, the retry loop of the database client, and the
    request handling of the chart, health, latest, target, split and control
    endpoints.

    Conventions of the embedding.
    - A JavaScript [number] is an exact rational ([Q]); the rounding of IEEE
      doubles, infinities and NaN (hence a division by zero) are outside the
      model.  Comparisons of the source ([<], [>]) are the decidable
      comparisons of [Q].
    - A [Date] is its time value: milliseconds since the epoch, in [Z].
    - A method of the [Simulator] class is a function from the object before
      the call to a completion (normal value or thrown error) and the object
      after the call.
    - What the source reads from its environment (the clock, the random
      generator, the number of connected clients) is an explicit argument.
    - A request handler is a function to its response and the calls it
      makes to the cached database client, in order; what the database
      module provides as [SupabaseClient], and what each call of the client
      returns or throws, are arguments. *)

From Stdlib Require Import QArith Qabs Qround Qminmax Qpower Lqa.
From Stdlib Require Import ZArith Lia Bool List.
From Stdlib.Strings Require Import Ascii String Byte.
From Stdlib Require Import DecimalString.
From Stdlib Require Import Permutation.
Import ListNotations.

(* ================================================================== *)
(** ** Part I.  The program *)
(* ================================================================== *)

(** *** JavaScript built-ins used by the sources *)

Module Js.

Local Open Scope Z_scope.

(** The character of a decimal digit [0..9]. *)
Definition digit (d : Z) : ascii := ascii_of_N (Z.to_N (48 + d mod 10)).

Definition two_digits (n : Z) : string :=
  String (digit (n / 10)) (String (digit n) EmptyString).

Definition three_digits (n : Z) : string :=
  String (digit (n / 100)) (two_digits n).

Definition four_digits (n : Z) : string :=
  String (digit (n / 1000)) (three_digits n).

Definition six_digits (n : Z) : string :=
  String (digit (n / 100000)) (String (digit (n / 10000)) (four_digits n)).

(** Year, month and day of the month of a day number counted from
    1970-01-01, in the proleptic Gregorian calendar. *)
Definition civil_from_days (days : Z) : Z * Z * Z :=
  let z := days + 719468 in
  let era := z / 146097 in
  let doe := z - era * 146097 in
  let yoe := (doe - doe / 1460 + doe / 36524 - doe / 146096) / 365 in
  let y := yoe + era * 400 in
  let doy := doe - (365 * yoe + yoe / 4 - yoe / 100) in
  let mp := (5 * doy + 2) / 153 in
  let d := doy - (153 * mp + 2) / 5 + 1 in
  let m := if mp <? 10 then mp + 3 else mp - 9 in
  (if m <=? 2 then y + 1 else y, m, d).

(** The year of an ISO string: four digits for the years 0 to 9999, a sign
    and six digits otherwise. *)
Definition iso_year (y : Z) : string :=
  if (0 <=? y) && (y <=? 9999) then four_digits y
  else String (if y <? 0 then "-"%char else "+"%char) (six_digits (Z.abs y)).

(** The date and time of a time value up to the seconds:
    [YYYY-MM-DDTHH:MM:SS]. *)
Definition iso_seconds (t : Z) : string :=
  let secs := t / 1000 in
  let '(y, m, d) := civil_from_days (secs / 86400) in
  (iso_year y ++ "-" ++ two_digits m ++ "-" ++ two_digits d ++ "T"
   ++ two_digits (secs / 3600 mod 24) ++ ":"
   ++ two_digits (secs / 60 mod 60) ++ ":"
   ++ two_digits (secs mod 60))%string.

(** [Date.prototype.toISOString]: [YYYY-MM-DDTHH:MM:SS.sssZ]. *)
Definition toISOString (t : Z) : string :=
  (iso_seconds t ++ "." ++ three_digits (t mod 1000) ++ "Z")%string.

(** [String.prototype.slice(b, e)] for [0 <= b <= e]. *)
Definition slice (b e : nat) (s : string) : string :=
  substring b (e - b) s.

(** [s.replace(/c/g, '')]: every occurrence of the character [c] removed. *)
Fixpoint remove_all (c : ascii) (s : string) : string :=
  match s with
  | EmptyString => EmptyString
  | String a s' =>
      if Ascii.eqb a c then remove_all c s' else String a (remove_all c s')
  end.

(** A lower-case hexadecimal digit. *)
Definition hex_digit (n : N) : ascii :=
  if (n <? 10)%N then ascii_of_N (48 + n) else ascii_of_N (87 + n).

(** [Buffer.prototype.toString('hex')]. *)
Fixpoint toHex (bytes : list byte) : string :=
  match bytes with
  | [] => EmptyString
  | b :: rest =>
      let n := Byte.to_N b in
      String (hex_digit (n / 16)) (String (hex_digit (n mod 16)) (toHex rest))
  end.

Local Open Scope Q_scope.

(** Ten to the power [f]. *)
Definition pow10 (f : nat) : Q := inject_Z (10 ^ Z.of_nat f).

(** [Number(x.toFixed(f))]: the value of the decimal string that [toFixed]
    produces.  For a magnitude of 10^21 and more [toFixed] returns the plain
    string of the number; below, the magnitude is rounded to the nearest
    multiple of 10^-f, the larger one on a tie, and the sign is put back. *)
Definition toFixed (x : Q) (f : nat) : Q :=
  if Qle_bool (pow10 21) (Qabs x) then x
  else
    let n := Qfloor (Qabs x * pow10 f + (1 # 2)) in
    if Qle_bool 0 x then inject_Z n / pow10 f
    else - (inject_Z n / pow10 f).

End Js.

(** *** Database rows (src/db/types) *)

Module TickData.
Record t := {
  run_id : string;
  timestamp : string;
  total_value : Q;
  part1_value : Q;
  part2_value : Q;
  target_price : Q
}.
End TickData.

Inductive IntervalType := minute | hour | day.

Module AggregateData.
Record t := {
  run_id : string;
  interval_type : IntervalType;
  bucket_start : string;
  bucket_end : string;
  open_value : Q;
  high_value : Q;
  low_value : Q;
  close_value : Q;
  tick_count : nat
}.
End AggregateData.

(** *** The simulator (src/sim/simulator) *)

Module Sim.

Local Open Scope Q_scope.

Record Bounds := { lower : Q; upper : Q }.

Record Splits := { part1 : Q; part2 : Q }.

Record SimulationState := {
  currentValue : Q;
  target : Q;
  bounds : Bounds;
  splits : Splits;
  isRunning : bool;
  runId : string
}.

Record SimulationConfig := {
  updateFrequencyMs : Q;
  volatility : Q;
  meanReversionRate : Q;
  bandWidth : Q
}.

(** [Partial<SimulationConfig>]: every field may be absent. *)
Record PartialConfig := {
  opt_updateFrequencyMs : option Q;
  opt_volatility : option Q;
  opt_meanReversionRate : option Q;
  opt_bandWidth : option Q
}.

Definition noConfig : PartialConfig :=
  {| opt_updateFrequencyMs := None; opt_volatility := None;
     opt_meanReversionRate := None; opt_bandWidth := None |}.

(** The object: its two private fields. *)
Record Simulator := { state : SimulationState; config : SimulationConfig }.

End Sim.

(** The result of a simulation step. *)
Module TickResult.
Record t := {
  timestamp : string;
  total_value : Q;
  part1_value : Q;
  part2_value : Q;
  target : Q;
  bounds : Sim.Bounds;
  pct_from_target : Q
}.
End TickResult.

Module Simulator.

Import Sim.
Local Open Scope Q_scope.

(** **** Methods as state transformers with exceptions *)

Inductive Completion (A : Type) : Type :=
| Normal (v : A)
| Throw (message : string).
Arguments Normal {A} v.
Arguments Throw {A} message.

Definition Method (A : Type) : Type := Simulator -> Completion A * Simulator.

Definition ret {A} (v : A) : Method A := fun this => (Normal v, this).

Definition throw {A} (message : string) : Method A :=
  fun this => (Throw message, this).

Definition bind {A B} (m : Method A) (k : A -> Method B) : Method B :=
  fun this =>
    match m this with
    | (Normal v, this') => k v this'
    | (Throw e, this') => (Throw e, this')
    end.

Notation "x <- m ;; k" := (bind m (fun x => k))
  (at level 61, m at next level, right associativity).
Notation "m ;;; k" := (bind m (fun _ => k))
  (at level 61, right associativity).

(** Reading and writing [this.state] and [this.config]. *)
Definition getState_ : Method SimulationState := fun this => (Normal (state this), this).
Definition getConfig_ : Method SimulationConfig := fun this => (Normal (config this), this).
Definition putState (s : SimulationState) : Method unit :=
  fun this => (Normal tt, {| state := s; config := config this |}).

Definition set_currentValue (v : Q) (s : SimulationState) : SimulationState :=
  {| currentValue := v; target := target s; bounds := bounds s;
     splits := splits s; isRunning := isRunning s; runId := runId s |}.
Definition set_target (v : Q) (s : SimulationState) : SimulationState :=
  {| currentValue := currentValue s; target := v; bounds := bounds s;
     splits := splits s; isRunning := isRunning s; runId := runId s |}.
Definition set_bounds (b : Bounds) (s : SimulationState) : SimulationState :=
  {| currentValue := currentValue s; target := target s; bounds := b;
     splits := splits s; isRunning := isRunning s; runId := runId s |}.
Definition set_splits (p : Splits) (s : SimulationState) : SimulationState :=
  {| currentValue := currentValue s; target := target s; bounds := bounds s;
     splits := p; isRunning := isRunning s; runId := runId s |}.
Definition set_isRunning (r : bool) (s : SimulationState) : SimulationState :=
  {| currentValue := currentValue s; target := target s; bounds := bounds s;
     splits := splits s; isRunning := r; runId := runId s |}.
Definition set_runId (r : string) (s : SimulationState) : SimulationState :=
  {| currentValue := currentValue s; target := target s; bounds := bounds s;
     splits := splits s; isRunning := isRunning s; runId := r |}.

Definition modifyState (f : SimulationState -> SimulationState) : Method unit :=
  s <- getState_ ;; putState (f s).

(** **** The methods *)

(** [updateBounds]: the bounds are the target plus and minus the band. *)
Definition updateBounds : Method unit :=
  s <- getState_ ;;
  c <- getConfig_ ;;
  putState (set_bounds {| lower := target s * (1 - bandWidth c);
                          upper := target s * (1 + bandWidth c) |} s).

Definition defaultConfig (p : PartialConfig) : SimulationConfig :=
  {| updateFrequencyMs := match opt_updateFrequencyMs p with Some v => v | None => 1000 end;
     volatility := match opt_volatility p with Some v => v | None => 0.02 end;
     meanReversionRate := match opt_meanReversionRate p with Some v => v | None => 0.1 end;
     bandWidth := match opt_bandWidth p with Some v => v | None => 0.05 end |}.

(** The constructor: copy the state, fill in the configuration, compute the
    bounds. *)
Definition new (initialState : SimulationState) (p : PartialConfig) : Simulator :=
  snd (updateBounds {| state := initialState; config := defaultConfig p |}).

(** [reflect(value, lower, upper)]. *)
Definition reflect (value lower upper : Q) : Q :=
  if Qlt_le_dec value lower then lower + (lower - value)
  else if Qlt_le_dec upper value then upper - (value - upper)
  else value.

(** [calculateDrift(current, target)]. *)
Definition calculateDrift (current target : Q) : Method Q :=
  c <- getConfig_ ;; ret (meanReversionRate c * (target - current)).

(** [addNoise(volatility)].  The standard normal variate [z0] that the source
    computes from two draws of [Math.random] with the Box-Muller transform is
    the argument [z0]: the draw is an input of the model. *)
Definition addNoise (z0 : Q) (volatility : Q) : Q := z0 * volatility.

(** [getCurrentTickData()], with the clock reading [now] of [new Date()]. *)
Definition getCurrentTickData (now : Z) : Method TickResult.t :=
  s <- getState_ ;;
  let totalValue := currentValue s in
  let part1Value := totalValue * part1 (splits s) in
  let part2Value := totalValue * part2 (splits s) in
  let pctFromTarget := ((totalValue - target s) / target s) * 100 in
  ret {| TickResult.timestamp := Js.toISOString now;
         TickResult.total_value := totalValue;
         TickResult.part1_value := part1Value;
         TickResult.part2_value := part2Value;
         TickResult.target := target s;
         TickResult.bounds := bounds s;
         TickResult.pct_from_target := pctFromTarget |}.

(** [generateTick()], with the variate [z0] and the clock reading [now] that
    the call obtains from its environment. *)
Definition generateTick (z0 : Q) (now : Z) : Method TickResult.t :=
  s <- getState_ ;;
  if negb (isRunning s) then getCurrentTickData now
  else
    drift <- calculateDrift (currentValue s) (target s) ;;
    c <- getConfig_ ;;
    let noise := addNoise z0 (volatility c) in
    let newValue := currentValue s + drift + noise in
    let newValue := reflect newValue (lower (bounds s)) (upper (bounds s)) in
    modifyState (set_currentValue newValue) ;;;
    getCurrentTickData now.

Definition start : Method unit := modifyState (set_isRunning true).
Definition pause : Method unit := modifyState (set_isRunning false).
Definition resume : Method unit := modifyState (set_isRunning true).

(** JavaScript truthiness of an optional string argument: [undefined] and the
    empty string are falsy. *)
Definition truthy (a : option string) : bool :=
  match a with
  | None => false
  | Some EmptyString => false
  | Some (String _ _) => true
  end.

(** [reset(newRunId?)]. *)
Definition reset (newRunId : option string) : Method unit :=
  modifyState (fun s => set_currentValue (target s) s) ;;;
  modifyState (set_isRunning true) ;;;
  if truthy newRunId then
    match newRunId with
    | Some r => modifyState (set_runId r)
    | None => ret tt
    end
  else ret tt.

(** [updateTarget(newTarget)]. *)
Definition updateTarget (newTarget : Q) : Method unit :=
  modifyState (set_target newTarget) ;;; updateBounds.

(** [updateSplits(part1, part2)]. *)
Definition updateSplits (p1 p2 : Q) : Method unit :=
  if Qlt_le_dec 0.0001 (Qabs (p1 + p2 - 1))
  then throw "Portfolio splits must sum to 1"
  else modifyState (set_splits {| part1 := p1; part2 := p2 |}).

Definition getState : Method SimulationState := getState_.
Definition getConfig : Method SimulationConfig := getConfig_.

(** [toTickData(tickResult)]. *)
Definition toTickData (tickResult : TickResult.t) : Method TickData.t :=
  s <- getState_ ;;
  ret {| TickData.run_id := runId s;
         TickData.timestamp := TickResult.timestamp tickResult;
         TickData.total_value := TickResult.total_value tickResult;
         TickData.part1_value := TickResult.part1_value tickResult;
         TickData.part2_value := TickResult.part2_value tickResult;
         TickData.target_price := TickResult.target tickResult |}.

End Simulator.

(** *** The tick stream (api/stream) *)

(** The payload of a tick event. *)
Module StreamTick.
Record t := {
  timestamp : string;
  total_value : Q;
  part1_value : Q;
  part2_value : Q;
  target : Q;
  bounds : Sim.Bounds;
  pct_from_target : Q;
  client_count : nat
}.
End StreamTick.

Module Stream.

(** [formatTickForStream(tickResult)]; [connectedClients] is the size of the
    set of connected clients at the call. *)
Definition formatTickForStream (connectedClients : nat) (tickResult : TickResult.t)
  : StreamTick.t :=
  {| StreamTick.timestamp := TickResult.timestamp tickResult;
     StreamTick.total_value := Js.toFixed (TickResult.total_value tickResult) 8;
     StreamTick.part1_value := Js.toFixed (TickResult.part1_value tickResult) 8;
     StreamTick.part2_value := Js.toFixed (TickResult.part2_value tickResult) 8;
     StreamTick.target := Js.toFixed (TickResult.target tickResult) 8;
     StreamTick.bounds :=
       {| Sim.lower := Js.toFixed (Sim.lower (TickResult.bounds tickResult)) 8;
          Sim.upper := Js.toFixed (Sim.upper (TickResult.bounds tickResult)) 8 |};
     StreamTick.pct_from_target := Js.toFixed (TickResult.pct_from_target tickResult) 4;
     StreamTick.client_count := connectedClients |}.

End Stream.

(** *** Simulation control (api/control) *)

Module Control.

Local Open Scope string_scope.

(** [generateRunId()], with the clock reading [now] of [new Date()] and the
    bytes [random] that [randomBytes(4)] returns. *)
Definition generateRunId (now : Z) (random : list byte) : string :=
  let dateStr := Js.remove_all "-" (Js.slice 0 10 (Js.toISOString now)) in
  let timeStr := Js.remove_all ":" (Js.slice 11 19 (Js.toISOString now)) in
  let randomStr := Js.toHex random in
  dateStr ++ "-" ++ timeStr ++ "-" ++ randomStr.

End Control.

(** *** OHLC aggregation *)

Module Aggregator.

Local Open Scope Q_scope.

(** The running summary of a bucket. *)
Record Ohlc := {
  open : Q;
  high : Q;
  low : Q;
  close : Q;
  tick_count : nat
}.

(** Modelled from the spec: the aggregation job (src/jobs/aggregation) is not
    among the sources.  One step of the fold: the first tick opens the
    summary; a later tick may raise the high, lower the low, becomes the
    close and is counted. *)
Definition fold_tick (acc : option Ohlc) (tick : TickData.t) : option Ohlc :=
  let v := TickData.total_value tick in
  match acc with
  | None => Some {| open := v; high := v; low := v; close := v; tick_count := 1 |}
  | Some a =>
      Some {| open := open a;
              high := if Qlt_le_dec (high a) v then v else high a;
              low := if Qlt_le_dec v (low a) then v else low a;
              close := v;
              tick_count := S (tick_count a) |}
  end.

(** Modelled from the spec: the aggregation job (src/jobs/aggregation) is not
    among the sources.  The summary of the ticks of one bucket window, in
    timestamp order; no summary for a window without ticks. *)
Definition aggregate (ticks : list TickData.t) : option Ohlc :=
  fold_left fold_tick ticks None.

(** Modelled from the spec: the aggregation job (src/jobs/aggregation) is not
    among the sources.  The row written for a bucket, if any. *)
Definition aggregateBucket (run : string) (interval : IntervalType)
    (bucketStart bucketEnd : string) (ticks : list TickData.t)
  : option AggregateData.t :=
  match aggregate ticks with
  | None => None
  | Some a =>
      Some {| AggregateData.run_id := run;
              AggregateData.interval_type := interval;
              AggregateData.bucket_start := bucketStart;
              AggregateData.bucket_end := bucketEnd;
              AggregateData.open_value := open a;
              AggregateData.high_value := high a;
              AggregateData.low_value := low a;
              AggregateData.close_value := close a;
              AggregateData.tick_count := tick_count a |}
  end.

End Aggregator.

(** *** Drivers and scenarios *)

Module Scenario.

Import Sim.
Local Open Scope Q_scope.

(** A sequence of calls of [generateTick], as the stream loop makes them: one
    call per element of [env], which holds the variate and the clock reading
    of that call. *)
Fixpoint generateTicks (env : list (Q * Z)) (sim : Simulator)
  : list (Simulator.Completion TickResult.t) * Simulator :=
  match env with
  | [] => ([], sim)
  | (z0, now) :: rest =>
      let '(r, sim') := Simulator.generateTick z0 now sim in
      let '(rs, sim'') := generateTicks rest sim' in
      (r :: rs, sim'')
  end.

(** Two ticks show the same values: every display field but the timestamp. *)
Definition same_display (t1 t2 : TickResult.t) : Prop :=
  TickResult.total_value t1 = TickResult.total_value t2 /\
  TickResult.part1_value t1 = TickResult.part1_value t2 /\
  TickResult.part2_value t1 = TickResult.part2_value t2 /\
  TickResult.target t1 = TickResult.target t2 /\
  TickResult.bounds t1 = TickResult.bounds t2 /\
  TickResult.pct_from_target t1 = TickResult.pct_from_target t2.

(** [r] is [x] rounded to [f] decimal places: a multiple of 10^-f at most
    half a unit of the last place away from [x]. *)
Definition rounded_to (f : nat) (x r : Q) : Prop :=
  (exists n : Z, r == inject_Z n / Js.pow10 f) /\
  Qabs (r - x) <= (1 # 2) / Js.pow10 f.

(** The numeric fields of a tick are below the magnitude from which
    [toFixed] stops rounding. *)
Definition fixed_range (t : TickResult.t) : Prop :=
  Qabs (TickResult.total_value t) < Js.pow10 21 /\
  Qabs (TickResult.part1_value t) < Js.pow10 21 /\
  Qabs (TickResult.part2_value t) < Js.pow10 21 /\
  Qabs (TickResult.target t) < Js.pow10 21 /\
  Qabs (lower (TickResult.bounds t)) < Js.pow10 21 /\
  Qabs (upper (TickResult.bounds t)) < Js.pow10 21 /\
  Qabs (TickResult.pct_from_target t) < Js.pow10 21.

(** The simulator of the usage example of the sources: target 100, splits
    60/40. *)
Definition example_sim : Simulator :=
  Simulator.new
    {| currentValue := 100; target := 100;
       bounds := {| lower := 95; upper := 105 |};
       splits := {| part1 := 0.6; part2 := 0.4 |};
       isRunning := true; runId := "example-run-1" |}
    noConfig.

(** A paused simulator whose value is 0.001234 percent above its target. *)
Definition off_target_sim : Simulator :=
  Simulator.new
    {| currentValue := 100.001234; target := 100;
       bounds := {| lower := 95; upper := 105 |};
       splits := {| part1 := 0.6; part2 := 0.4 |};
       isRunning := false; runId := "example-run-1" |}
    noConfig.

(** The tick that simulator shows. *)
Definition off_target_tick : TickResult.t :=
  {| TickResult.timestamp := "2024-02-29T12:34:56.789Z";
     TickResult.total_value := 100.001234;
     TickResult.part1_value := 60.0007404;
     TickResult.part2_value := 40.0004936;
     TickResult.target := 100;
     TickResult.bounds := {| lower := 95; upper := 105 |};
     TickResult.pct_from_target := 0.001234 |}.

(** A stored tick of the example run with total value [v], split 60/40. *)
Definition stored_tick (timestamp : string) (v : Q) : TickData.t :=
  {| TickData.run_id := "example-run-1";
     TickData.timestamp := timestamp;
     TickData.total_value := v;
     TickData.part1_value := v * 0.6;
     TickData.part2_value := v * 0.4;
     TickData.target_price := 100 |}.

(** The same simulator after [pause()]. *)
Definition paused_sim : Simulator := snd (Simulator.pause example_sim).

(** A simulator for a target of 0.10, a value the target endpoint accepts,
    started at its target. *)
Definition small_target_sim : Simulator :=
  Simulator.new
    {| currentValue := 0.1; target := 0.1;
       bounds := {| lower := 0.095; upper := 0.105 |};
       splits := {| part1 := 0.6; part2 := 0.4 |};
       isRunning := true; runId := "20240229-123456-00ab10ff" |}
    noConfig.

End Scenario.

(** *** Sequences of method calls *)

Module Driver.

Import Sim.
Local Open Scope Q_scope.

(** One call of a public method of the simulator, with what the call reads
    from its environment. *)
Inductive Call : Type :=
| CallGenerateTick (z0 : Q) (now : Z)
| CallStart
| CallPause
| CallResume
| CallReset (newRunId : option string)
| CallUpdateTarget (newTarget : Q)
| CallUpdateSplits (p1 p2 : Q).

(** The object after a call; an exception thrown by the call is caught by the
    caller and the object lives on. *)
Definition call (c : Call) (sim : Simulator) : Simulator :=
  match c with
  | CallGenerateTick z0 now => snd (Simulator.generateTick z0 now sim)
  | CallStart => snd (Simulator.start sim)
  | CallPause => snd (Simulator.pause sim)
  | CallResume => snd (Simulator.resume sim)
  | CallReset newRunId => snd (Simulator.reset newRunId sim)
  | CallUpdateTarget newTarget => snd (Simulator.updateTarget newTarget sim)
  | CallUpdateSplits p1 p2 => snd (Simulator.updateSplits p1 p2 sim)
  end.

Definition calls (cs : list Call) (sim : Simulator) : Simulator :=
  fold_left (fun s c => call c s) cs sim.

(** The bounds are the band around the target. *)
Definition bounds_consistent (sim : Simulator) : Prop :=
  bounds (state sim)
  = {| lower := target (state sim) * (1 - bandWidth (config sim));
       upper := target (state sim) * (1 + bandWidth (config sim)) |}.

(** The split weights sum to one within the tolerance of [updateSplits]. *)
Definition splits_valid (sim : Simulator) : Prop :=
  Qabs (part1 (splits (state sim)) + part2 (splits (state sim)) - 1) <= 0.0001.

(** The current value lies between the bounds. *)
Definition in_bounds (sim : Simulator) : Prop :=
  lower (bounds (state sim)) <= currentValue (state sim)
  /\ currentValue (state sim) <= upper (bounds (state sim)).

(** The tick lies between the bounds it carries. *)
Definition tick_in_bounds (t : TickResult.t) : Prop :=
  lower (TickResult.bounds t) <= TickResult.total_value t
  /\ TickResult.total_value t <= upper (TickResult.bounds t).

End Driver.

(** *** Settings rows (src/db/types) *)

Module Settings.
Record t := {
  id : string;
  run_id : string;
  target_price : Q;
  split_part1 : Q;
  split_part2 : Q;
  is_paused : bool;
  created_at : string;
  updated_at : string
}.
End Settings.

(** *** The generation loop of the stream (api/stream) *)

Module StreamLoop.

Import Sim.
Local Open Scope Q_scope.

(** [a || b] for a number [a] that may be absent: [undefined] and zero are
    falsy. *)
Definition number_or (a : option Q) (b : Q) : Q :=
  match a with
  | None => b
  | Some v => if Qeq_bool v 0 then b else v
  end.

(** [initializeSimulator(cachedClient)], with the settings and the latest
    tick that the cached client returns ([None] for [null]); the result is
    the simulator assigned to [globalSimulator]. *)
Definition initializeSimulator
    (settings : option Settings.t) (latestTick : option TickData.t)
  : Simulator.Completion Simulator :=
  match settings with
  | None => Simulator.Throw "No settings found for simulation initialization"
  | Some settings =>
      let initialState :=
        {| currentValue :=
             number_or (option_map TickData.total_value latestTick)
               (Settings.target_price settings);
           target := Settings.target_price settings;
           bounds := {| lower := Settings.target_price settings * 0.95;
                        upper := Settings.target_price settings * 1.05 |};
           splits := {| part1 := Settings.split_part1 settings;
                        part2 := Settings.split_part2 settings |};
           isRunning := negb (Settings.is_paused settings);
           runId := Settings.run_id settings |} in
      Simulator.Normal (Simulator.new initialState noConfig)
  end.

(** What is written to a client: the two lines of a tick event. *)
Inductive Frame : Type :=
| EventLine (name : string)
| DataLine (payload : StreamTick.t).

(** A connected client (a response object): whether its stream has ended,
    how many more writes succeed before a write throws ([None]: no write
    throws), and what has been written to it, latest first. *)
Record Client := {
  client_id : nat;
  writableEnded : bool;
  writes_before_throw : option nat;
  written : list Frame
}.

(** [client.write(frame)]: the client after the write, or [None] when the
    write throws. *)
Definition write (frame : Frame) (c : Client) : option Client :=
  match writes_before_throw c with
  | Some O => None
  | Some (S n) =>
      Some {| client_id := client_id c; writableEnded := writableEnded c;
              writes_before_throw := Some n; written := frame :: written c |}
  | None =>
      Some {| client_id := client_id c; writableEnded := writableEnded c;
              writes_before_throw := None; written := frame :: written c |}
  end.

(** The body of one broadcast promise: a client whose stream has ended is
    skipped, a client on which a write throws is deleted from the set of
    connected clients ([None]). *)
Definition sendTick (streamData : StreamTick.t) (c : Client) : option Client :=
  if negb (writableEnded c) then
    match write (EventLine "tick") c with
    | None => None
    | Some c1 => write (DataLine streamData) c1
    end
  else Some c.

(** The broadcast over [Array.from(connectedClients)]: the set of connected
    clients after it, in insertion order. *)
Fixpoint broadcast (streamData : StreamTick.t) (connectedClients : list Client)
  : list Client :=
  match connectedClients with
  | [] => []
  | c :: rest =>
      match sendTick streamData c with
      | Some c' => c' :: broadcast streamData rest
      | None => broadcast streamData rest
      end
  end.

(** No write of a broadcast to the client throws: its stream has ended, so
    that nothing is written, or its next two writes succeed. *)
Definition survives (c : Client) : bool :=
  writableEnded c
  || match writes_before_throw c with
     | None => true
     | Some n => (2 <=? n)%nat
     end.

(** One iteration of the loop of [startSimulation]: the tick is generated,
    its row is what the cache receives, its payload is broadcast. *)
Definition iteration (z0 : Q) (now : Z) (connectedClients : list Client)
    (globalSimulator : Simulator)
  : Simulator.Completion (TickData.t * list Client) * Simulator :=
  let m :=
    Simulator.bind (Simulator.generateTick z0 now) (fun tickResult =>
    Simulator.bind (Simulator.toTickData tickResult) (fun tickData =>
    let streamData :=
      Stream.formatTickForStream (List.length connectedClients) tickResult in
    Simulator.ret (tickData, broadcast streamData connectedClients))) in
  m globalSimulator.

(** The numeric fields of a payload read back as a tick. *)
Definition asTick (p : StreamTick.t) : TickResult.t :=
  {| TickResult.timestamp := StreamTick.timestamp p;
     TickResult.total_value := StreamTick.total_value p;
     TickResult.part1_value := StreamTick.part1_value p;
     TickResult.part2_value := StreamTick.part2_value p;
     TickResult.target := StreamTick.target p;
     TickResult.bounds := StreamTick.bounds p;
     TickResult.pct_from_target := StreamTick.pct_from_target p |}.

End StreamLoop.

(** *** Numbers in template literals *)

Module JsText.

(** The decimal string of an integer, as a template literal prints it. *)
Definition show (z : Z) : string := NilZero.string_of_int (Z.to_int z).

End JsText.

(** *** The chart endpoint (api/chart) *)

Module Chart.

Local Open Scope Q_scope.

(** A value of [req.query]: absent, a string, or an array of strings. *)
Inductive QueryParam : Type :=
| Absent
| Single (s : string)
| Many (l : list string).

(** Truthiness of a query value: [undefined] and the empty string are falsy,
    an array is truthy. *)
Definition truthy (q : QueryParam) : bool :=
  match q with
  | Absent => false
  | Single EmptyString => false
  | Single (String _ _) => true
  | Many _ => true
  end.




End Chart.

(** *** The health endpoint (api/health) *)

Module Health.

Local Open Scope Z_scope.

(** [formatUptime(uptimeMs)] for an integer number of milliseconds:
    [Math.floor] of a quotient by a positive number is the floor division,
    [%] is the remainder that takes the sign of the dividend. *)
Definition formatUptime (uptimeMs : Z) : string :=
  let seconds := uptimeMs / 1000 in
  let minutes := seconds / 60 in
  let hours := minutes / 60 in
  let days := hours / 24 in
  if 0 <? days then
    (JsText.show days ++ "d " ++ JsText.show (Z.rem hours 24) ++ "h "
     ++ JsText.show (Z.rem minutes 60) ++ "m " ++ JsText.show (Z.rem seconds 60) ++ "s")%string
  else if 0 <? hours then
    (JsText.show hours ++ "h " ++ JsText.show (Z.rem minutes 60) ++ "m "
     ++ JsText.show (Z.rem seconds 60) ++ "s")%string
  else if 0 <? minutes then
    (JsText.show minutes ++ "m " ++ JsText.show (Z.rem seconds 60) ++ "s")%string
  else (JsText.show seconds ++ "s")%string.

End Health.

(** *** The database client (src/db/supabase) *)

Module Db.

(** What [withRetry] throws: the error of the operation as it is, a
    [DatabaseError] that wraps it, or [undefined]. *)
Inductive Thrown (E : Type) : Type :=
| Original (e : E)
| DatabaseError (message : string) (cause : E)
| ThrownUndefined.
Arguments Original {E} e.
Arguments DatabaseError {E} message cause.
Arguments ThrownUndefined {E}.

Section WithRetry.

(** The world the operation and the timer act upon, the values the
    operation returns and the errors it throws. *)
Variables (W A E : Type).

(** The fields [maxRetries] and [retryDelay] of the client. *)
Variables (maxRetries : nat) (retryDelay : Z).

(** [operation()]: a value or a thrown error; [delay(ms)]. *)
Variable operation : W -> (A + E) * W.
Variable delay : Z -> W -> W.

(** The loop of [withRetry] from [attempt] on, with [remaining] iterations
    left before [attempt] exceeds [maxRetries]. *)
Fixpoint retryLoop (operationName : string) (remaining attempt : nat)
    (lastError : option E) (w : W) : (A + Thrown E) * W :=
  match remaining with
  | O =>
      (inr match lastError with
           | Some e => Original e
           | None => ThrownUndefined
           end, w)
  | S remaining' =>
      match operation w with
      | (inl v, w') => (inl v, w')
      | (inr error, w') =>
          if (attempt =? maxRetries)%nat then
            (inr (DatabaseError
                    (operationName ++ " failed after "
                     ++ JsText.show (Z.of_nat maxRetries) ++ " attempts")%string
                    error), w')
          else
            retryLoop operationName remaining' (S attempt) (Some error)
              (delay (retryDelay * Z.of_nat attempt) w')
      end
  end.

(** [withRetry(operation, operationName)]. *)
Definition withRetry (operationName : string) (w : W) : (A + Thrown E) * W :=
  retryLoop operationName maxRetries 1 None w.

End WithRetry.

(** A database whose operation follows a script: the [n]-th call returns or
    throws what the script says; the world records the number of calls made
    and the delays waited, latest first. *)
Record Scripted := { calls : nat; waited : list Z }.

Definition scripted_operation {A E} (script : nat -> A + E) (w : Scripted)
  : (A + E) * Scripted :=
  (script (calls w), {| calls := S (calls w); waited := waited w |}).

Definition scripted_delay (ms : Z) (w : Scripted) : Scripted :=
  {| calls := calls w; waited := ms :: waited w |}.

Definition fresh : Scripted := {| calls := 0; waited := [] |}.

(** The delays before the attempts 2 to [k], latest first. *)
Fixpoint delays (retryDelay : Z) (k : nat) : list Z :=
  match k with
  | O => []
  | S k' => (retryDelay * Z.of_nat k)%Z :: delays retryDelay k'
  end.

End Db.

(** *** Requests and responses of the endpoints (dist/api) *)

Module Http.

Local Open Scope Q_scope.

(** [a < b] as a boolean. *)
Definition ltb (a b : Q) : bool := if Qlt_le_dec a b then true else false.

(** A JSON request body as a JavaScript value. *)
#[local] Set Warnings "-register-all".
Inductive JsValue : Type :=
| JsUndefined
| JsNull
| JsBool (b : bool)
| JsNumber (q : Q)
| JsNaN
| JsString (s : string)
| JsObject (fields : list (string * JsValue)).

(** Truthiness. *)
Definition truthy (v : JsValue) : bool :=
  match v with
  | JsUndefined | JsNull | JsNaN => false
  | JsBool b => b
  | JsNumber q => negb (Qeq_bool q 0)
  | JsString s => negb (String.eqb s "")
  | JsObject _ => true
  end.

(** [typeof v === 'object'], [typeof v === 'number'] and
    [typeof v === 'string']. *)
Definition typeof_object (v : JsValue) : bool :=
  match v with JsNull | JsObject _ => true | _ => false end.
Definition typeof_number (v : JsValue) : bool :=
  match v with JsNumber _ | JsNaN => true | _ => false end.
Definition typeof_string (v : JsValue) : bool :=
  match v with JsString _ => true | _ => false end.

Definition isNaN (v : JsValue) : bool :=
  match v with JsNaN => true | _ => false end.

(** [v === undefined || v === null]. *)
Definition nullish (v : JsValue) : bool :=
  match v with JsUndefined | JsNull => true | _ => false end.

Fixpoint lookup (name : string) (fields : list (string * JsValue)) : JsValue :=
  match fields with
  | [] => JsUndefined
  | (k, v) :: rest => if String.eqb k name then v else lookup name rest
  end.

(** The property [name] of a value, as destructuring reads it. *)
Definition property (name : string) (v : JsValue) : JsValue :=
  match v with
  | JsObject fields => lookup name fields
  | _ => JsUndefined
  end.

(** The body of an error response; [message] is [details.message]. *)
Record ErrorBody := { error : string; code : string; message : option string }.

(** The checks of a handler on the request itself, which come before the
    statement that constructs the database client: the handler answers the
    preflight, responds with a status and an error body, or has accepted the
    payload and goes on to that statement. *)
Inductive Reply (P : Type) : Type :=
| Preflight
| Failure (status : nat) (body : ErrorBody)
| Proceed (payload : P).
Arguments Preflight {P}.
Arguments Failure {P} status body.
Arguments Proceed {P} payload.

Definition validation_error {P} (e m : string) : Reply P :=
  Failure 400 {| error := e; code := "VALIDATION_ERROR"; message := Some m |}.

Definition check_method {P} (method : string) (k : Reply P) : Reply P :=
  if String.eqb method "OPTIONS" then Preflight
  else if negb (String.eqb method "POST") then
    Failure 405 {| error := "Method not allowed"; code := "METHOD_NOT_ALLOWED";
                   message := None |}
  else k.

Definition check_body {P} (body : JsValue) (k : Reply P) : Reply P :=
  if negb (truthy body) || negb (typeof_object body) then
    validation_error "Invalid request body" "Request body must be a valid JSON object"
  else k.

(** The response of a handler: [res.status(200).end()] for the preflight, an
    error with its status, or the body sent with status 200. *)
Inductive Response (D : Type) : Type :=
| Options
| Error (status : nat) (body : ErrorBody)
| Success (data : D).
Arguments Options {D}.
Arguments Error {D} status body.
Arguments Success {D} data.

(** The response of the [catch] block of the target, split, latest and
    control handlers. *)
Definition error500 {D} : Response D :=
  Error 500 {| error := "Internal server error"; code := "DATABASE_ERROR";
               message := None |}.

(** The response of the target, split and control handlers when there are
    no settings. *)
Definition no_settings {D} : Response D :=
  Error 404 {| error := "No settings found"; code := "NO_DATA_FOUND";
               message := Some "Unable to find current settings to update"%string |}.

End Http.

(** *** The database module as the endpoints load it (src/db/supabase) *)

Module Supabase.

(** The value of the property [SupabaseClient] of the module object
    [supabase_1]: [undefined], or a class, given by what [new] of it without
    arguments returns or throws. *)
Inductive Export (C : Type) : Type :=
| Undefined
| Class (construct : Simulator.Completion C).
Arguments Undefined {C}.
Arguments Class {C} construct.

(** [new supabase_1.SupabaseClient()]: [new] of [undefined] throws a
    [TypeError]. *)
Definition new {C} (SupabaseClient : Export C) : Simulator.Completion C :=
  match SupabaseClient with
  | Undefined =>
      Simulator.Throw "TypeError: supabase_1.SupabaseClient is not a constructor"
  | Class construct => construct
  end.

(** The module of this repository assigns [exports.SupabaseDatabaseClient]
    and [exports.createSupabaseClient] and no other property: its
    [SupabaseClient] is [undefined]. *)
Definition SupabaseClient {C} : Export C := Undefined.

End Supabase.

(** *** The cached client as the endpoints call it (src/db/cached-client) *)

Module Client.

(** The fields of [Partial<Settings>] that the handlers write. *)
Record SettingsUpdate := {
  u_target_price : option Q;
  u_split_part1 : option Q;
  u_split_part2 : option Q;
  u_is_paused : option bool;
  u_updated_at : option string
}.

(** [actionPayload.new_state] of the control handler. *)
Inductive NewState : Type :=
| PauseFlag (is_paused : bool)
| ResetState (run_id : string) (reset_to_target : Q).

(** [actionPayload] of the control handler. *)
Record ActionPayload := {
  p_action : string;
  p_timestamp : string;
  previous_is_paused : bool;
  previous_run_id : string;
  new_state : NewState
}.

(** The payload of an audit record. *)
Inductive Payload : Type :=
| TargetUpdate (old_target_price new_target_price : Q) (timestamp : string)
| SplitUpdate (old_split_part1 old_split_part2 new_split_part1 new_split_part2 : Q)
    (timestamp : string)
| ControlAction (actionPayload : ActionPayload).

(** The argument of [logUserAction]. *)
Record UserAction := {
  run_id : string;
  action_type : string;
  payload : Payload
}.

(** A call of a method of the cached client, with its arguments. *)
Inductive Call : Type :=
| GetLatestTick
| GetLatestSettings
| InitializeDefaultSettings (runId : string)
| UpdateSettings (updates : SettingsUpdate)
| LogUserAction (action : UserAction).

(** The client of one request, seen through the cached client that wraps
    it: what each method of the cached client returns or throws when the
    handler calls it. *)
Record t := {
  getLatestTick : Simulator.Completion (option TickData.t);
  getLatestSettings : Simulator.Completion (option Settings.t);
  initializeDefaultSettings : string -> Simulator.Completion Settings.t;
  updateSettings : SettingsUpdate -> Simulator.Completion Settings.t;
  logUserAction : UserAction -> Simulator.Completion unit
}.

(** [new CachedDatabaseClient(supabaseClient, cacheManager)]: the
    constructor stores its two arguments and returns.  A database client is
    identified here with the cached client that wraps it and the cache
    manager of the module. *)
Definition CachedDatabaseClient (supabaseClient : t) : t := supabaseClient.

(** [await] of a call inside the [try] block of a handler, after the calls
    [calls]: the call is made; if it throws, the [catch] block answers,
    otherwise the handler goes on with its value. *)
Definition await {A D} (c : Call) (result : Simulator.Completion A)
    (calls : list Call) (k : A -> list Call -> Http.Response D * list Call)
  : Http.Response D * list Call :=
  match result with
  | Simulator.Throw _ => (Http.error500, calls ++ [c])
  | Simulator.Normal v => k v (calls ++ [c])
  end.

End Client.

(** *** The target endpoint (dist/api/target) *)

Module Target.

Import Http.
Local Open Scope Q_scope.

(** The checks of [handler] on the request, up to the statement that
    constructs the database client. *)
Definition validate (method : string) (body : JsValue) : Reply Q :=
  check_method method (
  check_body body (
  let target_price := property "target_price" body in
  if nullish target_price then
    validation_error "Missing target_price field" "target_price is required"
  else if negb (typeof_number target_price) || isNaN target_price then
    validation_error "Invalid target_price type" "target_price must be a valid number"
  else
    match target_price with
    | JsNumber t =>
        if Qle_bool t 0 then
          validation_error "Invalid target_price value"
            "target_price must be greater than 0"
        else if ltb t 0.01 || ltb 1000000 t then
          validation_error "Target price out of range"
            "target_price must be between $0.01 and $1,000,000"
        else Proceed t
    | _ =>
        validation_error "Invalid target_price type"
          "target_price must be a valid number"
    end)).

(** The bounds of the success response. *)
Definition responseBounds (target_price : Q) : Sim.Bounds :=
  {| Sim.lower := target_price * 0.95; Sim.upper := target_price * 1.05 |}.

(** The readings of [new Date()] in the order the handler takes them: for
    [updated_at], for the audit record. *)
Record Clock := { at_update : Z; at_log : Z }.

(** [response.data]. *)
Record Data := {
  target_price : Q;
  bounds : Sim.Bounds;
  run_id : string;
  updated_at : string
}.

(** The argument of [updateSettings]. *)
Definition update (target_price : Q) (clock : Clock) : Client.SettingsUpdate :=
  {| Client.u_target_price := Some target_price;
     Client.u_split_part1 := None; Client.u_split_part2 := None;
     Client.u_is_paused := None;
     Client.u_updated_at := Some (Js.toISOString (at_update clock)) |}.

(** [handler]: the response, and the calls made to the cached client, in
    order.  [SupabaseClient] is the property of that name of the database
    module. *)
Definition handler (SupabaseClient : Supabase.Export Client.t) (clock : Clock)
    (method : string) (body : JsValue) : Response Data * list Client.Call :=
  match validate method body with
  | Preflight => (Options, [])
  | Failure status b => (Error status b, [])
  | Proceed target_price =>
      match Supabase.new SupabaseClient with
      | Simulator.Throw _ => (error500, [])
      | Simulator.Normal supabaseClient =>
          let cachedClient := Client.CachedDatabaseClient supabaseClient in
          Client.await Client.GetLatestSettings
            (Client.getLatestSettings cachedClient) []
            (fun currentSettings calls =>
          match currentSettings with
          | None => (no_settings, calls)
          | Some currentSettings =>
              let updates := update target_price clock in
              Client.await (Client.UpdateSettings updates)
                (Client.updateSettings cachedClient updates) calls
                (fun updatedSettings calls =>
              let action :=
                {| Client.run_id := Settings.run_id currentSettings;
                   Client.action_type := "target_update";
                   Client.payload :=
                     Client.TargetUpdate (Settings.target_price currentSettings)
                       target_price (Js.toISOString (at_log clock)) |} in
              Client.await (Client.LogUserAction action)
                (Client.logUserAction cachedClient action) calls
                (fun _ calls =>
              (Success {| target_price := Settings.target_price updatedSettings;
                          bounds := responseBounds target_price;
                          run_id := Settings.run_id updatedSettings;
                          updated_at := Settings.updated_at updatedSettings |},
               calls)))
          end)
      end
  end.

End Target.

(** *** The split endpoint (dist/api/split) *)

Module Split.

Import Http.
Local Open Scope Q_scope.

(** [v < 0 || v > 1]. *)
Definition out_of_unit_range (v : Q) : bool := ltb v 0 || ltb 1 v.

(** The checks of [handler] on the request, up to the statement that
    constructs the database client. *)
Definition validate (method : string) (body : JsValue) : Reply (Q * Q) :=
  check_method method (
  check_body body (
  let split_part1 := property "split_part1" body in
  let split_part2 := property "split_part2" body in
  if nullish split_part1 then
    validation_error "Missing split_part1 field" "split_part1 is required"
  else if nullish split_part2 then
    validation_error "Missing split_part2 field" "split_part2 is required"
  else if negb (typeof_number split_part1) || isNaN split_part1 then
    validation_error "Invalid split_part1 type" "split_part1 must be a valid number"
  else if negb (typeof_number split_part2) || isNaN split_part2 then
    validation_error "Invalid split_part2 type" "split_part2 must be a valid number"
  else
    match split_part1, split_part2 with
    | JsNumber p1, JsNumber p2 =>
        if out_of_unit_range p1 then
          validation_error "Invalid split_part1 range"
            "split_part1 must be between 0 and 1"
        else if out_of_unit_range p2 then
          validation_error "Invalid split_part2 range"
            "split_part2 must be between 0 and 1"
        else
          let splitSum := p1 + p2 in
          let tolerance := 0.0001 in
          if ltb tolerance (Qabs (splitSum - 1.0)) then
            validation_error "Invalid split allocation"
              "split_part1 + split_part2 must equal 1.0"
          else Proceed (p1, p2)
    | _, _ =>
        validation_error "Invalid split_part1 type"
          "split_part1 must be a valid number"
    end)).

(** The readings of [new Date()] in the order the handler takes them: for
    [updated_at], for the audit record. *)
Record Clock := { at_update : Z; at_log : Z }.

(** [response.data], with [validation.sum] and [validation.is_valid]. *)
Record Data := {
  split_part1 : Q;
  split_part2 : Q;
  run_id : string;
  updated_at : string;
  sum : Q;
  is_valid : bool
}.

(** The argument of [updateSettings]. *)
Definition update (split_part1 split_part2 : Q) (clock : Clock)
  : Client.SettingsUpdate :=
  {| Client.u_target_price := None;
     Client.u_split_part1 := Some split_part1;
     Client.u_split_part2 := Some split_part2;
     Client.u_is_paused := None;
     Client.u_updated_at := Some (Js.toISOString (at_update clock)) |}.

(** [handler]: the response, and the calls made to the cached client, in
    order. *)
Definition handler (SupabaseClient : Supabase.Export Client.t) (clock : Clock)
    (method : string) (body : JsValue) : Response Data * list Client.Call :=
  match validate method body with
  | Preflight => (Options, [])
  | Failure status b => (Error status b, [])
  | Proceed (split_part1, split_part2) =>
      match Supabase.new SupabaseClient with
      | Simulator.Throw _ => (error500, [])
      | Simulator.Normal supabaseClient =>
          let cachedClient := Client.CachedDatabaseClient supabaseClient in
          Client.await Client.GetLatestSettings
            (Client.getLatestSettings cachedClient) []
            (fun currentSettings calls =>
          match currentSettings with
          | None => (no_settings, calls)
          | Some currentSettings =>
              let updates := update split_part1 split_part2 clock in
              Client.await (Client.UpdateSettings updates)
                (Client.updateSettings cachedClient updates) calls
                (fun updatedSettings calls =>
              let action :=
                {| Client.run_id := Settings.run_id currentSettings;
                   Client.action_type := "split_update";
                   Client.payload :=
                     Client.SplitUpdate (Settings.split_part1 currentSettings)
                       (Settings.split_part2 currentSettings)
                       split_part1 split_part2
                       (Js.toISOString (at_log clock)) |} in
              Client.await (Client.LogUserAction action)
                (Client.logUserAction cachedClient action) calls
                (fun _ calls =>
              let tolerance := 0.0001 in
              let updatedSum :=
                Settings.split_part1 updatedSettings
                + Settings.split_part2 updatedSettings in
              (Success {| split_part1 := Settings.split_part1 updatedSettings;
                          split_part2 := Settings.split_part2 updatedSettings;
                          run_id := Settings.run_id updatedSettings;
                          updated_at := Settings.updated_at updatedSettings;
                          sum := updatedSum;
                          is_valid := Qle_bool (Qabs (updatedSum - 1.0)) tolerance |},
               calls)))
          end)
      end
  end.

End Split.

(** *** The latest-snapshot endpoint (dist/api/latest) *)

Module Latest.

Import Http.
Local Open Scope Q_scope.

Record Snapshot := {
  timestamp : string;
  total_value : Q;
  part1_value : Q;
  part2_value : Q;
  target : Q;
  bounds : Sim.Bounds;
  pct_from_target : Q;
  run_id : string;
  is_paused : bool;
  splits : Sim.Splits
}.

(** [portfolioSnapshot], from the latest tick and the settings. *)
Definition portfolioSnapshot (latestTick : TickData.t) (settings : Settings.t)
  : Snapshot :=
  let target := Settings.target_price settings in
  let bounds := {| Sim.lower := target * 0.95; Sim.upper := target * 1.05 |} in
  let pct_from_target :=
    ((TickData.total_value latestTick - target) / target) * 100 in
  {| timestamp := TickData.timestamp latestTick;
     total_value := TickData.total_value latestTick;
     part1_value := TickData.part1_value latestTick;
     part2_value := TickData.part2_value latestTick;
     target := target;
     bounds := bounds;
     pct_from_target := Js.toFixed pct_from_target 4;
     run_id := TickData.run_id latestTick;
     is_paused := Settings.is_paused settings;
     splits := {| Sim.part1 := Settings.split_part1 settings;
                  Sim.part2 := Settings.split_part2 settings |} |}.

(** [handler]: the response, and the calls made to the cached client, in
    order.  Both calls of [Promise.all] are made; if either throws, the
    [catch] block answers. *)
Definition handler (SupabaseClient : Supabase.Export Client.t) (method : string)
  : Response Snapshot * list Client.Call :=
  if negb (String.eqb method "GET") then
    (Error 405 {| error := "Method not allowed"; code := "METHOD_NOT_ALLOWED";
                  message := None |}, [])
  else
    match Supabase.new SupabaseClient with
    | Simulator.Throw _ => (error500, [])
    | Simulator.Normal supabaseClient =>
        let cachedClient := Client.CachedDatabaseClient supabaseClient in
        let calls := [Client.GetLatestTick; Client.GetLatestSettings] in
        match Client.getLatestTick cachedClient,
              Client.getLatestSettings cachedClient with
        | Simulator.Normal latestTick, Simulator.Normal settings =>
            match latestTick, settings with
            | Some latestTick, Some settings =>
                (Success (portfolioSnapshot latestTick settings), calls)
            | _, _ =>
                (Error 404 {| error := "No portfolio data available";
                              code := "NO_DATA_FOUND"; message := None |}, calls)
            end
        | _, _ => (error500, calls)
        end
    end.

End Latest.

(** *** The status of the health endpoint (dist/api/health) *)

Module HealthCheck.

Local Open Scope Z_scope.

Inductive Status : Type := healthy | degraded | unhealthy.

(** The fields of the report that the checks fill in, and the status code of
    the response. *)
Record Report := {
  status : Status;
  connected : bool;
  response_time_ms : Z;
  database_error : option string;
  run_id : option string;
  is_paused : option bool;
  target_price : option Q;
  last_tick_age_ms : option Z;
  httpStatus : nat
}.

(** [value && value > 10000] for a tick age that may be [null]. *)
Definition stale (age : option Z) : bool :=
  match age with
  | Some a => negb (a =? 0) && (10000 <? a)
  | None => false
  end.

(** The checks of [handler] after the method test.  [connection] is what
    [testConnection()] resolves to, or the message of the error it throws;
    [responseTime] is the time that call took; [settings] are the latest
    settings and [tickAge] the age of the latest tick, [None] when the
    request was rejected or returned [null]. *)
Definition check (connection : bool + string) (responseTime : Z)
    (settings : option Settings.t) (tickAge : option Z) : Report :=
  let status0 := healthy in
  let dbConnected := match connection with inl c => c | inr _ => false end in
  let error := match connection with inl _ => None | inr m => Some m end in
  let status1 := match connection with inl _ => status0 | inr _ => degraded end in
  let settings' := if dbConnected then settings else None in
  let age := if dbConnected then tickAge else None in
  let status2 := if dbConnected && stale age then degraded else status1 in
  let status3 :=
    if negb dbConnected then unhealthy
    else if 5000 <? responseTime then degraded
    else status2 in
  {| status := status3;
     connected := dbConnected;
     response_time_ms := responseTime;
     database_error := error;
     run_id := option_map Settings.run_id settings';
     is_paused := option_map Settings.is_paused settings';
     target_price := option_map Settings.target_price settings';
     last_tick_age_ms := age;
     httpStatus := match status3 with
                   | degraded => 200
                   | unhealthy => 503
                   | healthy => 200
                   end |}.

End HealthCheck.

(** *** The cache manager (src/db/cache) *)

Module Cache.

Local Open Scope Z_scope.

(** The object: its four mutable fields. *)
Record CacheManager := {
  latestTick : option TickData.t;
  settings : option Settings.t;
  lastTickUpdate : Z;
  lastSettingsUpdate : Z
}.

Definition TICK_TTL : Z := 2000.
Definition SETTINGS_TTL : Z := 30000.

(** [new CacheManager()]. *)
Definition empty : CacheManager :=
  {| latestTick := None; settings := None;
     lastTickUpdate := 0; lastSettingsUpdate := 0 |}.

(** [isTickExpired()] and [isSettingsExpired()], with the reading [now] of
    [Date.now()]. *)
Definition isTickExpired (now : Z) (c : CacheManager) : bool :=
  if lastTickUpdate c =? 0 then true
  else TICK_TTL <? now - lastTickUpdate c.

Definition isSettingsExpired (now : Z) (c : CacheManager) : bool :=
  if lastSettingsUpdate c =? 0 then true
  else SETTINGS_TTL <? now - lastSettingsUpdate c.

(** [getLatestTick()]: the value returned and the object after the call. *)
Definition getLatestTick (now : Z) (c : CacheManager)
  : option TickData.t * CacheManager :=
  if isTickExpired now c then
    (None, {| latestTick := None; settings := settings c;
              lastTickUpdate := lastTickUpdate c;
              lastSettingsUpdate := lastSettingsUpdate c |})
  else (latestTick c, c).

(** [setLatestTick(tick)]. *)
Definition setLatestTick (now : Z) (tick : TickData.t) (c : CacheManager)
  : CacheManager :=
  {| latestTick := Some tick; settings := settings c;
     lastTickUpdate := now; lastSettingsUpdate := lastSettingsUpdate c |}.

(** [getSettings()]. *)
Definition getSettings (now : Z) (c : CacheManager)
  : option Settings.t * CacheManager :=
  if isSettingsExpired now c then
    (None, {| latestTick := latestTick c; settings := None;
              lastTickUpdate := lastTickUpdate c;
              lastSettingsUpdate := lastSettingsUpdate c |})
  else (settings c, c).

(** [setSettings(settings)]. *)
Definition setSettings (now : Z) (s : Settings.t) (c : CacheManager)
  : CacheManager :=
  {| latestTick := latestTick c; settings := Some s;
     lastTickUpdate := lastTickUpdate c; lastSettingsUpdate := now |}.

(** [invalidateSettings()] and [invalidateTick()]. *)
Definition invalidateSettings (c : CacheManager) : CacheManager :=
  {| latestTick := latestTick c; settings := None;
     lastTickUpdate := lastTickUpdate c; lastSettingsUpdate := 0 |}.

Definition invalidateTick (c : CacheManager) : CacheManager :=
  {| latestTick := None; settings := settings c;
     lastTickUpdate := 0; lastSettingsUpdate := lastSettingsUpdate c |}.

(** [clear()]. *)
Definition clear (c : CacheManager) : CacheManager := empty.

(** [warm(tick, settings)]. *)
Definition warm (now : Z) (tick : option TickData.t) (s : option Settings.t)
    (c : CacheManager) : CacheManager :=
  let c1 := match tick with Some t => setLatestTick now t c | None => c end in
  match s with Some s => setSettings now s c1 | None => c1 end.

Record Stats := {
  hasLatestTick : bool;
  hasSettings : bool;
  tickAge : Z;
  settingsAge : Z;
  statsTickExpired : bool;
  statsSettingsExpired : bool
}.

(** [getStats()]. *)
Definition getStats (now : Z) (c : CacheManager) : Stats :=
  {| hasLatestTick := match latestTick c with Some _ => true | None => false end;
     hasSettings := match settings c with Some _ => true | None => false end;
     tickAge := if 0 <? lastTickUpdate c then now - lastTickUpdate c else -1;
     settingsAge :=
       if 0 <? lastSettingsUpdate c then now - lastSettingsUpdate c else -1;
     statsTickExpired := isTickExpired now c;
     statsSettingsExpired := isSettingsExpired now c |}.

End Cache.

(** *** The cached database client (src/db/cached-client) *)

Module CachedClient.

Import Cache.

(** [!runId || row_run_id === runId] for an optional run identity. *)
Definition run_matches (runId : option string) (row_run_id : string) : bool :=
  negb (Simulator.truthy runId)
  || match runId with
     | Some r => String.eqb row_run_id r
     | None => false
     end.

(** [getLatestSettings(runId)].  [database] is what the wrapped client
    returns or throws for the query at the time of the call; [now] and
    [later] are the clock readings of the cache lookup and of the cache
    update. *)
Definition getLatestSettings
    (database : option string -> Simulator.Completion (option Settings.t))
    (runId : option string) (now later : Z) (cache : CacheManager)
  : Simulator.Completion (option Settings.t) * CacheManager :=
  let '(cachedSettings, cache1) := getSettings now cache in
  let fetch :=
    match database runId with
    | Simulator.Throw e => (Simulator.Throw e, cache1)
    | Simulator.Normal (Some s) =>
        (Simulator.Normal (Some s), setSettings later s cache1)
    | Simulator.Normal None => (Simulator.Normal None, cache1)
    end in
  match cachedSettings with
  | Some s =>
      if run_matches runId (Settings.run_id s)
      then (Simulator.Normal (Some s), cache1)
      else fetch
  | None => fetch
  end.

(** [getLatestTick(runId)]. *)
Definition getLatestTick
    (database : option string -> Simulator.Completion (option TickData.t))
    (runId : option string) (now later : Z) (cache : CacheManager)
  : Simulator.Completion (option TickData.t) * CacheManager :=
  let '(cachedTick, cache1) := Cache.getLatestTick now cache in
  let fetch :=
    match database runId with
    | Simulator.Throw e => (Simulator.Throw e, cache1)
    | Simulator.Normal (Some t) =>
        (Simulator.Normal (Some t), setLatestTick later t cache1)
    | Simulator.Normal None => (Simulator.Normal None, cache1)
    end in
  match cachedTick with
  | Some t =>
      if run_matches runId (TickData.run_id t)
      then (Simulator.Normal (Some t), cache1)
      else fetch
  | None => fetch
  end.

(** [updateSettings(updates)], with what the wrapped client returns or
    throws for the update. *)
Definition updateSettings (database : Simulator.Completion Settings.t)
    (now : Z) (cache : CacheManager)
  : Simulator.Completion Settings.t * CacheManager :=
  match database with
  | Simulator.Throw e => (Simulator.Throw e, cache)
  | Simulator.Normal updatedSettings =>
      (Simulator.Normal updatedSettings,
       setSettings now updatedSettings (invalidateSettings cache))
  end.

(** [batchInsertTicks(ticks)], with what the wrapped client returns or
    throws for the insertion. *)
Definition batchInsertTicks (database : Simulator.Completion unit)
    (ticks : list TickData.t) (now : Z) (cache : CacheManager)
  : Simulator.Completion unit * CacheManager :=
  match database with
  | Simulator.Throw e => (Simulator.Throw e, cache)
  | Simulator.Normal tt =>
      (Simulator.Normal tt,
       match ticks with
       | [] => cache
       | first :: rest => setLatestTick now (last rest first) cache
       end)
  end.

End CachedClient.

(** *** The control endpoint (dist/api/control) *)

Module ControlHandler.

Import Http.
Local Open Scope string_scope.

(** The readings of [new Date()] in the order the handler takes them: for
    the payload, for the run identity, for [updated_at]. *)
Record Clock := { at_payload : Z; at_run_id : Z; at_update : Z }.

(** [response.data]. *)
Record SuccessData := {
  action : string;
  run_id : string;
  is_paused : bool;
  target_price : Q;
  splits : Sim.Splits;
  updated_at : string;
  reset_info : option (string * string)
}.

Definition validActions : list string := ["pause"; "resume"; "reset"].

(** The checks of [handler] on the request, up to the statement that
    constructs the database client. *)
Definition validate (method : string) (body : JsValue) : Reply string :=
  check_method method (
  check_body body (
  let action := property "action" body in
  if negb (truthy action) || negb (typeof_string action) then
    validation_error "Missing or invalid action field"
      "action is required and must be a string"
  else
    match action with
    | JsString action =>
        if negb (existsb (String.eqb action) validActions) then
          validation_error "Invalid action type"
            "action must be one of: pause, resume, reset"
        else Proceed action
    | _ =>
        validation_error "Missing or invalid action field"
          "action is required and must be a string"
    end)).

Definition invalid_state (e m : string) : Response SuccessData :=
  Error 400 {| error := e; code := "INVALID_STATE"; message := Some m |}.

(** The argument of [updateSettings] for [pause] and [resume]: the pause
    flag alone. *)
Definition pause_update (flag : bool) (clock : Clock) : Client.SettingsUpdate :=
  {| Client.u_target_price := None;
     Client.u_split_part1 := None; Client.u_split_part2 := None;
     Client.u_is_paused := Some flag;
     Client.u_updated_at := Some (Js.toISOString (at_update clock)) |}.

(** The argument of [updateSettings] for [reset]. *)
Definition reset_update (currentSettings : Settings.t) (clock : Clock)
  : Client.SettingsUpdate :=
  {| Client.u_target_price := Some (Settings.target_price currentSettings);
     Client.u_split_part1 := Some (Settings.split_part1 currentSettings);
     Client.u_split_part2 := Some (Settings.split_part2 currentSettings);
     Client.u_is_paused := Some false;
     Client.u_updated_at := Some (Js.toISOString (at_update clock)) |}.

(** The end of the handler: the audit record, then the success response. *)
Definition finish (cachedClient : Client.t) (act : string)
    (currentSettings updatedSettings : Settings.t)
    (actionPayload : Client.ActionPayload) (calls : list Client.Call)
  : Response SuccessData * list Client.Call :=
  let logged :=
    {| Client.run_id :=
         if String.eqb act "reset" then Settings.run_id updatedSettings
         else Settings.run_id currentSettings;
       Client.action_type := "control_action";
       Client.payload := Client.ControlAction actionPayload |} in
  Client.await (Client.LogUserAction logged)
    (Client.logUserAction cachedClient logged) calls
    (fun _ calls =>
  (Success {| action := act;
              run_id := Settings.run_id updatedSettings;
              is_paused := Settings.is_paused updatedSettings;
              target_price := Settings.target_price updatedSettings;
              splits := {| Sim.part1 := Settings.split_part1 updatedSettings;
                           Sim.part2 := Settings.split_part2 updatedSettings |};
              updated_at := Settings.updated_at updatedSettings;
              reset_info :=
                if String.eqb act "reset"
                then Some (Settings.run_id updatedSettings,
                           Settings.run_id currentSettings)
                else None |},
   calls)).

(** [handler]: the response, and the calls made to the cached client, in
    order.  [SupabaseClient] is the property of that name of the database
    module, [random] the bytes that [randomBytes(4)] returns. *)
Definition handler (SupabaseClient : Supabase.Export Client.t) (clock : Clock)
    (random : list byte) (method : string) (body : JsValue)
  : Response SuccessData * list Client.Call :=
  match validate method body with
  | Preflight => (Options, [])
  | Failure status b => (Error status b, [])
  | Proceed act =>
      match Supabase.new SupabaseClient with
      | Simulator.Throw _ => (error500, [])
      | Simulator.Normal supabaseClient =>
          let cachedClient := Client.CachedDatabaseClient supabaseClient in
          Client.await Client.GetLatestSettings
            (Client.getLatestSettings cachedClient) []
            (fun currentSettings calls =>
          match currentSettings with
          | None => (no_settings, calls)
          | Some currentSettings =>
              let actionPayload (new_state : Client.NewState) :=
                {| Client.p_action := act;
                   Client.p_timestamp := Js.toISOString (at_payload clock);
                   Client.previous_is_paused := Settings.is_paused currentSettings;
                   Client.previous_run_id := Settings.run_id currentSettings;
                   Client.new_state := new_state |} in
              if String.eqb act "pause" then
                if Settings.is_paused currentSettings then
                  (invalid_state "Simulation is already paused"
                     "Cannot pause an already paused simulation", calls)
                else
                  let updates := pause_update true clock in
                  Client.await (Client.UpdateSettings updates)
                    (Client.updateSettings cachedClient updates) calls
                    (fun updatedSettings calls =>
                  finish cachedClient act currentSettings updatedSettings
                    (actionPayload (Client.PauseFlag true)) calls)
              else if String.eqb act "resume" then
                if negb (Settings.is_paused currentSettings) then
                  (invalid_state "Simulation is already running"
                     "Cannot resume an already running simulation", calls)
                else
                  let updates := pause_update false clock in
                  Client.await (Client.UpdateSettings updates)
                    (Client.updateSettings cachedClient updates) calls
                    (fun updatedSettings calls =>
                  finish cachedClient act currentSettings updatedSettings
                    (actionPayload (Client.PauseFlag false)) calls)
              else if String.eqb act "reset" then
                let newRunId := Control.generateRunId (at_run_id clock) random in
                Client.await (Client.InitializeDefaultSettings newRunId)
                  (Client.initializeDefaultSettings cachedClient newRunId) calls
                  (fun _ calls =>
                let updates := reset_update currentSettings clock in
                Client.await (Client.UpdateSettings updates)
                  (Client.updateSettings cachedClient updates) calls
                  (fun updatedSettings calls =>
                finish cachedClient act currentSettings updatedSettings
                  (actionPayload
                     (Client.ResetState newRunId
                        (Settings.target_price currentSettings))) calls))
              else
                (Error 400 {| error := "Unsupported action";
                              code := "VALIDATION_ERROR"; message := None |},
                 calls)
          end)
      end
  end.

End ControlHandler.

(** *** Clients for the examples of the endpoints *)

Module EndpointScenario.

Local Open Scope Q_scope.

(** The settings row of the example run. *)
Definition example_settings (is_paused : bool) : Settings.t :=
  {| Settings.id := "1"; Settings.run_id := "example-run-1";
     Settings.target_price := 100;
     Settings.split_part1 := 0.6; Settings.split_part2 := 0.4;
     Settings.is_paused := is_paused;
     Settings.created_at := "2024-02-29T12:00:00.000Z";
     Settings.updated_at := "2024-02-29T12:00:00.000Z" |}.

(** A row after an update: the fields that the update names are replaced. *)
Definition updated_row (u : Client.SettingsUpdate) (s : Settings.t) : Settings.t :=
  let or_else {A} (o : option A) (d : A) : A :=
    match o with Some v => v | None => d end in
  {| Settings.id := Settings.id s; Settings.run_id := Settings.run_id s;
     Settings.target_price := or_else (Client.u_target_price u) (Settings.target_price s);
     Settings.split_part1 := or_else (Client.u_split_part1 u) (Settings.split_part1 s);
     Settings.split_part2 := or_else (Client.u_split_part2 u) (Settings.split_part2 s);
     Settings.is_paused := or_else (Client.u_is_paused u) (Settings.is_paused s);
     Settings.created_at := Settings.created_at s;
     Settings.updated_at := or_else (Client.u_updated_at u) (Settings.updated_at s) |}.

(** A client whose database holds the settings [s] and the tick [tick], and
    answers every call. *)
Definition serving (s : Settings.t) (tick : option TickData.t) : Client.t :=
  {| Client.getLatestTick := Simulator.Normal tick;
     Client.getLatestSettings := Simulator.Normal (Some s);
     Client.initializeDefaultSettings := fun runId =>
       Simulator.Normal
         {| Settings.id := "2"; Settings.run_id := runId;
            Settings.target_price := 100;
            Settings.split_part1 := 0.5; Settings.split_part2 := 0.5;
            Settings.is_paused := false;
            Settings.created_at := Settings.updated_at s;
            Settings.updated_at := Settings.updated_at s |};
     Client.updateSettings := fun u => Simulator.Normal (updated_row u s);
     Client.logUserAction := fun _ => Simulator.Normal tt |}.

(** A database module that provides the class, with such a client. *)
Definition providing (s : Settings.t) (tick : option TickData.t)
  : Supabase.Export Client.t :=
  Supabase.Class (Simulator.Normal (serving s tick)).

End EndpointScenario.

(* ================================================================== *)
(** ** Part II.  Properties *)
(* ================================================================== *)

Import Sim Scenario.
Local Open Scope Q_scope.

Example toISOString_epoch : Js.toISOString 0 = "1970-01-01T00:00:00.000Z"%string.
Proof. reflexivity. Qed.

Example toISOString_2024 :
  Js.toISOString 1709210096789 = "2024-02-29T12:34:56.789Z"%string.
Proof. vm_compute. reflexivity. Qed.

Example toISOString_before_epoch :
  Js.toISOString (-1) = "1969-12-31T23:59:59.999Z"%string.
Proof. vm_compute. reflexivity. Qed.

Example reflect_107 : Simulator.reflect 107 95 105 == 103.
Proof. vm_compute. reflexivity. Qed.

Example generateRunId_example :
  Control.generateRunId 1709210096789 [x00; xab; x10; xff]
  = "20240229-123456-00ab10ff"%string.
Proof. vm_compute. reflexivity. Qed.

Example toFixed_examples :
  Js.toFixed (1234567891 # 1000000000) 8 == 1.23456789 /\
  Js.toFixed (-(5 # 1000)) 2 == -0.01 /\
  Js.toFixed 0.001234 4 == 0.0012.
Proof. vm_compute. repeat split; reflexivity. Qed.

(** Closed comparisons of rationals, by computation. *)
Ltac q_compute := vm_compute; first [reflexivity | discriminate].

(** *** Running methods *)

Ltac run_method :=
  unfold Simulator.generateTick, Simulator.getCurrentTickData,
    Simulator.calculateDrift, Simulator.reset, Simulator.updateTarget,
    Simulator.updateSplits, Simulator.updateBounds, Simulator.start,
    Simulator.pause, Simulator.resume, Simulator.modifyState,
    Simulator.putState, Simulator.getState_, Simulator.getConfig_,
    Simulator.bind, Simulator.ret, Simulator.throw, Simulator.addNoise;
  cbn [fst snd state config currentValue target bounds splits isRunning runId
       Simulator.set_currentValue Simulator.set_target Simulator.set_bounds
       Simulator.set_splits Simulator.set_isRunning Simulator.set_runId].

(** Field accesses on explicit records. *)
Ltac project_fields :=
  cbn [fst snd negb state config currentValue target bounds splits isRunning
       runId lower upper part1 part2 volatility meanReversionRate bandWidth
       updateFrequencyMs opt_volatility opt_meanReversionRate opt_bandWidth
       opt_updateFrequencyMs TickResult.timestamp TickResult.total_value
       TickResult.part1_value TickResult.part2_value TickResult.target
       TickResult.bounds TickResult.pct_from_target
       Simulator.set_currentValue Simulator.set_target Simulator.set_bounds
       Simulator.set_splits Simulator.set_isRunning Simulator.set_runId].

(** *** Reflection at the bounds *)

(** C3. The reflection step: a value below the lower bound is mirrored at the
    lower bound, a value above the upper bound (and not below the lower one,
    which is every value above the upper bound when the bounds form an
    interval) is mirrored at the upper bound, a value inside is returned as
    it is; with the bounds [95, 105], 107 reflects to 103 and 92 reflects
    to 98. *)
Theorem reflect_cases (v lo up : Q) :
  (v < lo -> Simulator.reflect v lo up = lo + (lo - v)) /\
  (lo <= v -> up < v -> Simulator.reflect v lo up = up - (v - up)) /\
  (lo <= up -> up < v -> Simulator.reflect v lo up = up - (v - up)) /\
  (lo <= v -> v <= up -> Simulator.reflect v lo up = v) /\
  Simulator.reflect 107 95 105 == 103 /\
  Simulator.reflect 92 95 105 == 98.
Proof.
  unfold Simulator.reflect.
  repeat split.
  - intros Hlt. destruct (Qlt_le_dec v lo) as [_ | Hge]; [reflexivity | lra].
  - intros Hge Hgt.
    destruct (Qlt_le_dec v lo) as [Hlt | _]; [lra |].
    destruct (Qlt_le_dec up v) as [_ | Hle]; [reflexivity | lra].
  - intros Hint Hgt.
    destruct (Qlt_le_dec v lo) as [Hlt | _]; [lra |].
    destruct (Qlt_le_dec up v) as [_ | Hle]; [reflexivity | lra].
  - intros Hlo Hup.
    destruct (Qlt_le_dec v lo) as [Hlt | _]; [lra |].
    destruct (Qlt_le_dec up v) as [Hgt | _]; [lra | reflexivity].
Qed.

Lemma reflect_cases_witness :
  Simulator.reflect 92 95 105 = 95 + (95 - 92) /\
  Simulator.reflect 107 95 105 = 105 - (107 - 105) /\
  Simulator.reflect 100 95 105 = 100.
Proof.
  split; [| split].
  - apply (proj1 (reflect_cases 92 95 105)). reflexivity.
  - apply (proj1 (proj2 (proj2 (reflect_cases 107 95 105)))).
    + discriminate.
    + reflexivity.
  - apply (proj1 (proj2 (proj2 (proj2 (reflect_cases 100 95 105)))));
      discriminate.
Defined.

(** One reflection brings a value back between the bounds exactly when it
    overshoots by no more than the width of the band. *)
Lemma reflect_in_bounds_iff (v lo up : Q) :
  lo <= up ->
  (lo <= Simulator.reflect v lo up <= up
   <-> lo - (up - lo) <= v <= up + (up - lo)).
Proof.
  intros Hint. unfold Simulator.reflect.
  destruct (Qlt_le_dec v lo) as [Hlt | Hge].
  - split; intros [H1 H2]; split; lra.
  - destruct (Qlt_le_dec up v) as [Hgt | Hle]; split; intros [H1 H2]; split; lra.
Qed.

(** A running step whose candidate value overshoots by no more than the width
    of the band yields a tick between the bounds. *)
Lemma generateTick_bounded_overshoot (z0 : Q) (now : Z) (sim : Simulator) :
  let s := state sim in
  let candidate :=
    currentValue s + meanReversionRate (config sim) * (target s - currentValue s)
    + z0 * volatility (config sim) in
  isRunning s = true ->
  lower (bounds s) <= upper (bounds s) ->
  lower (bounds s) - (upper (bounds s) - lower (bounds s)) <= candidate ->
  candidate <= upper (bounds s) + (upper (bounds s) - lower (bounds s)) ->
  exists tick sim',
    Simulator.generateTick z0 now sim = (Simulator.Normal tick, sim') /\
    TickResult.bounds tick = bounds s /\
    TickResult.total_value tick = currentValue (state sim') /\
    lower (bounds s) <= TickResult.total_value tick <= upper (bounds s).
Proof.
  intros s candidate Hrun Hint Hlo Hup.
  run_method. fold s. rewrite Hrun. cbn [negb].
  eexists. eexists. split; [reflexivity |].
  cbn [TickResult.bounds TickResult.total_value state currentValue].
  repeat split; try reflexivity;
    apply (proj2 (reflect_in_bounds_iff candidate _ _ Hint)); split; assumption.
Qed.

(** With a target of 0.10, every draw of more than three quarters of a
    standard deviation, upwards or downwards, takes the value from the target
    out of the band. *)
Lemma small_target_escape_range (z0 : Q) (now : Z) :
  0.75 < Qabs z0 ->
  exists tick sim',
    Simulator.generateTick z0 now small_target_sim
      = (Simulator.Normal tick, sim') /\
    ~ (lower (TickResult.bounds tick) <= TickResult.total_value tick
       /\ TickResult.total_value tick <= upper (TickResult.bounds tick)).
Proof.
  intros Hfar.
  unfold small_target_sim, Simulator.new, Simulator.defaultConfig, noConfig.
  run_method. project_fields.
  eexists. eexists. split; [reflexivity |].
  project_fields. unfold Simulator.reflect.
  revert Hfar. apply Qabs_case; intros Hsign Hfar;
    repeat match goal with
           | |- context [Qlt_le_dec ?a ?b] => destruct (Qlt_le_dec a b)
           end; lra.
Qed.

(** C1. With a target of 0.10 the band is [0.095, 0.105]; from the value 0.10
    a draw of one standard deviation (noise 0.02) gives the candidate 0.12,
    which the single reflection sends to 0.09, below the lower bound: the
    generated tick is outside its bounds. *)
Theorem generateTick_escapes_bounds :
  exists tick sim',
    Simulator.generateTick 1 1709210096789 small_target_sim
      = (Simulator.Normal tick, sim') /\
    lower (bounds (state small_target_sim))
      <= currentValue (state small_target_sim)
      <= upper (bounds (state small_target_sim)) /\
    TickResult.total_value tick == 0.09 /\
    lower (TickResult.bounds tick) == 0.095 /\
    TickResult.total_value tick < lower (TickResult.bounds tick) /\
    currentValue (state sim') < lower (bounds (state sim')).
Proof.
  remember (Simulator.generateTick 1 1709210096789 small_target_sim) as r eqn:Hr.
  vm_compute in Hr. subst r.
  eexists. eexists. split; [reflexivity |].
  vm_compute. repeat split; intro H; discriminate H.
Qed.

(** *** Ticks while paused *)

Lemma getCurrentTickData_eq (now : Z) (sim : Simulator) :
  Simulator.getCurrentTickData now sim =
  (Simulator.Normal
     {| TickResult.timestamp := Js.toISOString now;
        TickResult.total_value := currentValue (state sim);
        TickResult.part1_value := currentValue (state sim) * part1 (splits (state sim));
        TickResult.part2_value := currentValue (state sim) * part2 (splits (state sim));
        TickResult.target := target (state sim);
        TickResult.bounds := bounds (state sim);
        TickResult.pct_from_target :=
          ((currentValue (state sim) - target (state sim)) / target (state sim)) * 100 |},
   sim).
Proof. reflexivity. Qed.

Lemma generateTick_paused (z0 : Q) (now : Z) (sim : Simulator) :
  isRunning (state sim) = false ->
  Simulator.generateTick z0 now sim = Simulator.getCurrentTickData now sim.
Proof.
  intros Hp. unfold Simulator.generateTick, Simulator.bind, Simulator.getState_.
  rewrite Hp. reflexivity.
Qed.

Lemma generateTicks_paused_eq (env : list (Q * Z)) (sim : Simulator) :
  isRunning (state sim) = false ->
  generateTicks env sim =
  (map (fun e => fst (Simulator.getCurrentTickData (snd e) sim)) env, sim).
Proof.
  intros Hp. induction env as [| [z0 now] rest IH]; [reflexivity |].
  cbn [generateTicks map snd].
  rewrite (generateTick_paused z0 now sim Hp), getCurrentTickData_eq.
  rewrite IH. reflexivity.
Qed.

(** C2 (as amended). While the simulator is paused, a sequence of calls of
    [generateTick] leaves the simulator as it was, every call returns a tick
    whose timestamp is the clock reading of that call and whose value is the
    current value, any two returned ticks agree on every display field but
    the timestamp, and the ticks do not depend on the random draws. *)
Theorem generateTicks_paused (env : list (Q * Z)) (sim : Simulator) :
  isRunning (state sim) = false ->
  snd (generateTicks env sim) = sim /\
  Forall2
    (fun e r => exists tick,
       r = Simulator.Normal tick /\
       TickResult.timestamp tick = Js.toISOString (snd e) /\
       TickResult.total_value tick = currentValue (state sim))
    env (fst (generateTicks env sim)) /\
  (forall t1 t2,
     In (Simulator.Normal t1) (fst (generateTicks env sim)) ->
     In (Simulator.Normal t2) (fst (generateTicks env sim)) ->
     same_display t1 t2) /\
  (forall env',
     map snd env' = map snd env ->
     fst (generateTicks env' sim) = fst (generateTicks env sim)).
Proof.
  intros Hp. rewrite (generateTicks_paused_eq env sim Hp). cbn [fst snd].
  split; [reflexivity |]. split; [| split].
  - induction env as [| e rest IH]; cbn [map]; constructor; [| exact IH].
    eexists. rewrite getCurrentTickData_eq. cbn [fst].
    split; [reflexivity |]. split; reflexivity.
  - intros t1 t2 H1 H2.
    apply in_map_iff in H1. destruct H1 as [e1 [E1 _]].
    apply in_map_iff in H2. destruct H2 as [e2 [E2 _]].
    rewrite getCurrentTickData_eq in E1, E2. cbn [fst] in E1, E2.
    injection E1 as <-. injection E2 as <-.
    unfold same_display. cbn. repeat split; reflexivity.
  - intros env' Hclock. rewrite (generateTicks_paused_eq env' sim Hp). cbn [fst].
    rewrite <- (map_map snd (fun now => fst (Simulator.getCurrentTickData now sim))).
    rewrite <- (map_map snd (fun now => fst (Simulator.getCurrentTickData now sim)) env).
    rewrite Hclock. reflexivity.
Qed.

Lemma generateTicks_paused_witness :
  isRunning (state paused_sim) = false /\
  snd (generateTicks [(1, 1709210096789%Z); (-2, 1709210097789%Z)] paused_sim)
  = paused_sim.
Proof.
  split; [reflexivity |].
  apply (generateTicks_paused
           [(1, 1709210096789%Z); (-2, 1709210097789%Z)] paused_sim).
  reflexivity.
Defined.

(** C2 (counterexample). Two calls of [generateTick] on a paused simulator,
    one second apart: the simulator is unchanged, but the timestamps of the
    two ticks differ. *)
Lemma paused_timestamp_advances :
  exists t1 t2,
    generateTicks [(1, 1709210096789%Z); (1, 1709210097789%Z)] paused_sim
      = ([Simulator.Normal t1; Simulator.Normal t2], paused_sim) /\
    isRunning (state paused_sim) = false /\
    TickResult.timestamp t1 = "2024-02-29T12:34:56.789Z"%string /\
    TickResult.timestamp t2 = "2024-02-29T12:34:57.789Z"%string /\
    TickResult.timestamp t1 <> TickResult.timestamp t2.
Proof.
  rewrite generateTicks_paused_eq by reflexivity.
  cbn [map snd fst]. rewrite !getCurrentTickData_eq. cbn [fst].
  eexists. eexists. split; [reflexivity |].
  cbn [TickResult.timestamp].
  split; [reflexivity |].
  split; [vm_compute; reflexivity |].
  split; [vm_compute; reflexivity |].
  vm_compute. intro H. discriminate H.
Qed.

(** *** Split weights *)

Lemma updateSplits_rejected (w1 w2 : Q) (sim : Simulator) :
  0.0001 < Qabs (w1 + w2 - 1) ->
  Simulator.updateSplits w1 w2 sim
  = (Simulator.Throw "Portfolio splits must sum to 1", sim).
Proof.
  intros Hbad. unfold Simulator.updateSplits.
  destruct (Qlt_le_dec 0.0001 (Qabs (w1 + w2 - 1))) as [_ | Hok];
    [reflexivity | lra].
Qed.

Lemma updateSplits_accepted (w1 w2 : Q) (sim : Simulator) :
  Qabs (w1 + w2 - 1) <= 0.0001 ->
  Simulator.updateSplits w1 w2 sim
  = (Simulator.Normal tt,
     {| state := Simulator.set_splits {| part1 := w1; part2 := w2 |} (state sim);
        config := config sim |}).
Proof.
  intros Hok. unfold Simulator.updateSplits.
  destruct (Qlt_le_dec 0.0001 (Qabs (w1 + w2 - 1))) as [Hbad | _];
    [lra | reflexivity].
Qed.

(** C4. [updateSplits(w1, w2)] with [|w1 + w2 - 1| > 1e-4] throws and leaves
    the simulator, hence its split weights, as it was; within the tolerance
    it returns normally and replaces both weights together, touching nothing
    else; [updateSplits(0.5, 0.6)] is rejected. *)
Theorem updateSplits_validates_sum (w1 w2 : Q) (sim : Simulator) :
  (0.0001 < Qabs (w1 + w2 - 1) ->
   exists message,
     Simulator.updateSplits w1 w2 sim = (Simulator.Throw message, sim)) /\
  (Qabs (w1 + w2 - 1) <= 0.0001 ->
   exists sim',
     Simulator.updateSplits w1 w2 sim = (Simulator.Normal tt, sim') /\
     splits (state sim') = {| part1 := w1; part2 := w2 |} /\
     currentValue (state sim') = currentValue (state sim) /\
     target (state sim') = target (state sim) /\
     bounds (state sim') = bounds (state sim) /\
     isRunning (state sim') = isRunning (state sim) /\
     runId (state sim') = runId (state sim) /\
     config sim' = config sim) /\
  (exists message,
     Simulator.updateSplits 0.5 0.6 sim = (Simulator.Throw message, sim)).
Proof.
  split; [| split].
  - intros Hbad. eexists. apply updateSplits_rejected. exact Hbad.
  - intros Hok. eexists. split; [apply updateSplits_accepted; exact Hok |].
    cbn. repeat split; reflexivity.
  - eexists. apply updateSplits_rejected. q_compute.
Qed.

Lemma updateSplits_validates_sum_witness :
  (exists message,
     Simulator.updateSplits 0.5 0.6 example_sim
     = (Simulator.Throw message, example_sim)) /\
  (exists sim',
     Simulator.updateSplits 0.7 0.3 example_sim = (Simulator.Normal tt, sim') /\
     splits (state sim') = {| part1 := 0.7; part2 := 0.3 |}).
Proof.
  split.
  - apply (proj1 (updateSplits_validates_sum 0.5 0.6 example_sim)). q_compute.
  - destruct (proj1 (proj2 (updateSplits_validates_sum 0.7 0.3 example_sim)))
      as [sim' [Hcall [Hsplits _]]].
    + q_compute.
    + exists sim'. split; assumption.
Defined.

(** C10. [updateSplits] checks only the sum: any pair within the tolerance is
    taken over as it is, whatever the sign or size of each weight;
    [updateSplits(1.5, -0.5)] is accepted, after it every tick of positive
    total value has a negative second part, and on the example simulator the
    next tick carries the part values 150 and -50. *)
Theorem updateSplits_accepts_any_weights_of_sum_one (w1 w2 : Q) (sim : Simulator) :
  Qabs (w1 + w2 - 1) <= 0.0001 ->
  (exists sim',
     Simulator.updateSplits w1 w2 sim = (Simulator.Normal tt, sim') /\
     part1 (splits (state sim')) = w1 /\
     part2 (splits (state sim')) = w2) /\
  (exists sim',
     Simulator.updateSplits 1.5 (-0.5) sim = (Simulator.Normal tt, sim') /\
     forall z0 now tick sim'',
       Simulator.generateTick z0 now sim' = (Simulator.Normal tick, sim'') ->
       0 < TickResult.total_value tick ->
       TickResult.part2_value tick < 0) /\
  (exists sim' tick sim'',
     Simulator.updateSplits 1.5 (-0.5) example_sim = (Simulator.Normal tt, sim') /\
     Simulator.generateTick 0 1709210096789 sim' = (Simulator.Normal tick, sim'') /\
     TickResult.total_value tick == 100 /\
     TickResult.part1_value tick == 150 /\
     TickResult.part2_value tick == -50).
Proof.
  intros Hok. split; [| split].
  - eexists. split; [apply updateSplits_accepted; exact Hok |].
    split; reflexivity.
  - eexists. split; [apply updateSplits_accepted; q_compute |].
    intros z0 now tick sim'' Hgen Hpos.
    revert Hgen. run_method.
    destruct (negb (isRunning (state sim)));
      intros Hgen; injection Hgen as <- _;
      cbn [TickResult.part2_value TickResult.total_value] in *; lra.
  - remember (Simulator.updateSplits 1.5 (-0.5) example_sim) as r eqn:Hr.
    vm_compute in Hr. subst r.
    eexists. eexists. eexists. split; [reflexivity |].
    match goal with
    | |- Simulator.generateTick ?z ?n ?s = _ /\ _ =>
        remember (Simulator.generateTick z n s) as g eqn:Hg
    end.
    vm_compute in Hg. subst g.
    split; [reflexivity |]. vm_compute. repeat split.
Qed.

Lemma updateSplits_accepts_any_weights_of_sum_one_witness :
  Qabs (1.5 + -0.5 - 1) <= 0.0001 /\
  exists sim',
    Simulator.updateSplits 1.5 (-0.5) example_sim = (Simulator.Normal tt, sim') /\
    part1 (splits (state sim')) = 1.5 /\
    part2 (splits (state sim')) = -0.5.
Proof.
  assert (Hok : Qabs (1.5 + -0.5 - 1) <= 0.0001) by q_compute.
  split; [exact Hok |].
  exact (proj1 (updateSplits_accepts_any_weights_of_sum_one
                  1.5 (-0.5) example_sim Hok)).
Defined.

(** The sum of the two part values of a tick is the total value times the
    sum of the weights. *)
Lemma generateTick_parts (z0 : Q) (now : Z) (sim : Simulator) :
  exists tick sim',
    Simulator.generateTick z0 now sim = (Simulator.Normal tick, sim') /\
    splits (state sim') = splits (state sim) /\
    TickResult.total_value tick = currentValue (state sim') /\
    TickResult.part1_value tick
      = TickResult.total_value tick * part1 (splits (state sim)) /\
    TickResult.part2_value tick
      = TickResult.total_value tick * part2 (splits (state sim)).
Proof.
  run_method. destruct (negb (isRunning (state sim)));
    eexists; eexists; (split; [reflexivity |]); cbn; repeat split; reflexivity.
Qed.

(** C6 (as amended). For split weights within the tolerance of
    [updateSplits], the part values of every tick are the total value times
    each weight, their sum is the total value times the sum of the weights,
    it differs from the total value by at most [|total_value| * 1e-4], and it
    equals the total value when the weights sum to one. *)
Theorem tick_parts_sum (z0 : Q) (now : Z) (sim : Simulator) :
  let w1 := part1 (splits (state sim)) in
  let w2 := part2 (splits (state sim)) in
  Qabs (w1 + w2 - 1) <= 0.0001 ->
  exists tick sim',
    Simulator.generateTick z0 now sim = (Simulator.Normal tick, sim') /\
    TickResult.part1_value tick = TickResult.total_value tick * w1 /\
    TickResult.part2_value tick = TickResult.total_value tick * w2 /\
    TickResult.part1_value tick + TickResult.part2_value tick
      == TickResult.total_value tick * (w1 + w2) /\
    Qabs (TickResult.part1_value tick + TickResult.part2_value tick
          - TickResult.total_value tick)
      <= Qabs (TickResult.total_value tick) * 0.0001 /\
    (w1 + w2 == 1 ->
     TickResult.part1_value tick + TickResult.part2_value tick
       == TickResult.total_value tick).
Proof.
  intros w1 w2 Hok.
  destruct (generateTick_parts z0 now sim) as [tick [sim' [Hgen [_ [_ [H1 H2]]]]]].
  exists tick, sim'. split; [exact Hgen |].
  fold w1 in H1. fold w2 in H2. rewrite H1, H2.
  split; [reflexivity |]. split; [reflexivity |].
  set (v := TickResult.total_value tick).
  split; [ring |]. split.
  - assert (E : v * w1 + v * w2 - v == v * (w1 + w2 - 1)) by ring.
    rewrite E, Qabs_Qmult.
    rewrite (Qmult_comm (Qabs v)), (Qmult_comm (Qabs v)).
    apply Qmult_le_compat_r; [exact Hok | apply Qabs_nonneg].
  - intros Hone.
    assert (E : v * w1 + v * w2 == v * (w1 + w2)) by ring.
    rewrite E, Hone. ring.
Qed.

Lemma tick_parts_sum_witness :
  Qabs (part1 (splits (state example_sim)) + part2 (splits (state example_sim)) - 1)
    <= 0.0001 /\
  exists tick sim',
    Simulator.generateTick 1 1709210096789 example_sim
      = (Simulator.Normal tick, sim') /\
    TickResult.part1_value tick = TickResult.total_value tick * 0.6 /\
    TickResult.part2_value tick = TickResult.total_value tick * 0.4.
Proof.
  assert (Hok : Qabs (part1 (splits (state example_sim))
                      + part2 (splits (state example_sim)) - 1) <= 0.0001)
    by q_compute.
  split; [exact Hok |].
  destruct (tick_parts_sum 1 1709210096789 example_sim Hok)
    as [tick [sim' [Hgen [H1 [H2 _]]]]].
  exists tick, sim'. repeat split; assumption.
Defined.

(** C6 (counterexample). The weights 0.5 and 0.50005 are accepted by
    [updateSplits] (their sum is off by 5e-5); the next tick of the example
    simulator has total value 100 and part values 50 and 50.005, whose sum
    is 0.005 away from the total value, more than 1e-9. *)
Lemma tick_parts_sum_off_by_more_than_1e9 :
  exists sim' tick sim'',
    Qabs (0.5 + 0.50005 - 1) <= 0.0001 /\
    Simulator.updateSplits 0.5 0.50005 example_sim = (Simulator.Normal tt, sim') /\
    Simulator.generateTick 0 1709210096789 sim' = (Simulator.Normal tick, sim'') /\
    TickResult.total_value tick == 100 /\
    TickResult.part1_value tick == 50 /\
    TickResult.part2_value tick == 50.005 /\
    ~ Qabs (TickResult.part1_value tick + TickResult.part2_value tick
            - TickResult.total_value tick) <= 0.000000001.
Proof.
  remember (Simulator.updateSplits 0.5 0.50005 example_sim) as r eqn:Hr.
  vm_compute in Hr. subst r.
  eexists. eexists. eexists.
  split; [q_compute |]. split; [reflexivity |].
  match goal with
  | |- Simulator.generateTick ?z ?n ?s = _ /\ _ =>
      remember (Simulator.generateTick z n s) as g eqn:Hg
  end.
  vm_compute in Hg. subst g.
  split; [reflexivity |].
  repeat split; try q_compute.
  intros Hle. vm_compute in Hle. apply Hle. reflexivity.
Qed.

(** *** Reset *)

(** C5. For every simulator, whatever its current value and whether it runs
    or is paused, [reset] returns normally, sets the current value to the
    target and the state to running, replaces the run identity exactly when
    a new run identity is given (without an argument the run identity
    stays), and leaves target, bounds, split weights and configuration as
    they were.  A run identity is a non-empty string. *)
Theorem reset_spec (newRunId : option string) (sim : Simulator) :
  (forall id, newRunId = Some id -> id <> ""%string) ->
  exists sim',
    Simulator.reset newRunId sim = (Simulator.Normal tt, sim') /\
    currentValue (state sim') = target (state sim) /\
    isRunning (state sim') = true /\
    runId (state sim')
      = match newRunId with
        | Some id => id
        | None => runId (state sim)
        end /\
    target (state sim') = target (state sim) /\
    bounds (state sim') = bounds (state sim) /\
    splits (state sim') = splits (state sim) /\
    config sim' = config sim.
Proof.
  intros Hid. run_method.
  destruct newRunId as [[| c r] |]; cbn [Simulator.truthy].
  - exfalso. apply (Hid ""%string); reflexivity.
  - eexists; (split; [reflexivity |]); cbn; repeat split; reflexivity.
  - eexists; (split; [reflexivity |]); cbn; repeat split; reflexivity.
Qed.

(** C5 (instances). A paused simulator away from its target is reset under a
    run identity that [generateRunId] produced, and the example simulator is
    reset without one. *)
Lemma reset_spec_witness :
  (exists sim',
     Simulator.reset
       (Some (Control.generateRunId 1709210096789 [x00; xab; x10; xff]))
       off_target_sim = (Simulator.Normal tt, sim') /\
     currentValue (state sim') = target (state off_target_sim) /\
     isRunning (state sim') = true /\
     runId (state sim') = "20240229-123456-00ab10ff"%string) /\
  (exists sim',
     Simulator.reset None example_sim = (Simulator.Normal tt, sim') /\
     runId (state sim') = runId (state example_sim)).
Proof.
  split.
  - destruct (reset_spec
                (Some (Control.generateRunId 1709210096789 [x00; xab; x10; xff]))
                off_target_sim) as (sim' & Hr & Hv & Hrun & Hid & _).
    { intros id H. injection H as <-. vm_compute. discriminate. }
    exists sim'. repeat split; assumption.
  - destruct (reset_spec None example_sim) as (sim' & Hr & _ & _ & Hid & _).
    { intros id H. discriminate H. }
    exists sim'. split; assumption.
Defined.

(** The guard of [reset] is a truthiness test: the empty string, which is no
    run identity, is treated as an omitted argument. *)
Example reset_empty_string_as_omitted :
  exists sim',
    Simulator.reset (Some ""%string) example_sim = (Simulator.Normal tt, sim') /\
    runId (state sim') = runId (state example_sim).
Proof.
  eexists. split; [reflexivity |]. reflexivity.
Qed.

(** *** Rounding of the stream payload *)

Lemma pow10_pos (f : nat) : 0 < Js.pow10 f.
Proof.
  unfold Js.pow10, Qlt. cbn [Qnum Qden inject_Z].
  assert (0 < 10 ^ Z.of_nat f)%Z by (apply Z.pow_pos_nonneg; lia).
  lia.
Qed.

(** Below the magnitude 10^21, [toFixed] rounds to [f] decimal places. *)
Lemma toFixed_rounded (x : Q) (f : nat) :
  Qabs x < Js.pow10 21 -> rounded_to f x (Js.toFixed x f).
Proof.
  intros Hrange. unfold rounded_to, Js.toFixed.
  destruct (Qle_bool (Js.pow10 21) (Qabs x)) eqn:Hbig.
  { apply Qle_bool_iff in Hbig. lra. }
  clear Hbig.
  pose proof (pow10_pos f) as Hp.
  set (p := Js.pow10 f) in *.
  set (n := Qfloor (Qabs x * p + (1 # 2))).
  pose proof (Qfloor_le (Qabs x * p + (1 # 2))) as Hlo.
  pose proof (Qlt_floor (Qabs x * p + (1 # 2))) as Hhi.
  fold n in Hlo, Hhi.
  assert (Hn1 : inject_Z (n + 1) == inject_Z n + 1)
    by (rewrite inject_Z_plus; reflexivity).
  rewrite Hn1 in Hhi.
  assert (Hr : inject_Z n / p * p == inject_Z n) by (field; lra).
  assert (Hh : (1 # 2) / p * p == 1 # 2) by (field; lra).
  set (r := inject_Z n / p) in *.
  set (h := (1 # 2) / p) in *.
  assert (Hclose : r - Qabs x <= h /\ Qabs x - r <= h).
  { split; apply (Qmult_le_r _ _ p Hp).
    - assert (E : (r - Qabs x) * p == r * p - Qabs x * p) by ring.
      rewrite E, Hr, Hh. lra.
    - assert (E : (Qabs x - r) * p == Qabs x * p - r * p) by ring.
      rewrite E, Hr, Hh. lra. }
  destruct Hclose as [H1 H2].
  destruct (Qle_bool 0 x) eqn:Hsign.
  - apply Qle_bool_iff in Hsign.
    split; [exists n; reflexivity |].
    rewrite (Qabs_pos x Hsign) in H1, H2.
    apply Qabs_Qle_condition. split; lra.
  - assert (Hneg : x < 0).
    { apply Qnot_le_lt. intro Hle. apply Qle_bool_iff in Hle. congruence. }
    split.
    + exists (- n)%Z. rewrite inject_Z_opp. unfold r. field. lra.
    + rewrite (Qabs_neg x) in H1, H2 by lra.
      apply Qabs_Qle_condition. split; lra.
Qed.

(** C9 (as amended). In the payload of a tick event, the total value, the two
    part values, the target and the two bounds are rounded to 8 decimal
    places and the percentage from the target to 4 decimal places; timestamp
    and client count are passed through. *)
Theorem formatTickForStream_rounding (clients : nat) (t : TickResult.t) :
  fixed_range t ->
  let p := Stream.formatTickForStream clients t in
  rounded_to 8 (TickResult.total_value t) (StreamTick.total_value p) /\
  rounded_to 8 (TickResult.part1_value t) (StreamTick.part1_value p) /\
  rounded_to 8 (TickResult.part2_value t) (StreamTick.part2_value p) /\
  rounded_to 8 (TickResult.target t) (StreamTick.target p) /\
  rounded_to 8 (lower (TickResult.bounds t)) (lower (StreamTick.bounds p)) /\
  rounded_to 8 (upper (TickResult.bounds t)) (upper (StreamTick.bounds p)) /\
  rounded_to 4 (TickResult.pct_from_target t) (StreamTick.pct_from_target p) /\
  StreamTick.pct_from_target p = Js.toFixed (TickResult.pct_from_target t) 4 /\
  StreamTick.timestamp p = TickResult.timestamp t /\
  StreamTick.client_count p = clients.
Proof.
  intros (H1 & H2 & H3 & H4 & H5 & H6 & H7) p. subst p.
  unfold Stream.formatTickForStream. cbn.
  repeat split; try reflexivity; try (apply toFixed_rounded; assumption);
    match goal with
    | |- exists _, _ => apply toFixed_rounded; assumption
    | |- Qabs _ <= _ => apply toFixed_rounded; assumption
    end.
Qed.

Lemma formatTickForStream_rounding_witness :
  fixed_range off_target_tick /\
  rounded_to 8 (TickResult.total_value off_target_tick)
    (StreamTick.total_value (Stream.formatTickForStream 3 off_target_tick)) /\
  rounded_to 4 (TickResult.pct_from_target off_target_tick)
    (StreamTick.pct_from_target (Stream.formatTickForStream 3 off_target_tick)).
Proof.
  assert (Hrange : fixed_range off_target_tick)
    by (unfold fixed_range; repeat split; q_compute).
  split; [exact Hrange |].
  pose proof (formatTickForStream_rounding 3 off_target_tick Hrange) as H.
  cbv zeta in H. split; [apply H | apply H].
Defined.

(** C9 (counterexample). The paused simulator at 100.001234 with target 100
    returns a tick whose percentage from the target is 0.001234; the payload
    carries 0.0012, which is 0.000034 away: the field is not rounded to 8
    decimal places, and differs from the value rounded to 8 places. *)
Lemma pct_from_target_not_rounded_to_8 :
  exists tick,
    Simulator.generateTick 1 1709210096789 off_target_sim
      = (Simulator.Normal tick, off_target_sim) /\
    TickResult.pct_from_target tick == 0.001234 /\
    StreamTick.pct_from_target (Stream.formatTickForStream 1 tick) == 0.0012 /\
    Js.toFixed (TickResult.pct_from_target tick) 8 == 0.001234 /\
    ~ rounded_to 8 (TickResult.pct_from_target tick)
        (StreamTick.pct_from_target (Stream.formatTickForStream 1 tick)).
Proof.
  rewrite generateTick_paused by reflexivity.
  rewrite getCurrentTickData_eq.
  eexists. split; [reflexivity |].
  split; [q_compute |]. split; [q_compute |]. split; [q_compute |].
  intros [_ Hclose]. vm_compute in Hclose. apply Hclose. reflexivity.
Qed.

(** *** Run identities *)

Section StringFacts.

Local Open Scope string_scope.

Lemma length_append (a b : string) :
  String.length (a ++ b) = (String.length a + String.length b)%nat.
Proof. induction a as [| c a IH]; cbn; [reflexivity | now rewrite IH]. Qed.



(** A slice that ends inside the first part of a concatenation does not see
    the second part. *)
Lemma substring_append_l (a b : string) (n m : nat) :
  (n + m <= String.length a)%nat ->
  substring n m (a ++ b) = substring n m a.
Proof.
  revert n m. induction a as [| c a IH]; intros n m Hlen; cbn in Hlen.
  - assert (n = 0%nat) by lia. assert (m = 0%nat) by lia. subst.
    destruct b; reflexivity.
  - destruct n as [| n]; cbn.
    + destruct m as [| m]; [reflexivity |].
      f_equal. apply (IH 0%nat m). lia.
    + apply IH. lia.
Qed.

End StringFacts.

Lemma toHex_length (bytes : list byte) :
  String.length (Js.toHex bytes) = (2 * List.length bytes)%nat.
Proof.
  induction bytes as [| b rest IH]; cbn [Js.toHex String.length List.length];
    [reflexivity | rewrite IH; lia].
Qed.




Lemma iso_seconds_length (now : Z) : (19 <= String.length (Js.iso_seconds now))%nat.
Proof.
  unfold Js.iso_seconds.
  destruct (Js.civil_from_days (now / 1000 / 86400)) as [[y m] d].
  unfold Js.iso_year.
  destruct ((0 <=? y)%Z && (y <=? 9999)%Z); cbn; lia.
Qed.

(** The date and the time of a run identity depend on the second only. *)
Lemma generateRunId_prefix (now : Z) (random : list byte) :
  Control.generateRunId now random
  = (Js.remove_all "-" (Js.slice 0 10 (Js.iso_seconds now)) ++ "-"
     ++ Js.remove_all ":" (Js.slice 11 19 (Js.iso_seconds now)) ++ "-"
     ++ Js.toHex random)%string.
Proof.
  unfold Control.generateRunId, Js.toISOString, Js.slice.
  pose proof (iso_seconds_length now) as Hlen.
  rewrite !substring_append_l by lia. reflexivity.
Qed.

(** A run identity is never the empty string. *)
Lemma generateRunId_nonempty (now : Z) (random : list byte) :
  Control.generateRunId now random <> ""%string.
Proof.
  intros H. apply (f_equal String.length) in H.
  unfold Control.generateRunId in H. cbv zeta in H.
  rewrite !length_append in H. cbn [String.length] in H. lia.
Qed.




(** *** OHLC aggregation *)

Section AggregatorFacts.

Import Aggregator.

Local Abbreviation value := TickData.total_value.

Lemma last_cons_default {A} (x d : A) (l : list A) : last (x :: l) d = last l x.
Proof.
  revert x d. induction l as [| y l IH]; intros x d; [reflexivity |].
  change (last (x :: y :: l) d) with (last (y :: l) d).
  rewrite (IH y d), (IH y x). reflexivity.
Qed.

Lemma last_map_value (l : list TickData.t) (t : TickData.t) :
  last (map value l) (value t) = value (last l t).
Proof.
  revert t. induction l as [| x l IH]; intros t; [reflexivity |].
  cbn [map]. rewrite !last_cons_default. apply IH.
Qed.

(** The fold from a summary [a] over further ticks. *)
Lemma fold_from (rest : list TickData.t) (a : Ohlc) :
  exists a',
    fold_left fold_tick rest (Some a) = Some a' /\
    open a' = open a /\
    close a' = last (map value rest) (close a) /\
    tick_count a' = (tick_count a + List.length rest)%nat /\
    (high a' = high a \/ exists x, In x rest /\ high a' = value x) /\
    high a <= high a' /\
    (forall x, In x rest -> value x <= high a') /\
    (low a' = low a \/ exists x, In x rest /\ low a' = value x) /\
    low a' <= low a /\
    (forall x, In x rest -> low a' <= value x).
Proof.
  revert a. induction rest as [| t rest IH]; intros a.
  - exists a. cbn. repeat split; try reflexivity; try lra; try lia;
      try (left; reflexivity); intros x [].
  - cbn [fold_left fold_tick].
    match goal with
    | |- exists _, fold_left _ _ (Some ?a1) = _ /\ _ => destruct (IH a1)
        as (a' & Hf & Ho & Hc & Hn & Hh & Hhle & Hhall & Hl & Hlle & Hlall)
    end.
    cbn [open high low close tick_count] in *.
    exists a'. split; [exact Hf |]. split; [exact Ho |].
    split; [rewrite Hc; cbn [map]; rewrite last_cons_default; reflexivity |].
    split; [rewrite Hn; cbn [List.length]; lia |].
    repeat split.
    + destruct Hh as [Hh | (x & Hin & Hh)].
      * destruct (Qlt_le_dec (high a) (value t)).
        -- right. exists t. split; [left; reflexivity | exact Hh].
        -- left. exact Hh.
      * right. exists x. split; [right; exact Hin | exact Hh].
    + destruct (Qlt_le_dec (high a) (value t)); lra.
    + intros x [<- | Hin]; [| exact (Hhall x Hin)].
      destruct (Qlt_le_dec (high a) (value t)); lra.
    + destruct Hl as [Hl | (x & Hin & Hl)].
      * destruct (Qlt_le_dec (value t) (low a)).
        -- right. exists t. split; [left; reflexivity | exact Hl].
        -- left. exact Hl.
      * right. exists x. split; [right; exact Hin | exact Hl].
    + destruct (Qlt_le_dec (value t) (low a)); lra.
    + intros x [<- | Hin]; [| exact (Hlall x Hin)].
      destruct (Qlt_le_dec (value t) (low a)); lra.
Qed.

(** The summary of a window with at least one tick. *)
Lemma aggregate_cons (t : TickData.t) (rest : list TickData.t) :
  exists a,
    aggregate (t :: rest) = Some a /\
    open a = value t /\
    close a = value (last rest t) /\
    tick_count a = List.length (t :: rest) /\
    (exists x, In x (t :: rest) /\ high a = value x) /\
    (forall x, In x (t :: rest) -> value x <= high a) /\
    (exists x, In x (t :: rest) /\ low a = value x) /\
    (forall x, In x (t :: rest) -> low a <= value x).
Proof.
  unfold aggregate. cbn [fold_left fold_tick].
  match goal with
  | |- exists _, fold_left _ _ (Some ?a1) = _ /\ _ => destruct (fold_from rest a1)
      as (a & Hf & Ho & Hc & Hn & Hh & Hhle & Hhall & Hl & Hlle & Hlall)
  end.
  cbn [open high low close tick_count] in *.
  exists a. split; [exact Hf |]. split; [exact Ho |].
  split; [rewrite Hc; apply last_map_value |].
  split; [rewrite Hn; reflexivity |].
  repeat split.
  - destruct Hh as [Hh | (x & Hin & Hh)].
    + exists t. split; [left; reflexivity | exact Hh].
    + exists x. split; [right; exact Hin | exact Hh].
  - intros x [<- | Hin]; [exact Hhle | exact (Hhall x Hin)].
  - destruct Hl as [Hl | (x & Hin & Hl)].
    + exists t. split; [left; reflexivity | exact Hl].
    + exists x. split; [right; exact Hin | exact Hl].
  - intros x [<- | Hin]; [exact Hlle | exact (Hlall x Hin)].
Qed.

Lemma aggregate_none_iff (ticks : list TickData.t) :
  aggregate ticks = None <-> ticks = [].
Proof.
  split; [| intros ->; reflexivity].
  destruct ticks as [| t rest]; [reflexivity |].
  destruct (aggregate_cons t rest) as (a & Hf & _). rewrite Hf. discriminate.
Qed.

(** High, low and count of the summaries of two orderings of the same ticks
    agree. *)
Lemma aggregate_permutation (l l' : list TickData.t) (a a' : Ohlc) :
  Permutation l l' ->
  aggregate l = Some a -> aggregate l' = Some a' ->
  high a == high a' /\ low a == low a' /\ tick_count a = tick_count a'.
Proof.
  intros Hperm Ha Ha'.
  destruct l as [| t rest].
  { discriminate Ha. }
  destruct l' as [| t' rest'].
  { discriminate Ha'. }
  destruct (aggregate_cons t rest)
    as (b & Hb & _ & _ & Hn & (xh & Hxh & Hh) & Hhall & (xl & Hxl & Hl) & Hlall).
  destruct (aggregate_cons t' rest')
    as (b' & Hb' & _ & _ & Hn' & (xh' & Hxh' & Hh') & Hhall' & (xl' & Hxl' & Hl') & Hlall').
  rewrite Ha in Hb. injection Hb as <-.
  rewrite Ha' in Hb'. injection Hb' as <-.
  split; [| split].
  - apply Qle_antisym.
    + rewrite Hh. apply Hhall'. apply (Permutation_in _ Hperm). exact Hxh.
    + rewrite Hh'. apply Hhall. apply (Permutation_in _ (Permutation_sym Hperm)).
      exact Hxh'.
  - apply Qle_antisym.
    + rewrite Hl'. apply Hlall. apply (Permutation_in _ (Permutation_sym Hperm)).
      exact Hxl'.
    + rewrite Hl. apply Hlall'. apply (Permutation_in _ Hperm). exact Hxl.
  - rewrite Hn, Hn'. apply Permutation_length. exact Hperm.
Qed.

End AggregatorFacts.

(** C7. The aggregation of the ticks of a bucket window is a fold: no
    summary for a window without ticks; for a window with ticks, open is the
    value of the first tick, close the value of the last one, high the
    largest and low the smallest value of the window, tick_count the number
    of ticks; the same ticks give the same row; high, low and tick_count do
    not change when the ticks are reordered, open and close do. *)
Theorem aggregate_ohlc :
  Aggregator.aggregate [] = None /\
  (forall run interval bucketStart bucketEnd,
     Aggregator.aggregateBucket run interval bucketStart bucketEnd [] = None) /\
  (forall t rest, exists a,
     Aggregator.aggregate (t :: rest) = Some a /\
     Aggregator.open a = TickData.total_value t /\
     Aggregator.close a = TickData.total_value (last rest t) /\
     Aggregator.tick_count a = List.length (t :: rest) /\
     (exists x, In x (t :: rest) /\ Aggregator.high a = TickData.total_value x) /\
     (forall x, In x (t :: rest) -> TickData.total_value x <= Aggregator.high a) /\
     (exists x, In x (t :: rest) /\ Aggregator.low a = TickData.total_value x) /\
     (forall x, In x (t :: rest) -> Aggregator.low a <= TickData.total_value x)) /\
  (forall run interval bucketStart bucketEnd ticks1 ticks2,
     ticks1 = ticks2 ->
     Aggregator.aggregateBucket run interval bucketStart bucketEnd ticks1
     = Aggregator.aggregateBucket run interval bucketStart bucketEnd ticks2) /\
  (forall l l',
     Permutation l l' ->
     match Aggregator.aggregate l, Aggregator.aggregate l' with
     | Some a, Some a' =>
         Aggregator.high a == Aggregator.high a' /\
         Aggregator.low a == Aggregator.low a' /\
         Aggregator.tick_count a = Aggregator.tick_count a'
     | None, None => True
     | _, _ => False
     end) /\
  (exists l l' a a',
     Permutation l l' /\
     Aggregator.aggregate l = Some a /\
     Aggregator.aggregate l' = Some a' /\
     ~ Aggregator.open a == Aggregator.open a' /\
     ~ Aggregator.close a == Aggregator.close a').
Proof.
  split; [reflexivity |]. split; [reflexivity |].
  split; [exact aggregate_cons |].
  split; [intros; subst; reflexivity |].
  split.
  - intros l l' Hperm.
    destruct (Aggregator.aggregate l) as [a |] eqn:Ha;
      destruct (Aggregator.aggregate l') as [a' |] eqn:Ha'.
    + exact (aggregate_permutation l l' a a' Hperm Ha Ha').
    + apply aggregate_none_iff in Ha'. subst l'.
      apply Permutation_sym, Permutation_nil in Hperm. subst l. discriminate Ha.
    + apply aggregate_none_iff in Ha. subst l.
      apply Permutation_nil in Hperm. subst l'. discriminate Ha'.
    + exact I.
  - exists [stored_tick "2024-02-29T12:34:56.789Z" 99;
            stored_tick "2024-02-29T12:34:57.789Z" 101],
           [stored_tick "2024-02-29T12:34:57.789Z" 101;
            stored_tick "2024-02-29T12:34:56.789Z" 99].
    eexists. eexists.
    split; [apply perm_swap |].
    split; [vm_compute; reflexivity |].
    split; [vm_compute; reflexivity |].
    split; intro H; vm_compute in H; discriminate H.
Qed.

Lemma aggregate_ohlc_witness :
  match
    Aggregator.aggregate [stored_tick "2024-02-29T12:34:56.789Z" 99;
                          stored_tick "2024-02-29T12:34:57.789Z" 101],
    Aggregator.aggregate [stored_tick "2024-02-29T12:34:57.789Z" 101;
                          stored_tick "2024-02-29T12:34:56.789Z" 99]
  with
  | Some a, Some a' =>
      Aggregator.high a == Aggregator.high a' /\
      Aggregator.low a == Aggregator.low a' /\
      Aggregator.tick_count a = Aggregator.tick_count a'
  | None, None => True
  | _, _ => False
  end.
Proof.
  apply (proj1 (proj2 (proj2 (proj2 (proj2 aggregate_ohlc))))).
  apply perm_swap.
Defined.

(* ================================================================== *)
(** ** Part III.  Further properties of the sources *)
(* ================================================================== *)

Import Driver.

(** *** Invariants of the simulator object *)

Lemma call_config (c : Call) (sim : Simulator) : config (call c sim) = config sim.
Proof.
  destruct c as [z0 now | | | | newRunId | newTarget | p1 p2]; cbn [call];
    run_method; try reflexivity.
  - destruct (negb (isRunning (state sim))); reflexivity.
  - destruct (Simulator.truthy newRunId); [destruct newRunId |]; reflexivity.
  - destruct (Qlt_le_dec 0.0001 (Qabs (p1 + p2 - 1))); reflexivity.
Qed.

Lemma call_bounds_consistent (c : Call) (sim : Simulator) :
  bounds_consistent sim -> bounds_consistent (call c sim).
Proof.
  unfold bounds_consistent. intros Hb.
  destruct c as [z0 now | | | | newRunId | newTarget | p1 p2]; cbn [call];
    run_method; try exact Hb.
  - destruct (negb (isRunning (state sim))); cbn; exact Hb.
  - destruct (Simulator.truthy newRunId); [destruct newRunId |]; cbn; exact Hb.
  - reflexivity.
  - destruct (Qlt_le_dec 0.0001 (Qabs (p1 + p2 - 1))); cbn; exact Hb.
Qed.

(** X1. Whatever state and partial configuration the simulator is built
    from and whatever methods are then called, in any order and with any
    arguments, the configuration is the one fixed by the constructor and the
    bounds are the band [target * (1 - bandWidth), target * (1 + bandWidth)]
    around the current target: the bounds passed to the constructor are
    never used. *)
Theorem bounds_follow_target
    (initialState : SimulationState) (p : PartialConfig) (cs : list Call) :
  let sim := calls cs (Simulator.new initialState p) in
  config sim = Simulator.defaultConfig p /\
  bounds (state sim)
  = {| lower := target (state sim) * (1 - bandWidth (Simulator.defaultConfig p));
       upper := target (state sim) * (1 + bandWidth (Simulator.defaultConfig p)) |}.
Proof.
  cbv zeta.
  assert (H : forall cs sim,
             config sim = Simulator.defaultConfig p -> bounds_consistent sim ->
             config (calls cs sim) = Simulator.defaultConfig p
             /\ bounds_consistent (calls cs sim)).
  { clear cs. induction cs as [| c cs IH]; intros sim Hc Hb; [split; assumption |].
    cbn [calls fold_left]. apply IH.
    - rewrite call_config. exact Hc.
    - apply call_bounds_consistent. exact Hb. }
  destruct (H cs (Simulator.new initialState p)) as [Hc Hb];
    [reflexivity | reflexivity |].
  split; [exact Hc |]. unfold bounds_consistent in Hb. rewrite Hc in Hb. exact Hb.
Qed.

Lemma call_splits_valid (c : Call) (sim : Simulator) :
  splits_valid sim -> splits_valid (call c sim).
Proof.
  unfold splits_valid. intros Hs.
  destruct c as [z0 now | | | | newRunId | newTarget | p1 p2]; cbn [call];
    run_method; try exact Hs.
  - destruct (negb (isRunning (state sim))); cbn; exact Hs.
  - destruct (Simulator.truthy newRunId); [destruct newRunId |]; cbn; exact Hs.
  - destruct (Qlt_le_dec 0.0001 (Qabs (p1 + p2 - 1))) as [Hbad | Hok]; cbn;
      [exact Hs | exact Hok].
Qed.

(** X2. A simulator whose split weights sum to one within 1e-4 keeps such
    weights through every sequence of method calls: a rejected
    [updateSplits] leaves the old weights and an accepted one installs
    weights within the tolerance. *)
Theorem splits_stay_valid (cs : list Call) (sim : Simulator) :
  splits_valid sim -> splits_valid (calls cs sim).
Proof.
  revert sim. induction cs as [| c cs IH]; intros sim Hs; [exact Hs |].
  cbn [calls fold_left]. apply IH, call_splits_valid, Hs.
Qed.

Lemma splits_stay_valid_witness :
  splits_valid example_sim /\
  splits_valid
    (calls [CallUpdateSplits 0.5 0.6; CallUpdateSplits 0.7 0.3;
            CallGenerateTick 1 1709210096789; CallReset None]
       example_sim).
Proof.
  assert (Hs : splits_valid example_sim) by (unfold splits_valid; q_compute).
  split; [exact Hs |].
  exact (splits_stay_valid _ example_sim Hs).
Defined.

(** *** Steps with bounded noise *)

(** A convex combination of two points of an interval stays in it. *)
Lemma convex_in_interval (lo up cv t k : Q) :
  0 <= k -> k <= 1 -> lo <= cv -> cv <= up -> lo <= t -> t <= up ->
  lo <= cv + k * (t - cv) /\ cv + k * (t - cv) <= up.
Proof.
  intros Hk0 Hk1 Hc1 Hc2 Ht1 Ht2.
  assert (H1 : 0 <= k * (t - lo)) by (apply Qmult_le_0_compat; lra).
  assert (H2 : 0 <= (1 - k) * (cv - lo)) by (apply Qmult_le_0_compat; lra).
  assert (H3 : 0 <= k * (up - t)) by (apply Qmult_le_0_compat; lra).
  assert (H4 : 0 <= (1 - k) * (up - cv)) by (apply Qmult_le_0_compat; lra).
  assert (E1 : cv + k * (t - cv) - lo == k * (t - lo) + (1 - k) * (cv - lo)) by ring.
  assert (E2 : up - (cv + k * (t - cv)) == k * (up - t) + (1 - k) * (up - cv)) by ring.
  split; lra.
Qed.

(** What a step leaves alone: everything but the current value. *)
Lemma generateTick_frame (z0 : Q) (now : Z) (sim : Simulator) :
  exists tick sim',
    Simulator.generateTick z0 now sim = (Simulator.Normal tick, sim') /\
    state sim' = Simulator.set_currentValue (TickResult.total_value tick) (state sim) /\
    config sim' = config sim /\
    TickResult.bounds tick = bounds (state sim) /\
    TickResult.target tick = target (state sim) /\
    TickResult.total_value tick
    = (if isRunning (state sim)
       then Simulator.reflect
              (currentValue (state sim)
               + meanReversionRate (config sim)
                 * (target (state sim) - currentValue (state sim))
               + z0 * volatility (config sim))
              (lower (bounds (state sim))) (upper (bounds (state sim)))
       else currentValue (state sim)).
Proof.
  run_method. destruct sim as [[cv t b sp run rid] c]; cbn.
  destruct run; cbn; eexists; eexists; (split; [reflexivity |]); cbn;
    repeat split; reflexivity.
Qed.

Lemma generateTick_small_noise (z0 : Q) (now : Z) (sim : Simulator) :
  let s := state sim in
  0 <= meanReversionRate (config sim) -> meanReversionRate (config sim) <= 1 ->
  lower (bounds s) <= target s -> target s <= upper (bounds s) ->
  in_bounds sim ->
  Qabs (z0 * volatility (config sim)) <= upper (bounds s) - lower (bounds s) ->
  exists tick sim',
    Simulator.generateTick z0 now sim = (Simulator.Normal tick, sim') /\
    tick_in_bounds tick /\ in_bounds sim' /\
    state sim' = Simulator.set_currentValue (TickResult.total_value tick) s /\
    config sim' = config sim.
Proof.
  intros s Hk0 Hk1 Ht1 Ht2 [Hc1 Hc2] Hnoise.
  destruct (generateTick_frame z0 now sim)
    as (tick & sim' & Hgen & Hst & Hcf & Hb & _ & Hv).
  exists tick, sim'. split; [exact Hgen |].
  assert (Hin : lower (bounds s) <= TickResult.total_value tick
                /\ TickResult.total_value tick <= upper (bounds s)).
  { rewrite Hv. fold s. destruct (isRunning s); [| split; assumption].
    apply reflect_in_bounds_iff; [lra |].
    destruct (convex_in_interval (lower (bounds s)) (upper (bounds s))
                (currentValue s) (target s) (meanReversionRate (config sim))
                Hk0 Hk1 Hc1 Hc2 Ht1 Ht2) as [Hm1 Hm2].
    apply Qabs_Qle_condition in Hnoise. destruct Hnoise as [Hn1 Hn2].
    split; lra. }
  split; [unfold tick_in_bounds; rewrite Hb; exact Hin |].
  split; [| split; [exact Hst | exact Hcf]].
  unfold in_bounds. rewrite Hst. cbn. exact Hin.
Qed.

(** X3. If the reversion rate is between 0 and 1, the target lies between
    the bounds and the current value lies between the bounds, then every
    tick of a sequence of steps whose noise [z0 * volatility] is in absolute
    value at most the width of the band lies between the bounds, and so does
    the current value after the sequence. *)
Theorem ticks_in_bounds_small_noise (env : list (Q * Z)) (sim : Simulator) :
  let s := state sim in
  0 <= meanReversionRate (config sim) -> meanReversionRate (config sim) <= 1 ->
  lower (bounds s) <= target s -> target s <= upper (bounds s) ->
  in_bounds sim ->
  Forall (fun e => Qabs (fst e * volatility (config sim))
                   <= upper (bounds s) - lower (bounds s)) env ->
  Forall (fun r => exists tick, r = Simulator.Normal tick /\ tick_in_bounds tick)
    (fst (generateTicks env sim)) /\
  in_bounds (snd (generateTicks env sim)).
Proof.
  cbv zeta. revert sim.
  induction env as [| [z0 now] rest IH]; intros sim Hk0 Hk1 Ht1 Ht2 Hin Hnoise.
  - cbn. split; [constructor | exact Hin].
  - inversion Hnoise as [| e l Hz Hrest]; subst. cbn [fst] in Hz.
    destruct (generateTick_small_noise z0 now sim Hk0 Hk1 Ht1 Ht2 Hin Hz)
      as (tick & sim' & Hgen & Htick & Hin' & Hst & Hcf).
    cbn [generateTicks]. rewrite Hgen.
    assert (Hb : bounds (state sim') = bounds (state sim)) by (rewrite Hst; reflexivity).
    assert (Htg : target (state sim') = target (state sim)) by (rewrite Hst; reflexivity).
    destruct (IH sim') as [Hticks Hfinal].
    + rewrite Hcf. exact Hk0.
    + rewrite Hcf. exact Hk1.
    + rewrite Hb, Htg. exact Ht1.
    + rewrite Hb, Htg. exact Ht2.
    + exact Hin'.
    + rewrite Hcf, Hb. exact Hrest.
    + destruct (generateTicks rest sim') as [rs sim''] eqn:Hgs.
      cbn [fst snd] in *. split; [| exact Hfinal].
      constructor; [| exact Hticks].
      exists tick. split; [reflexivity | exact Htick].
Qed.

Lemma ticks_in_bounds_small_noise_witness :
  in_bounds (snd (generateTicks [(3, 1709210096789%Z); (-400, 1709210097789%Z)]
                    example_sim)).
Proof.
  apply (ticks_in_bounds_small_noise
           [(3, 1709210096789%Z); (-400, 1709210097789%Z)] example_sim);
    try q_compute.
  - unfold in_bounds. split; q_compute.
  - repeat constructor; q_compute.
Defined.

(** *** Steps without noise *)

Lemma reflect_inside (v lo up : Q) :
  lo <= v -> v <= up -> Simulator.reflect v lo up = v.
Proof.
  intros H1 H2. unfold Simulator.reflect.
  destruct (Qlt_le_dec v lo); [lra |].
  destruct (Qlt_le_dec up v); [lra | reflexivity].
Qed.

Lemma noise_free_step (now : Z) (sim : Simulator) :
  let s := state sim in
  let k := meanReversionRate (config sim) in
  isRunning s = true ->
  0 <= k -> k <= 1 ->
  lower (bounds s) <= target s -> target s <= upper (bounds s) ->
  in_bounds sim ->
  exists tick sim',
    Simulator.generateTick 0 now sim = (Simulator.Normal tick, sim') /\
    state sim' = Simulator.set_currentValue (TickResult.total_value tick) s /\
    config sim' = config sim /\
    in_bounds sim' /\
    TickResult.total_value tick - target s == (1 - k) * (currentValue s - target s).
Proof.
  intros s k Hrun Hk0 Hk1 Ht1 Ht2 Hin.
  destruct (generateTick_frame 0 now sim)
    as (tick & sim' & Hgen & Hst & Hcf & Hb & _ & Hv).
  exists tick, sim'. split; [exact Hgen |]. split; [exact Hst |].
  split; [exact Hcf |].
  fold s in Hv. rewrite Hrun in Hv. fold k in Hv.
  destruct Hin as [Hc1 Hc2]. fold s in Hc1, Hc2.
  destruct (convex_in_interval _ _ _ _ k Hk0 Hk1 Hc1 Hc2 Ht1 Ht2) as [Hm1 Hm2].
  rewrite reflect_inside in Hv by lra.
  split.
  - unfold in_bounds. rewrite Hst. cbn. fold s. rewrite Hv. split; lra.
  - rewrite Hv. ring.
Qed.

(** X4. Without noise the value decays to the target geometrically: from a
    running simulator whose value and target lie between the bounds and whose
    reversion rate [k] is between 0 and 1, after [n] steps with a zero draw
    the distance of the value to the target is [(1 - k)^n] times the initial
    distance, no step is reflected, and a value at the target stays
    there. *)
Theorem noise_free_decay (clocks : list Z) (sim : Simulator) :
  let s := state sim in
  let k := meanReversionRate (config sim) in
  let sim' := snd (generateTicks (map (fun now => (0, now)) clocks) sim) in
  isRunning s = true ->
  0 <= k -> k <= 1 ->
  lower (bounds s) <= target s -> target s <= upper (bounds s) ->
  in_bounds sim ->
  currentValue (state sim') - target s
    == (1 - k) ^ Z.of_nat (List.length clocks) * (currentValue s - target s) /\
  in_bounds sim' /\
  (currentValue s == target s -> currentValue (state sim') == target s).
Proof.
  cbv zeta.
  assert (Hmain : forall clocks sim,
    isRunning (state sim) = true ->
    0 <= meanReversionRate (config sim) -> meanReversionRate (config sim) <= 1 ->
    lower (bounds (state sim)) <= target (state sim) ->
    target (state sim) <= upper (bounds (state sim)) ->
    in_bounds sim ->
    currentValue (state (snd (generateTicks (map (fun now => (0, now)) clocks) sim)))
      - target (state sim)
      == (1 - meanReversionRate (config sim)) ^ Z.of_nat (List.length clocks)
         * (currentValue (state sim) - target (state sim)) /\
    in_bounds (snd (generateTicks (map (fun now => (0, now)) clocks) sim))).
  { clear clocks sim.
    induction clocks as [| now rest IH]; intros sim Hrun Hk0 Hk1 Ht1 Ht2 Hin.
    - cbn [map generateTicks snd List.length Z.of_nat].
      split; [cbn [Qpower]; ring | exact Hin].
    - destruct (noise_free_step now sim Hrun Hk0 Hk1 Ht1 Ht2 Hin)
        as (tick & sim1 & Hgen & Hst & Hcf & Hin1 & Hstep).
      cbn [map generateTicks]. rewrite Hgen.
      assert (Hb : bounds (state sim1) = bounds (state sim)) by (rewrite Hst; reflexivity).
      assert (Htg : target (state sim1) = target (state sim)) by (rewrite Hst; reflexivity).
      assert (Hr : isRunning (state sim1) = true) by (rewrite Hst; exact Hrun).
      assert (Hcv : currentValue (state sim1) = TickResult.total_value tick)
        by (rewrite Hst; reflexivity).
      destruct (IH sim1) as [Hdec Hfin].
      + exact Hr.
      + rewrite Hcf. exact Hk0.
      + rewrite Hcf. exact Hk1.
      + rewrite Hb, Htg. exact Ht1.
      + rewrite Hb, Htg. exact Ht2.
      + exact Hin1.
      + destruct (generateTicks (map (fun now => (0, now)) rest) sim1)
          as [rs sim2] eqn:Hgs.
        cbn [snd] in *. split; [| exact Hfin].
        rewrite Htg, Hcf, Hcv in Hdec. rewrite Hdec, Hstep.
        replace (Z.of_nat (List.length (now :: rest)))
          with (Z.of_nat (List.length rest) + 1)%Z
          by (cbn [List.length]; lia).
        rewrite Qpower_plus' by lia.
        change ((1 - meanReversionRate (config sim)) ^ 1)
          with (1 - meanReversionRate (config sim)).
        ring. }
  intros Hrun Hk0 Hk1 Ht1 Ht2 Hin.
  destruct (Hmain clocks sim Hrun Hk0 Hk1 Ht1 Ht2 Hin) as [Hdec Hfin].
  split; [exact Hdec |]. split; [exact Hfin |].
  intros Hat.
  assert (E : currentValue (state sim) - target (state sim) == 0) by (rewrite Hat; ring).
  rewrite E in Hdec.
  assert (E' : currentValue
                 (state (snd (generateTicks (map (fun now => (0, now)) clocks) sim)))
               - target (state sim) == 0) by (rewrite Hdec; ring).
  lra.
Qed.

Lemma noise_free_decay_witness :
  let sim := snd (Simulator.updateTarget 104 example_sim) in
  currentValue
    (state (snd (generateTicks [(0, 1709210096789%Z); (0, 1709210097789%Z)] sim)))
  - 104
  == (1 - 0.1) ^ 2 * (100 - 104).
Proof.
  cbv zeta.
  apply (noise_free_decay [1709210096789%Z; 1709210097789%Z]
           (snd (Simulator.updateTarget 104 example_sim))); try q_compute.
  unfold in_bounds. split; q_compute.
Defined.

(** *** Percentage from the target *)

Lemma generateTick_pct (z0 : Q) (now : Z) (sim : Simulator) :
  exists tick sim',
    Simulator.generateTick z0 now sim = (Simulator.Normal tick, sim') /\
    TickResult.bounds tick = bounds (state sim) /\
    TickResult.pct_from_target tick
    = ((TickResult.total_value tick - target (state sim)) / target (state sim)) * 100.
Proof.
  run_method. destruct (negb (isRunning (state sim)));
    eexists; eexists; (split; [reflexivity |]); cbn; split; reflexivity.
Qed.

(** X5. In exact arithmetic, for a positive target and bounds that are the
    band around it, a tick that lies between its bounds is at most
    [bandWidth * 100] percent from the target: 5 percent with the default
    configuration.  The numbers here are rationals; with doubles the
    rounding of the bounds and of the quotient can carry the percentage
    past that value by a few units in the last place, as for a target of 1
    and a value at the upper bound 1.05, which shows 5.000000000000004. *)
Theorem pct_within_band (z0 : Q) (now : Z) (sim : Simulator)
    (tick : TickResult.t) (sim' : Simulator) :
  0 < target (state sim) ->
  bounds_consistent sim ->
  Simulator.generateTick z0 now sim = (Simulator.Normal tick, sim') ->
  tick_in_bounds tick ->
  Qabs (TickResult.pct_from_target tick) <= bandWidth (config sim) * 100.
Proof.
  intros Hpos Hb Hgen [Hlo Hup].
  destruct (generateTick_pct z0 now sim) as (tick0 & sim0 & Hgen0 & Hbt & Hpct).
  rewrite Hgen in Hgen0. injection Hgen0 as <- <-.
  rewrite Hbt, Hb in Hlo, Hup. cbn [lower upper] in Hlo, Hup.
  rewrite Hpct.
  set (t := target (state sim)) in *.
  set (b := bandWidth (config sim)) in *.
  set (v := TickResult.total_value tick) in *.
  assert (Hq : (v - t) / t * t == v - t) by (field; lra).
  set (q := (v - t) / t) in *.
  assert (Hq1 : - b <= q).
  { apply (Qmult_le_r _ _ t Hpos). rewrite Hq. lra. }
  assert (Hq2 : q <= b).
  { apply (Qmult_le_r _ _ t Hpos). rewrite Hq. lra. }
  apply Qabs_Qle_condition. split; lra.
Qed.

Lemma pct_within_band_witness :
  exists tick sim',
    Simulator.generateTick 3 1709210096789 example_sim
      = (Simulator.Normal tick, sim') /\
    Qabs (TickResult.pct_from_target tick) <= 0.05 * 100.
Proof.
  destruct (generateTick_frame 3 1709210096789 example_sim)
    as (tick & sim' & Hgen & _ & _ & Hb & _ & Hv).
  exists tick, sim'. split; [exact Hgen |].
  apply (pct_within_band 3 1709210096789 example_sim tick sim').
  - q_compute.
  - reflexivity.
  - exact Hgen.
  - unfold tick_in_bounds. rewrite Hb, Hv. split; q_compute.
Defined.

(** *** Pausing, resuming and retargeting *)

(** X6. Pausing is transparent: after [pause()], any number of calls of
    [generateTick] and then [resume()], a simulator that was running is
    exactly as it was before, whatever the draws; one that was already
    paused is as after [resume()] alone. *)
Theorem pause_resume_transparent (env : list (Q * Z)) (sim : Simulator) :
  let after :=
    snd (Simulator.resume (snd (generateTicks env (snd (Simulator.pause sim))))) in
  after = snd (Simulator.resume sim) /\
  (isRunning (state sim) = true -> after = sim).
Proof.
  cbv zeta.
  rewrite (generateTicks_paused_eq env (snd (Simulator.pause sim))) by reflexivity.
  cbn [snd]. split; [reflexivity |].
  intros Hrun. destruct sim as [[cv t b sp run rid] c]. cbn in Hrun. subst run.
  reflexivity.
Qed.

Lemma pause_resume_transparent_witness :
  snd (Simulator.resume
         (snd (generateTicks [(7, 1709210096789%Z); (-7, 1709210097789%Z)]
                 (snd (Simulator.pause example_sim)))))
  = example_sim.
Proof.
  apply (pause_resume_transparent
           [(7, 1709210096789%Z); (-7, 1709210097789%Z)] example_sim).
  reflexivity.
Defined.

(** X7. [updateTarget] moves the band but not the value: the current value,
    the split weights, the running flag and the run identity are as before,
    so the value may be left outside the new band.  A [reset] after it puts
    the value at the new target, and for a target and a band width that are
    not negative that is between the new bounds. *)
Theorem updateTarget_then_reset (newTarget : Q) (newRunId : option string)
    (sim : Simulator) :
  let retargeted := snd (Simulator.updateTarget newTarget sim) in
  let restarted := snd (Simulator.reset newRunId retargeted) in
  currentValue (state retargeted) = currentValue (state sim) /\
  splits (state retargeted) = splits (state sim) /\
  isRunning (state retargeted) = isRunning (state sim) /\
  runId (state retargeted) = runId (state sim) /\
  target (state retargeted) = newTarget /\
  bounds_consistent retargeted /\
  currentValue (state restarted) = newTarget /\
  bounds (state restarted) = bounds (state retargeted) /\
  (0 <= newTarget -> 0 <= bandWidth (config sim) -> in_bounds restarted).
Proof.
  cbv zeta.
  assert (Hreset : forall s0 : Simulator,
             currentValue (state (snd (Simulator.reset newRunId s0))) = target (state s0)
             /\ bounds (state (snd (Simulator.reset newRunId s0))) = bounds (state s0)).
  { intros s0. run_method.
    destruct (Simulator.truthy newRunId); [destruct newRunId |]; split; reflexivity. }
  destruct (Hreset (snd (Simulator.updateTarget newTarget sim))) as [Hcv Hbd].
  split; [reflexivity |]. split; [reflexivity |]. split; [reflexivity |].
  split; [reflexivity |]. split; [reflexivity |]. split; [reflexivity |].
  split; [exact Hcv |]. split; [exact Hbd |].
  intros Ht Hb. unfold in_bounds. rewrite Hcv, Hbd. run_method. cbn [lower upper].
  assert (0 <= newTarget * bandWidth (config sim))
    by (apply Qmult_le_0_compat; assumption).
  assert (E1 : newTarget * (1 - bandWidth (config sim))
               == newTarget - newTarget * bandWidth (config sim)) by ring.
  assert (E2 : newTarget * (1 + bandWidth (config sim))
               == newTarget + newTarget * bandWidth (config sim)) by ring.
  split; lra.
Qed.

Lemma updateTarget_then_reset_witness :
  in_bounds (snd (Simulator.reset None (snd (Simulator.updateTarget 200 example_sim)))).
Proof.
  apply (updateTarget_then_reset 200 None example_sim); q_compute.
Defined.

(** After a retarget alone the value can be far outside the new band, and
    the single reflection of the next step does not bring it back. *)
Example retarget_leaves_value_outside :
  let retargeted := snd (Simulator.updateTarget 200 example_sim) in
  ~ in_bounds retargeted /\
  ~ in_bounds (snd (Simulator.generateTick 0 1709210096789 retargeted)).
Proof.
  cbv zeta. unfold in_bounds.
  split; intros [H1 H2]; vm_compute in H1, H2;
    first [apply H1; reflexivity | apply H2; reflexivity].
Qed.

(** *** Rounding: stability and order *)

Lemma Qfloor_half (n : Z) : Qfloor (inject_Z n + (1 # 2)) = n.
Proof.
  pose proof (Qfloor_le (inject_Z n + (1 # 2))) as Hlo.
  pose proof (Qlt_floor (inject_Z n + (1 # 2))) as Hhi.
  set (m := Qfloor (inject_Z n + (1 # 2))) in *.
  rewrite inject_Z_plus in Hhi. change (inject_Z 1) with 1 in Hhi.
  assert (H1 : inject_Z m < inject_Z (n + 1)).
  { rewrite inject_Z_plus. change (inject_Z 1) with 1. lra. }
  assert (H2 : inject_Z n < inject_Z (m + 1)).
  { rewrite inject_Z_plus. change (inject_Z 1) with 1. lra. }
  rewrite <- Zlt_Qlt in H1, H2. lia.
Qed.

Lemma toFixed_big (x : Q) (f : nat) :
  Js.pow10 21 <= Qabs x -> Js.toFixed x f = x.
Proof.
  intros Hbig. unfold Js.toFixed.
  apply Qle_bool_iff in Hbig. rewrite Hbig. reflexivity.
Qed.

(** Below 10^21: the rounded magnitude as an integer number of units. *)
Lemma toFixed_small (x : Q) (f : nat) :
  Qabs x < Js.pow10 21 ->
  let n := Qfloor (Qabs x * Js.pow10 f + (1 # 2)) in
  (0 <= n)%Z /\
  (0 <= x -> Js.toFixed x f = inject_Z n / Js.pow10 f) /\
  (x < 0 -> Js.toFixed x f = - (inject_Z n / Js.pow10 f)).
Proof.
  intros Hsmall n.
  pose proof (pow10_pos f) as Hp.
  assert (Hn : (0 <= n)%Z).
  { change 0%Z with (Qfloor 0). apply Qfloor_resp_le.
    pose proof (Qabs_nonneg x).
    assert (0 <= Qabs x * Js.pow10 f) by (apply Qmult_le_0_compat; lra). lra. }
  split; [exact Hn |].
  unfold Js.toFixed.
  destruct (Qle_bool (Js.pow10 21) (Qabs x)) eqn:Hbig.
  { apply Qle_bool_iff in Hbig. lra. }
  split; intros Hsign.
  - apply Qle_bool_iff in Hsign. rewrite Hsign. reflexivity.
  - destruct (Qle_bool 0 x) eqn:Hs; [| reflexivity].
    apply Qle_bool_iff in Hs. lra.
Qed.

Lemma div_pow10_mult (z : Z) (f : nat) :
  inject_Z z / Js.pow10 f * Js.pow10 f == inject_Z z.
Proof. pose proof (pow10_pos f). field. lra. Qed.

Lemma div_pow10_le (a b : Z) (f : nat) :
  (a <= b)%Z -> inject_Z a / Js.pow10 f <= inject_Z b / Js.pow10 f.
Proof.
  intros Hab. apply (Qmult_le_r _ _ (Js.pow10 f) (pow10_pos f)).
  rewrite !div_pow10_mult. rewrite <- Zle_Qle. exact Hab.
Qed.

(** Rounding a rounded value again changes nothing. *)
Lemma toFixed_idempotent (x : Q) (f : nat) :
  Js.toFixed (Js.toFixed x f) f == Js.toFixed x f.
Proof.
  destruct (Qlt_le_dec (Qabs x) (Js.pow10 21)) as [Hsmall | Hbig].
  2:{ rewrite (toFixed_big x f Hbig). rewrite (toFixed_big x f Hbig). reflexivity. }
  destruct (Qlt_le_dec (Qabs (Js.toFixed x f)) (Js.pow10 21)) as [Hrsmall | Hrbig].
  2:{ rewrite (toFixed_big _ f Hrbig). reflexivity. }
  pose proof (pow10_pos f) as Hp.
  destruct (toFixed_small x f Hsmall) as (Hn & Hpos & Hneg).
  destruct (toFixed_small (Js.toFixed x f) f Hrsmall) as (Hn' & Hpos' & Hneg').
  set (n := Qfloor (Qabs x * Js.pow10 f + (1 # 2))) in *.
  set (r := Js.toFixed x f) in *.
  assert (Hq : 0 <= inject_Z n / Js.pow10 f).
  { apply (Qmult_le_r _ _ (Js.pow10 f) Hp). rewrite div_pow10_mult.
    rewrite Qmult_0_l. change 0 with (inject_Z 0). rewrite <- Zle_Qle. exact Hn. }
  assert (Habs : Qabs r == inject_Z n / Js.pow10 f).
  { destruct (Qlt_le_dec x 0) as [Hx | Hx].
    - rewrite (Hneg Hx). rewrite Qabs_opp. apply Qabs_pos. exact Hq.
    - rewrite (Hpos Hx). apply Qabs_pos. exact Hq. }
  assert (Hfl : Qfloor (Qabs r * Js.pow10 f + (1 # 2)) = n).
  { rewrite <- (Qfloor_half n). apply Qfloor_comp.
    rewrite Habs, div_pow10_mult. reflexivity. }
  rewrite Hfl in Hpos', Hneg'.
  destruct (Qlt_le_dec r 0) as [Hr | Hr].
  - rewrite (Hneg' Hr).
    assert (Hr' : r == - Qabs r) by (rewrite (Qabs_neg r) by lra; ring).
    rewrite Hr', Habs. reflexivity.
  - rewrite (Hpos' Hr).
    rewrite <- Habs. apply Qabs_pos. exact Hr.
Qed.

(** Below 10^21 rounding keeps the order. *)
Lemma toFixed_monotone (x y : Q) (f : nat) :
  Qabs x < Js.pow10 21 -> Qabs y < Js.pow10 21 ->
  x <= y -> Js.toFixed x f <= Js.toFixed y f.
Proof.
  intros Hx Hy Hxy.
  pose proof (pow10_pos f) as Hp.
  destruct (toFixed_small x f Hx) as (Hnx & Hposx & Hnegx).
  destruct (toFixed_small y f Hy) as (Hny & Hposy & Hnegy).
  set (nx := Qfloor (Qabs x * Js.pow10 f + (1 # 2))) in *.
  set (ny := Qfloor (Qabs y * Js.pow10 f + (1 # 2))) in *.
  assert (Hqx : 0 <= inject_Z nx / Js.pow10 f)
    by (rewrite <- (Qmult_0_l (/ Js.pow10 f)); apply (div_pow10_le 0 nx f Hnx)).
  assert (Hqy : 0 <= inject_Z ny / Js.pow10 f)
    by (rewrite <- (Qmult_0_l (/ Js.pow10 f)); apply (div_pow10_le 0 ny f Hny)).
  destruct (Qlt_le_dec x 0) as [Hxn | Hxp]; destruct (Qlt_le_dec y 0) as [Hyn | Hyp].
  - rewrite (Hnegx Hxn), (Hnegy Hyn).
    assert (Hle : (ny <= nx)%Z).
    { apply Qfloor_resp_le.
      rewrite (Qabs_neg x), (Qabs_neg y) by lra.
      assert (- y * Js.pow10 f <= - x * Js.pow10 f)
        by (apply Qmult_le_compat_r; lra).
      lra. }
    pose proof (div_pow10_le ny nx f Hle). lra.
  - rewrite (Hnegx Hxn), (Hposy Hyp). lra.
  - lra.
  - rewrite (Hposx Hxp), (Hposy Hyp).
    apply div_pow10_le, Qfloor_resp_le.
    rewrite (Qabs_pos x), (Qabs_pos y) by lra.
    assert (x * Js.pow10 f <= y * Js.pow10 f)
      by (apply Qmult_le_compat_r; lra).
    lra.
Qed.

(** X8. Formatting a payload again gives the same payload: every numeric
    field of [formatTickForStream] is a fixed point of its own rounding, for
    ticks of any magnitude. *)
Theorem formatTickForStream_idempotent (clients clients' : nat) (t : TickResult.t) :
  let p := Stream.formatTickForStream clients t in
  let p' := Stream.formatTickForStream clients' (StreamLoop.asTick p) in
  StreamTick.total_value p' == StreamTick.total_value p /\
  StreamTick.part1_value p' == StreamTick.part1_value p /\
  StreamTick.part2_value p' == StreamTick.part2_value p /\
  StreamTick.target p' == StreamTick.target p /\
  lower (StreamTick.bounds p') == lower (StreamTick.bounds p) /\
  upper (StreamTick.bounds p') == upper (StreamTick.bounds p) /\
  StreamTick.pct_from_target p' == StreamTick.pct_from_target p /\
  StreamTick.timestamp p' = StreamTick.timestamp p.
Proof.
  cbv zeta. unfold Stream.formatTickForStream, StreamLoop.asTick. cbn.
  repeat split; try apply toFixed_idempotent.
Qed.

(** X9. Rounding does not push a tick out of its bounds: if the total value
    of a tick lies between its bounds, the rounded total value of the
    payload lies between the rounded bounds of the payload. *)
Theorem formatTickForStream_keeps_bounds (clients : nat) (t : TickResult.t) :
  fixed_range t ->
  tick_in_bounds t ->
  let p := Stream.formatTickForStream clients t in
  lower (StreamTick.bounds p) <= StreamTick.total_value p /\
  StreamTick.total_value p <= upper (StreamTick.bounds p).
Proof.
  intros (H1 & _ & _ & _ & H5 & H6 & _) [Hlo Hup]. cbv zeta.
  unfold Stream.formatTickForStream. cbn.
  split; apply toFixed_monotone; assumption.
Qed.

Lemma formatTickForStream_keeps_bounds_witness :
  fixed_range off_target_tick /\ tick_in_bounds off_target_tick /\
  lower (StreamTick.bounds (Stream.formatTickForStream 2 off_target_tick))
    <= StreamTick.total_value (Stream.formatTickForStream 2 off_target_tick).
Proof.
  assert (Hr : fixed_range off_target_tick)
    by (unfold fixed_range; repeat split; q_compute).
  assert (Hb : tick_in_bounds off_target_tick)
    by (unfold tick_in_bounds; split; q_compute).
  split; [exact Hr |]. split; [exact Hb |].
  apply (formatTickForStream_keeps_bounds 2 off_target_tick Hr Hb).
Defined.

(** *** Starting the stream *)

(** X10. [initializeSimulator] fails without settings.  With settings it
    builds a simulator for their target, split weights, run identity and
    pause flag, with the default configuration and the bounds
    [0.95 * target, 1.05 * target]; the value starts at the total value of
    the latest tick when there is one and it is not zero, and at the target
    otherwise.  The value of the latest tick is taken as it is: the
    simulator starts between its bounds exactly when that value does. *)
Theorem initializeSimulator_spec
    (settings : option Settings.t) (latestTick : option TickData.t) :
  match settings with
  | None =>
      StreamLoop.initializeSimulator settings latestTick
      = Simulator.Throw "No settings found for simulation initialization"
  | Some st =>
      exists sim,
        StreamLoop.initializeSimulator settings latestTick = Simulator.Normal sim /\
        config sim = Simulator.defaultConfig noConfig /\
        target (state sim) = Settings.target_price st /\
        splits (state sim) = {| part1 := Settings.split_part1 st;
                                part2 := Settings.split_part2 st |} /\
        isRunning (state sim) = negb (Settings.is_paused st) /\
        runId (state sim) = Settings.run_id st /\
        lower (bounds (state sim)) == Settings.target_price st * 0.95 /\
        upper (bounds (state sim)) == Settings.target_price st * 1.05 /\
        match latestTick with
        | None => currentValue (state sim) = Settings.target_price st
        | Some tick =>
            (TickData.total_value tick == 0 ->
             currentValue (state sim) = Settings.target_price st) /\
            (~ TickData.total_value tick == 0 ->
             currentValue (state sim) = TickData.total_value tick /\
             (in_bounds sim <->
              Settings.target_price st * 0.95 <= TickData.total_value tick
              /\ TickData.total_value tick <= Settings.target_price st * 1.05))
        end /\
        (0 <= Settings.target_price st ->
         currentValue (state sim) = Settings.target_price st -> in_bounds sim)
  end.
Proof.
  destruct settings as [st |]; [| reflexivity].
  eexists. split; [reflexivity |].
  unfold Simulator.new, Simulator.defaultConfig, noConfig. run_method. project_fields.
  split; [reflexivity |]. split; [reflexivity |]. split; [reflexivity |].
  split; [reflexivity |]. split; [reflexivity |].
  set (t := Settings.target_price st).
  assert (El : t * (1 - 0.05) == t * 0.95) by ring.
  assert (Eu : t * (1 + 0.05) == t * 1.05) by ring.
  split; [exact El |]. split; [exact Eu |].
  split.
  - destruct latestTick as [tick |]; cbn [option_map StreamLoop.number_or];
      [| reflexivity].
    split.
    + intros Hz. apply Qeq_bool_iff in Hz.
      match goal with
      | |- (if ?b then _ else _) = _ => replace b with true; reflexivity
      end.
    + intros Hnz.
      match goal with
      | |- context [if ?b then _ else _] => destruct b eqn:Hb
      end.
      * exfalso. apply Hnz. apply Qeq_bool_iff. exact Hb.
      * split; [reflexivity |].
        unfold in_bounds. project_fields.
        cbn [option_map StreamLoop.number_or]. fold t.
        split; intros [H1 H2]; split; lra.
  - intros Hpos Hcv. unfold in_bounds. project_fields. fold t. rewrite Hcv.
    split; lra.
Qed.

(** *** Broadcasting a tick *)

Lemma sendTick_survives (streamData : StreamTick.t) (c : StreamLoop.Client) :
  match StreamLoop.sendTick streamData c with
  | Some c' =>
      StreamLoop.survives c = true /\
      StreamLoop.client_id c' = StreamLoop.client_id c /\
      StreamLoop.written c'
      = if StreamLoop.writableEnded c then StreamLoop.written c
        else StreamLoop.DataLine streamData
               :: StreamLoop.EventLine "tick" :: StreamLoop.written c
  | None => StreamLoop.survives c = false
  end.
Proof.
  unfold StreamLoop.sendTick, StreamLoop.write, StreamLoop.survives.
  destruct c as [i ended [[| [| n]] |] w]; destruct ended; cbn;
    repeat split; reflexivity.
Qed.

(** X11. A broadcast is isolated per client.  The clients left in the set
    are, in their order, exactly those to which no write threw (a client
    whose stream has ended is skipped and stays); each of them that has not
    ended has received the event line and then the data line of this tick,
    whatever happened to the other clients; and a client to which a write
    threw is removed without stopping the broadcast. *)
Theorem broadcast_isolated (streamData : StreamTick.t)
    (connectedClients : list StreamLoop.Client) :
  map StreamLoop.client_id (StreamLoop.broadcast streamData connectedClients)
  = map StreamLoop.client_id (filter StreamLoop.survives connectedClients) /\
  (forall c, In c connectedClients -> StreamLoop.survives c = true ->
     exists c', In c' (StreamLoop.broadcast streamData connectedClients) /\
       StreamLoop.client_id c' = StreamLoop.client_id c /\
       StreamLoop.written c'
       = if StreamLoop.writableEnded c then StreamLoop.written c
         else StreamLoop.DataLine streamData
                :: StreamLoop.EventLine "tick" :: StreamLoop.written c) /\
  (forall c', In c' (StreamLoop.broadcast streamData connectedClients) ->
     exists c, In c connectedClients /\
       StreamLoop.sendTick streamData c = Some c').
Proof.
  induction connectedClients as [| c rest (IHids & IHrecv & IHfrom)].
  - cbn. repeat split; [intros c [] | intros c' []].
  - cbn [StreamLoop.broadcast filter].
    pose proof (sendTick_survives streamData c) as Hc.
    destruct (StreamLoop.sendTick streamData c) as [c1 |] eqn:Hsend.
    + destruct Hc as (Hs & Hid & Hw). rewrite Hs. cbn [map].
      split; [rewrite Hid, IHids; reflexivity |]. split.
      * intros d [<- | Hin] Hd.
        -- exists c1. split; [left; reflexivity | split; assumption].
        -- destruct (IHrecv d Hin Hd) as (d' & Hin' & Hrest).
           exists d'. split; [right; exact Hin' | exact Hrest].
      * intros d' [<- | Hin'].
        -- exists c. split; [left; reflexivity | exact Hsend].
        -- destruct (IHfrom d' Hin') as (d & Hin & Hd).
           exists d. split; [right; exact Hin | exact Hd].
    + rewrite Hc. split; [exact IHids |]. split.
      * intros d [<- | Hin] Hd; [congruence |].
        exact (IHrecv d Hin Hd).
      * intros d' Hin'. destruct (IHfrom d' Hin') as (d & Hin & Hd).
        exists d. split; [right; exact Hin | exact Hd].
Qed.

(** *** The limit of a chart query *)


(** *** Uptime *)

(** X13. For an uptime that is not negative, [formatUptime] prints the
    digits of the whole seconds in days, hours (below 24), minutes (below
    60) and seconds (below 60), which recompose to the uptime in seconds,
    and leaves out the leading units that are zero. *)
Theorem formatUptime_digits (uptimeMs : Z) :
  (0 <= uptimeMs)%Z ->
  exists d h m s : Z,
    (uptimeMs / 1000 = ((d * 24 + h) * 60 + m) * 60 + s)%Z /\
    (0 <= d)%Z /\ (0 <= h < 24)%Z /\ (0 <= m < 60)%Z /\ (0 <= s < 60)%Z /\
    Health.formatUptime uptimeMs
    = (if (0 <? d)%Z then
         JsText.show d ++ "d " ++ JsText.show h ++ "h "
         ++ JsText.show m ++ "m " ++ JsText.show s ++ "s"
       else if (0 <? h)%Z then
         JsText.show h ++ "h " ++ JsText.show m ++ "m " ++ JsText.show s ++ "s"
       else if (0 <? m)%Z then JsText.show m ++ "m " ++ JsText.show s ++ "s"
       else JsText.show s ++ "s")%string.
Proof.
  intros Hpos. unfold Health.formatUptime.
  set (seconds := (uptimeMs / 1000)%Z).
  set (minutes := (seconds / 60)%Z).
  set (hours := (minutes / 60)%Z).
  set (days := (hours / 24)%Z).
  assert (Hs : (0 <= seconds)%Z) by (apply Z.div_pos; lia).
  assert (Hm : (0 <= minutes)%Z) by (apply Z.div_pos; lia).
  assert (Hh : (0 <= hours)%Z) by (apply Z.div_pos; lia).
  assert (Hd : (0 <= days)%Z) by (apply Z.div_pos; lia).
  rewrite !Z.rem_mod_nonneg by lia.
  pose proof (Z.div_mod seconds 60 ltac:(lia)) as E1.
  pose proof (Z.div_mod minutes 60 ltac:(lia)) as E2.
  pose proof (Z.div_mod hours 24 ltac:(lia)) as E3.
  pose proof (Z.mod_pos_bound seconds 60 ltac:(lia)) as B1.
  pose proof (Z.mod_pos_bound minutes 60 ltac:(lia)) as B2.
  pose proof (Z.mod_pos_bound hours 24 ltac:(lia)) as B3.
  fold minutes in E1. fold hours in E2. fold days in E3.
  exists days, (hours mod 24)%Z, (minutes mod 60)%Z, (seconds mod 60)%Z.
  split; [lia |]. split; [exact Hd |]. split; [exact B3 |].
  split; [exact B2 |]. split; [exact B1 |].
  destruct (0 <? days)%Z eqn:Cd; [reflexivity |].
  apply Z.ltb_ge in Cd.
  assert (Ehours : (hours mod 24 = hours)%Z) by lia. rewrite Ehours.
  destruct (0 <? hours)%Z eqn:Ch; [reflexivity |].
  apply Z.ltb_ge in Ch.
  assert (Emin : (minutes mod 60 = minutes)%Z) by lia. rewrite Emin.
  destruct (0 <? minutes)%Z eqn:Cm; [reflexivity |].
  apply Z.ltb_ge in Cm.
  assert (Esec : (seconds mod 60 = seconds)%Z) by lia. rewrite Esec.
  reflexivity.
Qed.

Lemma formatUptime_digits_witness :
  Health.formatUptime 93784999 = "1d 2h 3m 4s"%string /\
  exists d h m s : Z,
    (93784999 / 1000 = ((d * 24 + h) * 60 + m) * 60 + s)%Z /\
    (0 <= d)%Z /\ (0 <= h < 24)%Z /\ (0 <= m < 60)%Z /\ (0 <= s < 60)%Z.
Proof.
  split; [vm_compute; reflexivity |].
  destruct (formatUptime_digits 93784999 ltac:(lia)) as (d & h & m & s & H).
  exists d, h, m, s. repeat split; apply H.
Defined.

(** *** Retrying a database operation *)

Section RetryFacts.

Variables (A E : Type).
Variables (maxRetries : nat) (retryDelay : Z).
Variable script : nat -> A + E.
Variable operationName : string.

Let loop :=
  Db.retryLoop Db.Scripted A E maxRetries retryDelay
    (Db.scripted_operation script) Db.scripted_delay operationName.

(** The loop after [j] failed attempts, with [remaining] attempts left. *)
Lemma retryLoop_scripted (remaining j : nat) (lastError : option E) :
  (remaining + j = maxRetries)%nat ->
  let w := {| Db.calls := j; Db.waited := Db.delays retryDelay j |} in
  (forall k v,
     (j <= k < maxRetries)%nat ->
     (forall i, (j <= i < k)%nat -> exists e, script i = inr e) ->
     script k = inl v ->
     loop remaining (S j) lastError w
     = (inl v, {| Db.calls := S k; Db.waited := Db.delays retryDelay k |})) /\
  (forall e,
     (j < maxRetries)%nat ->
     (forall i, (j <= i < maxRetries)%nat -> exists e', script i = inr e') ->
     script (maxRetries - 1) = inr e ->
     loop remaining (S j) lastError w
     = (inr (Db.DatabaseError
               (operationName ++ " failed after "
                ++ JsText.show (Z.of_nat maxRetries) ++ " attempts")%string e),
        {| Db.calls := maxRetries;
           Db.waited := Db.delays retryDelay (maxRetries - 1) |})).
Proof.
  revert j lastError.
  induction remaining as [| r IH]; intros j lastError Hsum w.
  - split; [intros k v Hk; lia | intros e Hj; lia].
  - subst w. unfold loop.
    cbn [Db.retryLoop Db.scripted_operation Db.calls Db.waited].
    fold loop.
    assert (Hnext : forall e0 : E,
              Db.scripted_delay (retryDelay * Z.of_nat (S j))
                {| Db.calls := S j; Db.waited := Db.delays retryDelay j |}
              = {| Db.calls := S j; Db.waited := Db.delays retryDelay (S j) |})
      by reflexivity.
    split.
    + intros k v Hk Hfail Hok.
      destruct (Nat.eq_dec k j) as [-> | Hne].
      * rewrite Hok. reflexivity.
      * destruct (Hfail j ltac:(lia)) as [e He]. rewrite He.
        destruct (Nat.eqb_spec (S j) maxRetries) as [Heq | Hneq]; [lia |].
        rewrite (Hnext e).
        apply (IH (S j) (Some e)); [lia | lia | | exact Hok].
        intros i Hi. apply Hfail. lia.
    + intros e Hj Hfail Hlast.
      destruct (Hfail j ltac:(lia)) as [e0 He0]. rewrite He0.
      destruct (Nat.eqb_spec (S j) maxRetries) as [Heq | Hneq].
      * assert (Ej : (maxRetries - 1 = j)%nat) by lia.
        rewrite Ej in Hlast. rewrite Hlast in He0. injection He0 as ->.
        rewrite Ej, <- Heq. reflexivity.
      * rewrite (Hnext e0).
        apply (IH (S j) (Some e0)); [lia | lia | | exact Hlast].
        intros i Hi. apply Hfail. lia.
Qed.

End RetryFacts.

(** Among the first [n] outcomes of a script there is a first success, or
    all of them are failures. *)
Lemma first_success {A E} (script : nat -> A + E) (n : nat) :
  (exists k v, (k < n)%nat /\ script k = inl v /\
     forall i, (i < k)%nat -> exists e, script i = inr e) \/
  (forall i, (i < n)%nat -> exists e, script i = inr e).
Proof.
  induction n as [| n [(k & v & Hk & Hv & Hbefore) | Hall]].
  - right. intros i Hi. lia.
  - left. exists k, v. split; [lia | split; assumption].
  - destruct (script n) as [v | e] eqn:Hn.
    + left. exists n, v. split; [lia |]. split; [exact Hn |].
      intros i Hi. apply Hall. exact Hi.
    + right. intros i Hi. destruct (Nat.eq_dec i n) as [-> | Hne].
      * exists e. exact Hn.
      * apply Hall. lia.
Qed.

(** X14. [withRetry] on an operation that fails [k] times and then succeeds,
    with [k] below [maxRetries], returns the value of the success after
    [k + 1] calls, having waited [retryDelay * 1], ..., [retryDelay * k]
    between them.  When the first [maxRetries] calls all fail it throws a
    [DatabaseError] naming the operation and the number of attempts, with
    the last error as its cause, after [maxRetries] calls and without
    waiting after the last one.  In every case the operation is called at
    most [maxRetries] times. *)
Theorem withRetry_scripted {A E : Type} (maxRetries : nat) (retryDelay : Z)
    (script : nat -> A + E) (operationName : string) :
  (1 <= maxRetries)%nat ->
  let run :=
    Db.withRetry Db.Scripted A E maxRetries retryDelay
      (Db.scripted_operation script) Db.scripted_delay operationName Db.fresh in
  (forall k v,
     (k < maxRetries)%nat ->
     (forall i, (i < k)%nat -> exists e, script i = inr e) ->
     script k = inl v ->
     run = (inl v, {| Db.calls := S k; Db.waited := Db.delays retryDelay k |})) /\
  (forall e,
     (forall i, (i < maxRetries)%nat -> exists e', script i = inr e') ->
     script (maxRetries - 1)%nat = inr e ->
     run = (inr (Db.DatabaseError
                   (operationName ++ " failed after "
                    ++ JsText.show (Z.of_nat maxRetries) ++ " attempts")%string e),
            {| Db.calls := maxRetries;
               Db.waited := Db.delays retryDelay (maxRetries - 1)%nat |})) /\
  (Db.calls (snd run) <= maxRetries)%nat.
Proof.
  intros Hn run.
  destruct (retryLoop_scripted A E maxRetries retryDelay script operationName
              maxRetries 0 None ltac:(lia)) as [Hok Hfail].
  cbn [Db.delays] in Hok, Hfail.
  assert (Hsucc : forall k v,
     (k < maxRetries)%nat ->
     (forall i, (i < k)%nat -> exists e, script i = inr e) ->
     script k = inl v ->
     run = (inl v, {| Db.calls := S k; Db.waited := Db.delays retryDelay k |})).
  { intros k v Hk Hbefore Hv. apply Hok; [lia | | exact Hv].
    intros i Hi. apply Hbefore. lia. }
  assert (Hthrow : forall e,
     (forall i, (i < maxRetries)%nat -> exists e', script i = inr e') ->
     script (maxRetries - 1)%nat = inr e ->
     run = (inr (Db.DatabaseError
                   (operationName ++ " failed after "
                    ++ JsText.show (Z.of_nat maxRetries) ++ " attempts")%string e),
            {| Db.calls := maxRetries;
               Db.waited := Db.delays retryDelay (maxRetries - 1)%nat |})).
  { intros e Hall Hlast. apply Hfail; [lia | | exact Hlast].
    intros i Hi. apply Hall. lia. }
  split; [exact Hsucc |]. split; [exact Hthrow |].
  destruct (first_success script maxRetries) as [(k & v & Hk & Hv & Hbefore) | Hall].
  - rewrite (Hsucc k v Hk Hbefore Hv). cbn. lia.
  - destruct (Hall (maxRetries - 1)%nat ltac:(lia)) as [e He].
    rewrite (Hthrow e Hall He). cbn. lia.
Qed.

Lemma withRetry_scripted_witness :
  Db.withRetry Db.Scripted nat string 3 1000
    (Db.scripted_operation
       (fun i => if (i <? 2)%nat then inr "timeout"%string else inl 42%nat))
    Db.scripted_delay "getLatestTick" Db.fresh
  = (inl 42%nat, {| Db.calls := 3; Db.waited := [2000; 1000]%Z |}).
Proof.
  apply (proj1 (withRetry_scripted 3 1000
                  (fun i => if (i <? 2)%nat then inr "timeout"%string else inl 42%nat)
                  "getLatestTick" ltac:(lia)) 2%nat 42%nat).
  - lia.
  - intros i Hi. exists "timeout"%string.
    destruct i as [| [| i]]; [reflexivity | reflexivity | lia].
  - reflexivity.
Defined.

(** With the values of the client, three attempts that all fail take two
    waits of 1000 and 2000 milliseconds. *)
Example withRetry_three_failures :
  Db.withRetry Db.Scripted nat string 3 1000
    (Db.scripted_operation (fun _ => inr "timeout"%string))
    Db.scripted_delay "updateSettings" Db.fresh
  = (inr (Db.DatabaseError "updateSettings failed after 3 attempts" "timeout"%string),
     {| Db.calls := 3; Db.waited := [2000; 1000]%Z |}).
Proof. vm_compute. reflexivity. Qed.

(** *** The target and split endpoints *)









(** With a database module that provides the class, over a database that
    answers, the same request is carried out: three calls in order, and the
    bounds of the new target in the response. *)
Example target_handler_with_client :
  let clock := {| Target.at_update := 1709210096789;
                  Target.at_log := 1709210096790 |} in
  let s := EndpointScenario.example_settings false in
  let u := Target.update 250 clock in
  Target.handler (EndpointScenario.providing s None) clock "POST"
    (Http.JsObject [("target_price"%string, Http.JsNumber 250)])
  = (Http.Success
       {| Target.target_price := 250;
          Target.bounds := Target.responseBounds 250;
          Target.run_id := "example-run-1";
          Target.updated_at := "2024-02-29T12:34:56.789Z" |},
     [Client.GetLatestSettings;
      Client.UpdateSettings u;
      Client.LogUserAction
        {| Client.run_id := "example-run-1";
           Client.action_type := "target_update";
           Client.payload :=
             Client.TargetUpdate 100 250 "2024-02-29T12:34:56.790Z" |}]).
Proof. vm_compute. reflexivity. Qed.





(** With a database module that provides the class, over a database that
    answers, the same request is carried out. *)
Example split_handler_with_client :
  let clock := {| Split.at_update := 1709210096789;
                  Split.at_log := 1709210096790 |} in
  let s := EndpointScenario.example_settings false in
  exists d a,
    Split.handler (EndpointScenario.providing s None) clock "POST"
      (Http.JsObject [("split_part1"%string, Http.JsNumber 0.7);
                      ("split_part2"%string, Http.JsNumber 0.3)])
    = (Http.Success d,
       [Client.GetLatestSettings;
        Client.UpdateSettings (Split.update 0.7 0.3 clock);
        Client.LogUserAction a]) /\
    Split.split_part1 d = 0.7 /\ Split.split_part2 d = 0.3 /\
    Split.is_valid d = true /\
    Client.payload a
    = Client.SplitUpdate 0.6 0.4 0.7 0.3 "2024-02-29T12:34:56.790Z".
Proof.
  cbv zeta. eexists. eexists. split; [vm_compute; reflexivity |].
  vm_compute. repeat split.
Qed.

(** The endpoint is stricter than the simulator: the weights 1.5 and -0.5,
    which [updateSplits] accepts, are refused for their range. *)
Example split_endpoint_refuses_negative_weight :
  Split.validate "POST"
    (Http.JsObject [("split_part1"%string, Http.JsNumber 1.5);
                    ("split_part2"%string, Http.JsNumber (-0.5))])
  = Http.validation_error "Invalid split_part1 range"
      "split_part1 must be between 0 and 1".
Proof. vm_compute. reflexivity. Qed.

(** *** The format of run identities *)

Lemma digit_not_separator (z : Z) :
  Ascii.eqb (Js.digit z) "-" = false /\ Ascii.eqb (Js.digit z) ":" = false.
Proof.
  unfold Js.digit.
  pose proof (Z.mod_pos_bound z 10 ltac:(lia)) as Hr.
  remember (z mod 10)%Z as r eqn:Er. clear Er.
  assert (Hcases : (r = 0 \/ r = 1 \/ r = 2 \/ r = 3 \/ r = 4 \/ r = 5 \/ r = 6
                    \/ r = 7 \/ r = 8 \/ r = 9)%Z) by lia.
  repeat (destruct Hcases as [-> | Hcases]; [split; reflexivity |]).
  subst r. split; reflexivity.
Qed.

(** X17. For a clock reading in the years 0 to 9999, the run identity is the
    UTC date as eight digits, a hyphen, the UTC time of day as six digits, a
    hyphen and the hexadecimal digits of the random bytes: 24 characters for
    four bytes. *)
Theorem generateRunId_format (now : Z) (random : list byte) (y m d : Z) :
  Js.civil_from_days (now / 1000 / 86400) = (y, m, d) ->
  (0 <= y <= 9999)%Z ->
  Control.generateRunId now random
  = (Js.four_digits y ++ Js.two_digits m ++ Js.two_digits d ++ "-"
     ++ Js.two_digits (now / 1000 / 3600 mod 24)
     ++ Js.two_digits (now / 1000 / 60 mod 60)
     ++ Js.two_digits (now / 1000 mod 60) ++ "-" ++ Js.toHex random)%string /\
  String.length (Control.generateRunId now random)
  = (16 + 2 * List.length random)%nat.
Proof.
  intros Hcivil Hy.
  assert (Hid : Control.generateRunId now random
    = (Js.four_digits y ++ Js.two_digits m ++ Js.two_digits d ++ "-"
       ++ Js.two_digits (now / 1000 / 3600 mod 24)
       ++ Js.two_digits (now / 1000 / 60 mod 60)
       ++ Js.two_digits (now / 1000 mod 60) ++ "-" ++ Js.toHex random)%string).
  { rewrite generateRunId_prefix. unfold Js.iso_seconds. rewrite Hcivil.
    unfold Js.iso_year.
    replace ((0 <=? y)%Z && (y <=? 9999)%Z) with true
      by (symmetry; apply andb_true_iff; split; apply Z.leb_le; lia).
    unfold Js.four_digits, Js.three_digits, Js.two_digits, Js.slice.
    cbn [append substring Nat.sub].
    repeat (cbn [Js.remove_all];
            rewrite ?(proj1 (digit_not_separator _)),
                    ?(proj2 (digit_not_separator _)));
    reflexivity. }
  split; [exact Hid |].
  rewrite Hid.
  unfold Js.four_digits, Js.three_digits, Js.two_digits.
  cbn [append String.length]. rewrite toHex_length. lia.
Qed.

Lemma generateRunId_format_witness :
  Control.generateRunId 1709210096789 [x00; xab; x10; xff]
  = "20240229-123456-00ab10ff"%string /\
  String.length (Control.generateRunId 1709210096789 [x00; xab; x10; xff]) = 24%nat.
Proof.
  destruct (generateRunId_format 1709210096789 [x00; xab; x10; xff] 2024 2 29)
    as [Hid Hlen].
  - vm_compute. reflexivity.
  - lia.
  - split; [rewrite Hid; vm_compute; reflexivity | exact Hlen].
Defined.

(** Beyond the year 9999 the ISO string starts with a sign and six digits,
    and the slices no longer hold the date and the time. *)
Example generateRunId_year_10000 :
  Control.generateRunId 253402300800000 [x00; xab; x10; xff]
  = "+01000001-01T0000-00ab10ff"%string.
Proof. vm_compute. reflexivity. Qed.

(** *** The health status *)

(** X18. The health endpoint answers 503 exactly when the database is not
    reachable ([testConnection] resolves to false or throws); otherwise it
    answers 200, with the status healthy exactly when the connection test
    took at most 5000 ms and the latest tick, if its age is known, is at
    most 10000 ms old, and degraded otherwise.  The simulation fields are
    filled in only when the database is reachable. *)
Theorem health_status (connection : bool + string) (responseTime : Z)
    (settings : option Settings.t) (tickAge : option Z) :
  let r := HealthCheck.check connection responseTime settings tickAge in
  (HealthCheck.httpStatus r = 503%nat <-> connection <> inl true) /\
  (HealthCheck.httpStatus r = 200%nat <-> connection = inl true) /\
  (HealthCheck.status r = HealthCheck.unhealthy <-> connection <> inl true) /\
  (HealthCheck.status r = HealthCheck.healthy <->
   connection = inl true /\ (responseTime <= 5000)%Z /\
   forall a, tickAge = Some a -> (a <= 10000)%Z) /\
  (connection <> inl true ->
   HealthCheck.run_id r = None /\ HealthCheck.is_paused r = None /\
   HealthCheck.target_price r = None /\ HealthCheck.last_tick_age_ms r = None).
Proof.
  cbv zeta. unfold HealthCheck.check.
  destruct connection as [[|] | msg]; cbn [negb andb HealthCheck.status
    HealthCheck.httpStatus HealthCheck.run_id HealthCheck.is_paused
    HealthCheck.target_price HealthCheck.last_tick_age_ms option_map].
  - destruct (5000 <? responseTime)%Z eqn:Hr.
    + apply Z.ltb_lt in Hr.
      repeat split; try discriminate; try congruence; try reflexivity;
        try (intros H; exfalso; apply H; reflexivity);
        try (intros (_ & H & _); lia); intros H; exfalso; apply H; reflexivity.
    + apply Z.ltb_ge in Hr.
      unfold HealthCheck.stale.
      destruct tickAge as [a |].
      * destruct (a =? 0)%Z eqn:Hz; destruct (10000 <? a)%Z eqn:Ha; cbn [negb andb];
          try apply Z.eqb_eq in Hz; try apply Z.ltb_lt in Ha; try apply Z.ltb_ge in Ha;
          repeat split; try discriminate; try congruence; try reflexivity;
          try (intros H; exfalso; apply H; reflexivity);
          try (intros b Hb; injection Hb as <-; lia);
          try (intros (_ & _ & H); specialize (H a eq_refl); lia);
          try lia.
      * repeat split; try discriminate; try congruence; try reflexivity;
          try (intros H; exfalso; apply H; reflexivity); try lia.
  - repeat split; try discriminate; try congruence; try reflexivity;
      try (intros (H & _); discriminate).
  - repeat split; try discriminate; try congruence; try reflexivity;
      try (intros (H & _); discriminate).
Qed.

(** *** The cached tick and the broadcast payload *)

Lemma generateTicks_frame (env : list (Q * Z)) (sim : Simulator) :
  let sim' := snd (generateTicks env sim) in
  target (state sim') = target (state sim) /\
  bounds (state sim') = bounds (state sim) /\
  splits (state sim') = splits (state sim) /\
  runId (state sim') = runId (state sim) /\
  isRunning (state sim') = isRunning (state sim) /\
  config sim' = config sim.
Proof.
  cbv zeta. revert sim. induction env as [| [z0 now] rest IH]; intros sim.
  - cbn. repeat split; reflexivity.
  - destruct (generateTick_frame z0 now sim)
      as (tick & sim1 & Hgen & Hst & Hcf & _).
    cbn [generateTicks]. rewrite Hgen.
    destruct (IH sim1) as (H1 & H2 & H3 & H4 & H5 & H6).
    destruct (generateTicks rest sim1) as [rs sim2]. cbn [snd] in *.
    rewrite H1, H2, H3, H4, H5, H6, Hst, Hcf. repeat split; reflexivity.
Qed.

(** The latest handler with the database module of the repository, and with
    a module that provides the class. *)
Lemma latest_handler_cases (method : string) :
  (forall d, fst (Latest.handler Supabase.SupabaseClient method) <> Http.Success d) /\
  snd (Latest.handler Supabase.SupabaseClient method) = [] /\
  Latest.handler Supabase.SupabaseClient "GET" = (Http.error500, []) /\
  (forall cachedClient latestTick settings,
     Client.getLatestTick cachedClient = Simulator.Normal (Some latestTick) ->
     Client.getLatestSettings cachedClient = Simulator.Normal (Some settings) ->
     Latest.handler (Supabase.Class (Simulator.Normal cachedClient)) "GET"
     = (Http.Success (Latest.portfolioSnapshot latestTick settings),
        [Client.GetLatestTick; Client.GetLatestSettings])).
Proof.
  unfold Latest.handler.
  repeat split.
  - destruct (negb (String.eqb method "GET")); cbn; discriminate.
  - destruct (negb (String.eqb method "GET")); reflexivity.
  - intros c t s Ht Hs. cbn. unfold Client.CachedDatabaseClient.
    rewrite Ht, Hs. reflexivity.
Qed.

(** X19. One iteration of the stream loop and the snapshot of the
    latest-snapshot handler agree.  For a simulator started from the
    settings [st] and advanced by any number of steps, the iteration
    advances the simulator exactly as [generateTick] does, whatever the
    connected clients.  The row it hands to the cache is answered by the
    latest-snapshot handler, whenever the database module provides the
    class and the cached client returns that row and the settings [st],
    with a snapshot that shows the run identity of the settings, the same
    timestamp and percentage from the target as the payload broadcast to
    the clients, the unrounded values of the tick, and bounds equal in
    value to those of the tick.  With the database module of the
    repository, which has no [SupabaseClient], the handler answers every
    GET request with 500 and serves no snapshot. *)
Theorem iteration_matches_latest (st : Settings.t) (tick0 : option TickData.t)
    (sim0 : Simulator) (env : list (Q * Z)) (z0 : Q) (now : Z)
    (clients : list StreamLoop.Client) :
  StreamLoop.initializeSimulator (Some st) tick0 = Simulator.Normal sim0 ->
  let sim := snd (generateTicks env sim0) in
  exists tick row sim',
    Simulator.generateTick z0 now sim = (Simulator.Normal tick, sim') /\
    let payload := Stream.formatTickForStream (List.length clients) tick in
    StreamLoop.iteration z0 now clients sim
    = (Simulator.Normal (row, StreamLoop.broadcast payload clients), sim') /\
    Latest.handler Supabase.SupabaseClient "GET" = (Http.error500, []) /\
    exists snap,
      (forall cachedClient,
         Client.getLatestTick cachedClient = Simulator.Normal (Some row) ->
         Client.getLatestSettings cachedClient = Simulator.Normal (Some st) ->
         Latest.handler (Supabase.Class (Simulator.Normal cachedClient)) "GET"
         = (Http.Success snap,
            [Client.GetLatestTick; Client.GetLatestSettings])) /\
      Latest.run_id snap = Settings.run_id st /\
      Latest.timestamp snap = StreamTick.timestamp payload /\
      Latest.pct_from_target snap = StreamTick.pct_from_target payload /\
      Latest.total_value snap = TickResult.total_value tick /\
      Latest.part1_value snap = TickResult.part1_value tick /\
      Latest.part2_value snap = TickResult.part2_value tick /\
      Latest.target snap = TickResult.target tick /\
      lower (Latest.bounds snap) == lower (TickResult.bounds tick) /\
      upper (Latest.bounds snap) == upper (TickResult.bounds tick).
Proof.
  intros Hinit sim.
  assert (Hsim0 : target (state sim0) = Settings.target_price st
                  /\ runId (state sim0) = Settings.run_id st
                  /\ bounds (state sim0)
                     = {| lower := Settings.target_price st * (1 - 0.05);
                          upper := Settings.target_price st * (1 + 0.05) |}).
  { cbn in Hinit. injection Hinit as <-. repeat split; reflexivity. }
  destruct Hsim0 as (Ht0 & Hr0 & Hb0).
  destruct (generateTicks_frame env sim0) as (Ht & Hb & _ & Hr & _ & _).
  fold sim in Ht, Hb, Hr. rewrite Ht0 in Ht. rewrite Hr0 in Hr. rewrite Hb0 in Hb.
  destruct (generateTick_frame z0 now sim)
    as (tick & sim' & Hgen & Hst & _ & Hbt & Htt & _).
  destruct (generateTick_pct z0 now sim) as (tick1 & sim1 & Hgen1 & _ & Hpct).
  rewrite Hgen in Hgen1. injection Hgen1 as <- <-.
  assert (Hts : TickResult.timestamp tick = Js.toISOString now).
  { revert Hgen. run_method.
    destruct (negb (isRunning (state sim))); intros Hgen;
      injection Hgen as <- _; reflexivity. }
  exists tick.
  eexists. exists sim'. split; [exact Hgen |]. cbv zeta.
  split.
  { unfold StreamLoop.iteration, Simulator.bind at 1. rewrite Hgen.
    unfold Simulator.bind, Simulator.toTickData, Simulator.getState_, Simulator.ret.
    reflexivity. }
  destruct (latest_handler_cases "GET") as (_ & _ & Hrepo & Hserved).
  split; [exact Hrepo |].
  eexists. split; [intros c Hrow Hsettings; exact (Hserved c _ _ Hrow Hsettings) |].
  cbn [Latest.portfolioSnapshot
       Latest.run_id Latest.timestamp Latest.pct_from_target Latest.total_value
       Latest.part1_value Latest.part2_value Latest.target Latest.bounds
       TickData.run_id TickData.timestamp TickData.total_value
       TickData.part1_value TickData.part2_value lower upper
       Stream.formatTickForStream StreamTick.timestamp StreamTick.pct_from_target].
  assert (Hr' : runId (state sim') = Settings.run_id st)
    by (rewrite Hst; exact Hr).
  rewrite Hr', Hpct, Htt, Hbt, Ht, Hb. cbn [lower upper].
  repeat split; try reflexivity; ring.
Qed.

Lemma iteration_matches_latest_witness :
  let st := EndpointScenario.example_settings false in
  exists sim0 tick row sim' snap,
    StreamLoop.initializeSimulator (Some st) None = Simulator.Normal sim0 /\
    Simulator.generateTick 1 1709210096789 sim0 = (Simulator.Normal tick, sim') /\
    Latest.handler (EndpointScenario.providing st (Some row)) "GET"
    = (Http.Success snap, [Client.GetLatestTick; Client.GetLatestSettings]) /\
    Latest.timestamp snap = "2024-02-29T12:34:56.789Z"%string.
Proof.
  cbv zeta. eexists.
  match goal with
  | |- exists tick row sim' snap, ?I = Simulator.Normal ?s /\ _ =>
      assert (Hinit : I = Simulator.Normal s) by reflexivity
  end.
  destruct (iteration_matches_latest _ None _ [] 1 1709210096789 [] Hinit)
    as (tick & row & sim' & Hgen & _ & _ & snap & Hserved & _ & Hts & _).
  exists tick, row, sim', snap.
  split; [exact Hinit |]. split; [exact Hgen |].
  split; [apply Hserved; reflexivity |].
  rewrite Hts. cbn [Stream.formatTickForStream StreamTick.timestamp].
  revert Hgen. run_method. cbn. intros Hgen. injection Hgen as <- _. reflexivity.
Defined.

(** *** Instances *)

Lemma initializeSimulator_spec_witness :
  StreamLoop.initializeSimulator None None
  = Simulator.Throw "No settings found for simulation initialization".
Proof. exact (initializeSimulator_spec None None). Defined.

Lemma broadcast_isolated_witness :
  let healthy := {| StreamLoop.client_id := 1; StreamLoop.writableEnded := false;
                    StreamLoop.writes_before_throw := None;
                    StreamLoop.written := [] |} in
  let broken := {| StreamLoop.client_id := 2; StreamLoop.writableEnded := false;
                   StreamLoop.writes_before_throw := Some 1%nat;
                   StreamLoop.written := [] |} in
  let payload := Stream.formatTickForStream 2 off_target_tick in
  exists c',
    In c' (StreamLoop.broadcast payload [broken; healthy]) /\
    StreamLoop.client_id c' = 1%nat /\
    StreamLoop.written c'
    = [StreamLoop.DataLine payload; StreamLoop.EventLine "tick"].
Proof.
  cbv zeta.
  apply (proj1 (proj2 (broadcast_isolated
                         (Stream.formatTickForStream 2 off_target_tick)
                         [ {| StreamLoop.client_id := 2;
                              StreamLoop.writableEnded := false;
                              StreamLoop.writes_before_throw := Some 1%nat;
                              StreamLoop.written := [] |};
                           {| StreamLoop.client_id := 1;
                              StreamLoop.writableEnded := false;
                              StreamLoop.writes_before_throw := None;
                              StreamLoop.written := [] |} ]))
           {| StreamLoop.client_id := 1; StreamLoop.writableEnded := false;
              StreamLoop.writes_before_throw := None;
              StreamLoop.written := [] |}).
  - right. left. reflexivity.
  - reflexivity.
Defined.


Lemma health_status_witness :
  HealthCheck.httpStatus
    (HealthCheck.check (inr "connect ETIMEDOUT"%string) 30000 None None)
  = 503%nat.
Proof.
  apply (proj1 (health_status (inr "connect ETIMEDOUT"%string) 30000 None None)).
  discriminate.
Defined.

(** *** The cache *)

(** X20. A tick stored in the cache at a clock reading [t0] other than 0 is
    returned by a read at [t] exactly when at most 2000 ms have passed; a
    read after that returns nothing and drops the entry, so that every later
    read returns nothing whatever the clock says.  The same holds for the
    settings with 30000 ms.  Storing a tick does not change what a read of
    the settings returns, and an invalidated entry is not returned. *)
Theorem cache_time_to_live (c : Cache.CacheManager) (tick : TickData.t)
    (s : Settings.t) (t0 t t' : Z) :
  t0 <> 0%Z ->
  let ct := Cache.setLatestTick t0 tick c in
  let cs := Cache.setSettings t0 s c in
  ((t - t0 <= 2000)%Z -> Cache.getLatestTick t ct = (Some tick, ct)) /\
  ((2000 < t - t0)%Z ->
   fst (Cache.getLatestTick t ct) = None /\
   fst (Cache.getLatestTick t' (snd (Cache.getLatestTick t ct))) = None) /\
  ((t - t0 <= 30000)%Z -> Cache.getSettings t cs = (Some s, cs)) /\
  ((30000 < t - t0)%Z ->
   fst (Cache.getSettings t cs) = None /\
   fst (Cache.getSettings t' (snd (Cache.getSettings t cs))) = None) /\
  fst (Cache.getSettings t ct) = fst (Cache.getSettings t c) /\
  fst (Cache.getLatestTick t cs) = fst (Cache.getLatestTick t c) /\
  fst (Cache.getLatestTick t (Cache.invalidateTick c)) = None /\
  fst (Cache.getSettings t (Cache.invalidateSettings c)) = None.
Proof.
  intros Ht0. cbv zeta.
  unfold Cache.getLatestTick, Cache.getSettings, Cache.isTickExpired,
    Cache.isSettingsExpired, Cache.setLatestTick, Cache.setSettings,
    Cache.invalidateTick, Cache.invalidateSettings, Cache.TICK_TTL,
    Cache.SETTINGS_TTL.
  cbn [Cache.latestTick Cache.settings Cache.lastTickUpdate Cache.lastSettingsUpdate].
  destruct (Z.eqb_spec t0 0) as [E | _]; [contradiction |].
  repeat split.
  - intros H. destruct (Z.ltb_spec 2000 (t - t0)); [lia | reflexivity].
  - destruct (Z.ltb_spec 2000 (t - t0)); [reflexivity | lia].
  - destruct (Z.ltb_spec 2000 (t - t0)); [| lia].
    cbn [snd Cache.latestTick Cache.lastTickUpdate].
    destruct (Z.eqb_spec t0 0); [contradiction |].
    destruct (2000 <? t' - t0)%Z; reflexivity.
  - intros H. destruct (Z.ltb_spec 30000 (t - t0)); [lia | reflexivity].
  - destruct (Z.ltb_spec 30000 (t - t0)); [reflexivity | lia].
  - destruct (Z.ltb_spec 30000 (t - t0)); [| lia].
    cbn [snd Cache.settings Cache.lastSettingsUpdate].
    destruct (Z.eqb_spec t0 0); [contradiction |].
    destruct (30000 <? t' - t0)%Z; reflexivity.
  - destruct (Cache.lastSettingsUpdate c =? 0)%Z;
      [| destruct (30000 <? t - Cache.lastSettingsUpdate c)%Z]; reflexivity.
  - destruct (Cache.lastTickUpdate c =? 0)%Z;
      [| destruct (2000 <? t - Cache.lastTickUpdate c)%Z]; reflexivity.
Qed.

Lemma cache_time_to_live_witness :
  Cache.getLatestTick 1709210098789
    (Cache.setLatestTick 1709210096789
       (stored_tick "2024-02-29T12:34:56.789Z" 99) Cache.empty)
  = (Some (stored_tick "2024-02-29T12:34:56.789Z" 99),
     Cache.setLatestTick 1709210096789
       (stored_tick "2024-02-29T12:34:56.789Z" 99) Cache.empty).
Proof.
  pose (s := {| Settings.id := "1"; Settings.run_id := "example-run-1";
                Settings.target_price := 100; Settings.split_part1 := 0.6;
                Settings.split_part2 := 0.4; Settings.is_paused := false;
                Settings.created_at := ""; Settings.updated_at := "" |}).
  apply (proj1 (cache_time_to_live Cache.empty
                  (stored_tick "2024-02-29T12:34:56.789Z" 99) s
                  1709210096789 1709210098789 0 ltac:(lia))).
  lia.
Defined.

(** *** The cached client *)

Lemma getLatestSettings_hit
    (database : option string -> Simulator.Completion (option Settings.t))
    (runId : option string) (now later : Z) (cache : Cache.CacheManager)
    (s : Settings.t) :
  fst (Cache.getSettings now cache) = Some s ->
  CachedClient.run_matches runId (Settings.run_id s) = true ->
  CachedClient.getLatestSettings database runId now later cache
  = (Simulator.Normal (Some s), cache).
Proof.
  intros Hhit Hrun. unfold CachedClient.getLatestSettings.
  unfold Cache.getSettings in *.
  destruct (Cache.isSettingsExpired now cache); cbn [fst] in Hhit;
    [discriminate |].
  rewrite Hhit, Hrun. reflexivity.
Qed.

Lemma getLatestTick_hit
    (database : option string -> Simulator.Completion (option TickData.t))
    (runId : option string) (now later : Z) (cache : Cache.CacheManager)
    (tick : TickData.t) :
  fst (Cache.getLatestTick now cache) = Some tick ->
  CachedClient.run_matches runId (TickData.run_id tick) = true ->
  CachedClient.getLatestTick database runId now later cache
  = (Simulator.Normal (Some tick), cache).
Proof.
  intros Hhit Hrun. unfold CachedClient.getLatestTick.
  unfold Cache.getLatestTick in *.
  destruct (Cache.isTickExpired now cache); cbn [fst] in Hhit;
    [discriminate |].
  rewrite Hhit, Hrun. reflexivity.
Qed.

(** X21. A read of the settings or of the latest tick through the cached
    client that finds an unexpired entry, for a query without a run identity
    or for the run identity of the entry, returns the entry and leaves the
    cache as it is, whatever the database holds or throws: for up to 30
    seconds (2 seconds for the tick) the client may return a value older
    than that of the database. *)
Theorem cached_settings_hit
    (settingsDb : option string -> Simulator.Completion (option Settings.t))
    (tickDb : option string -> Simulator.Completion (option TickData.t))
    (runId : option string) (now later : Z) (cache : Cache.CacheManager) :
  (forall s,
     fst (Cache.getSettings now cache) = Some s ->
     CachedClient.run_matches runId (Settings.run_id s) = true ->
     CachedClient.getLatestSettings settingsDb runId now later cache
     = (Simulator.Normal (Some s), cache)) /\
  (forall tick,
     fst (Cache.getLatestTick now cache) = Some tick ->
     CachedClient.run_matches runId (TickData.run_id tick) = true ->
     CachedClient.getLatestTick tickDb runId now later cache
     = (Simulator.Normal (Some tick), cache)).
Proof.
  split.
  - intros s. apply getLatestSettings_hit.
  - intros tick. apply getLatestTick_hit.
Qed.

(** X22. A read of the settings of the run [r] that misses the cache, or
    finds the settings of another run, stores what the database returns for
    [r]; a read without a run identity within the next 30 seconds is then
    answered with the settings of [r] from the cache, whatever the latest
    settings of the database are. *)
Theorem cached_settings_run_query_fills_cache
    (database database' : option string -> Simulator.Completion (option Settings.t))
    (r : string) (s : Settings.t) (now later now' later' : Z)
    (cache : Cache.CacheManager) :
  r <> ""%string ->
  match fst (Cache.getSettings now cache) with
  | Some s0 => Settings.run_id s0 <> r
  | None => True
  end ->
  database (Some r) = Simulator.Normal (Some s) ->
  later <> 0%Z -> (now' - later <= 30000)%Z ->
  exists cache',
    CachedClient.getLatestSettings database (Some r) now later cache
    = (Simulator.Normal (Some s), cache') /\
    CachedClient.getLatestSettings database' None now' later' cache'
    = (Simulator.Normal (Some s), cache').
Proof.
  intros Hr Hmiss Hdb Hlater Hfresh.
  assert (Hfirst : exists cache1,
    CachedClient.getLatestSettings database (Some r) now later cache
    = (Simulator.Normal (Some s), Cache.setSettings later s cache1)).
  { unfold CachedClient.getLatestSettings.
    destruct (Cache.getSettings now cache) as [[s0 |] cache1]; cbn [fst] in Hmiss.
    - assert (Hno : CachedClient.run_matches (Some r) (Settings.run_id s0) = false).
      { unfold CachedClient.run_matches. destruct r as [| c r]; [contradiction |].
        cbn [Simulator.truthy negb orb].
        apply String.eqb_neq. exact Hmiss. }
      rewrite Hno, Hdb. exists cache1. reflexivity.
    - rewrite Hdb. exists cache1. reflexivity. }
  destruct Hfirst as [cache1 Hfirst].
  exists (Cache.setSettings later s cache1). split; [exact Hfirst |].
  apply getLatestSettings_hit; [| reflexivity].
  unfold Cache.getSettings, Cache.isSettingsExpired, Cache.setSettings, Cache.SETTINGS_TTL.
  cbn [Cache.lastSettingsUpdate Cache.settings].
  destruct (Z.eqb_spec later 0); [contradiction |].
  destruct (Z.ltb_spec 30000 (now' - later)); [lia | reflexivity].
Qed.

Lemma cached_settings_hit_witness :
  let s := {| Settings.id := "1"; Settings.run_id := "example-run-1";
              Settings.target_price := 100; Settings.split_part1 := 0.6;
              Settings.split_part2 := 0.4; Settings.is_paused := false;
              Settings.created_at := ""; Settings.updated_at := "" |} in
  CachedClient.getLatestSettings (fun _ => Simulator.Normal None) None
    1709210097789 1709210097790 (Cache.setSettings 1709210096789 s Cache.empty)
  = (Simulator.Normal (Some s), Cache.setSettings 1709210096789 s Cache.empty).
Proof.
  cbv zeta.
  apply (proj1 (cached_settings_hit (fun _ => Simulator.Normal None)
                  (fun _ => Simulator.Normal None) None
                  1709210097789 1709210097790 _)); reflexivity.
Defined.

Lemma cached_settings_run_query_fills_cache_witness :
  let s := {| Settings.id := "1"; Settings.run_id := "old-run";
              Settings.target_price := 100; Settings.split_part1 := 0.6;
              Settings.split_part2 := 0.4; Settings.is_paused := false;
              Settings.created_at := ""; Settings.updated_at := "" |} in
  exists cache',
    CachedClient.getLatestSettings (fun _ => Simulator.Normal (Some s))
      (Some "old-run"%string) 1709210096789 1709210096790 Cache.empty
    = (Simulator.Normal (Some s), cache') /\
    CachedClient.getLatestSettings (fun _ => Simulator.Normal None) None
      1709210097789 1709210097790 cache'
    = (Simulator.Normal (Some s), cache').
Proof.
  cbv zeta.
  apply (cached_settings_run_query_fills_cache
           (fun _ => Simulator.Normal (Some _)) (fun _ => Simulator.Normal None)
           "old-run").
  - discriminate.
  - exact I.
  - reflexivity.
  - lia.
  - lia.
Defined.

(** X23. Writes go through to the cache.  After a successful
    [updateSettings] at a clock reading other than 0 the cache holds the
    updated settings for 30 seconds, and after a successful
    [batchInsertTicks] of a batch that is not empty it holds the last tick
    of the batch for 2 seconds; an empty batch and a failed database call
    leave the cache as it was. *)
Theorem cached_client_write_through (cache : Cache.CacheManager)
    (updated : Settings.t) (first : TickData.t) (rest : list TickData.t)
    (ticks : list TickData.t) (e : string) (now t : Z) :
  now <> 0%Z ->
  ((t - now <= 30000)%Z ->
   fst (Cache.getSettings t
          (snd (CachedClient.updateSettings (Simulator.Normal updated) now cache)))
   = Some updated) /\
  ((t - now <= 2000)%Z ->
   fst (Cache.getLatestTick t
          (snd (CachedClient.batchInsertTicks (Simulator.Normal tt)
                  (first :: rest) now cache)))
   = Some (last (first :: rest) first)) /\
  snd (CachedClient.batchInsertTicks (Simulator.Normal tt) [] now cache) = cache /\
  snd (CachedClient.batchInsertTicks (Simulator.Throw e) ticks now cache) = cache /\
  snd (CachedClient.updateSettings (Simulator.Throw e) now cache) = cache.
Proof.
  intros Hnow.
  unfold CachedClient.updateSettings, CachedClient.batchInsertTicks,
    Cache.getSettings, Cache.getLatestTick, Cache.isSettingsExpired,
    Cache.isTickExpired, Cache.setSettings, Cache.setLatestTick,
    Cache.invalidateSettings, Cache.SETTINGS_TTL, Cache.TICK_TTL.
  cbn [snd Cache.lastSettingsUpdate Cache.lastTickUpdate Cache.settings
       Cache.latestTick].
  destruct (Z.eqb_spec now 0); [contradiction |].
  repeat split.
  - intros H. destruct (Z.ltb_spec 30000 (t - now)); [lia | reflexivity].
  - intros H. destruct (Z.ltb_spec 2000 (t - now)); [lia |].
    cbn [fst]. rewrite last_cons_default. reflexivity.
Qed.

Lemma cached_client_write_through_witness :
  fst (Cache.getLatestTick 1709210097789
         (snd (CachedClient.batchInsertTicks (Simulator.Normal tt)
                 [stored_tick "2024-02-29T12:34:55.789Z" 98;
                  stored_tick "2024-02-29T12:34:56.789Z" 99]
                 1709210096789 Cache.empty)))
  = Some (stored_tick "2024-02-29T12:34:56.789Z" 99).
Proof.
  pose (s := {| Settings.id := "1"; Settings.run_id := "example-run-1";
                Settings.target_price := 100; Settings.split_part1 := 0.6;
                Settings.split_part2 := 0.4; Settings.is_paused := false;
                Settings.created_at := ""; Settings.updated_at := "" |}).
  apply (proj1 (proj2 (cached_client_write_through Cache.empty s
                         (stored_tick "2024-02-29T12:34:55.789Z" 98)
                         [stored_tick "2024-02-29T12:34:56.789Z" 99]
                         [] "" 1709210096789 1709210097789 ltac:(lia)))).
  lia.
Defined.

(** *** Control requests *)






(** A reset over a database that answers: the settings are read, default
    settings are initialised under the new run identity, the current target
    and weights are written, and the audit record names the new state. *)
Example control_reset_with_client :
  let clock := {| ControlHandler.at_payload := 1709210096789;
                  ControlHandler.at_run_id := 1709210096790;
                  ControlHandler.at_update := 1709210096791 |} in
  let s := EndpointScenario.example_settings true in
  exists d a,
    ControlHandler.handler (EndpointScenario.providing s None) clock
      [x00; xab; x10; xff] "POST"
      (Http.JsObject [("action"%string, Http.JsString "reset")])
    = (Http.Success d,
       [Client.GetLatestSettings;
        Client.InitializeDefaultSettings "20240229-123456-00ab10ff";
        Client.UpdateSettings (ControlHandler.reset_update s clock);
        Client.LogUserAction a]) /\
    ControlHandler.is_paused d = false /\
    Client.payload a
    = Client.ControlAction
        {| Client.p_action := "reset";
           Client.p_timestamp := "2024-02-29T12:34:56.789Z";
           Client.previous_is_paused := true;
           Client.previous_run_id := "example-run-1";
           Client.new_state :=
             Client.ResetState "20240229-123456-00ab10ff" 100 |}.
Proof.
  cbv zeta. eexists. eexists. split; [vm_compute; reflexivity |].
  vm_compute. split; reflexivity.
Qed.
